(** * Token ingestion and logout cache clearing of msal-browser

    A shallow embedding of

    - [TokenCache] (cache/TokenCache.ts): [loadExternalTokens] and its four
      private loaders [loadAccount], [loadIdToken], [loadAccessToken],
      [loadRefreshToken];
    - [BaseInteractionClient.clearCacheOnLogout]
      (interaction_client/BaseInteractionClient.ts).

    Both are effectful: they call the storage and crypto collaborators and
    they throw.  A JavaScript exception does not roll anything back, so a
    computation is a function from the state of the collaborators (the
    "world") to the world it leaves behind together with either a value or
    the thrown error.

    The code of the collaborators is not part of these two files.  The
    stateful ones (storage adapter, crypto provider, clock) are interfaces
    over an abstract world, and every property below holds for all their
    implementations; an in-memory implementation serves the examples.  The
    protocol library (msal-common) is split: parsing and resolution are
    parameters, and so are the errors its constructors throw on an argument
    they reject; the entities, their keys and the scope set are modelled
    from the specification.

    JavaScript numbers are rationals here ([Q]); IEEE rounding, NaN and the
    infinities are outside the model.  Calls to the logger do not influence
    control flow or the cache and are left out. *)

From Stdlib Require Import String Ascii List ZArith QArith Bool.
From Stdlib Require Import OrderedTypeEx Sorted.
From stdpp Require Import base option gmap strings.

Local Open Scope string_scope.

(** ** Exceptions and the computation monad *)

(** The two expiry fields whose absence [loadAccessToken] reports. *)
Inductive ExpiryField : Type :=
| expires_in_field
| extendedExpiresOn_field.

(** The throw sites of TokenCache.ts, all of them
    [BrowserAuthError.createUnableToLoadTokenError (errorDetail)], named as in
    the specification. *)
Inductive LoadFailure : Type :=
| MissingIdToken
| MissingAccountOrAuthority
| MissingClientInfo
| UnresolvedIdentity
| MissingExpiry (field : ExpiryField)
| UnsupportedEnvironment.

(** The message each throw site passes to [createUnableToLoadTokenError]. *)
Definition errorDetail (f : LoadFailure) : string :=
  match f with
  | MissingIdToken => "Please ensure server response includes id token."
  | MissingAccountOrAuthority =>
      "Please provide a request with an account or a request with authority."
  | MissingClientInfo => "Please provide clientInfo in the response or options."
  | UnresolvedIdentity => "Unexpected missing homeAccountId"
  | MissingExpiry expires_in_field =>
      "Please ensure server response includes expires_in value."
  | MissingExpiry extendedExpiresOn_field =>
      "Please provide an extendedExpiresOn value in the options."
  | UnsupportedEnvironment =>
      "loadExternalTokens is designed to work in browser environments only."
  end.

(** What can be thrown: one of the errors above, or whatever a collaborator
    (protocol library, storage adapter, crypto provider) throws or rejects
    with. *)
Inductive Thrown : Type :=
| UnableToLoadTokenError (f : LoadFailure)
| CollaboratorError (code : string).

Inductive Result (A : Type) : Type :=
| Ok (a : A)
| Throw (e : Thrown).
Arguments Ok {A} a.
Arguments Throw {A} e.

(** A computation over the world [W]. *)
Definition M (W A : Type) : Type := W -> W * Result A.

Definition ret {W A : Type} (a : A) : M W A := fun w => (w, Ok a).

Definition throw {W A : Type} (e : Thrown) : M W A := fun w => (w, Throw e).

Definition bind {W A B : Type} (m : M W A) (k : A -> M W B) : M W B :=
  fun w =>
    match m w with
    | (w', Ok a) => k a w'
    | (w', Throw e) => (w', Throw e)
    end.

(** [try { body } catch (e) { handler e }]: the handler starts from the world
    the body left when it threw. *)
Definition try_catch {W A : Type} (body : M W A) (handler : Thrown -> M W A)
  : M W A :=
  fun w =>
    match body w with
    | (w', Ok a) => (w', Ok a)
    | (w', Throw e) => handler e w'
    end.

(** A constructor or a static method of a collaborator that validates its
    argument: [error] is what it throws, if anything. *)
Definition guard {W : Type} (error : option string) : M W unit :=
  match error with
  | Some code => throw (CollaboratorError code)
  | None => ret tt
  end.

Declare Scope js_scope.
Delimit Scope js_scope with js.
Notation "x <- m ;; k" := (bind m (fun x => k))
  (at level 100, m at next level, right associativity) : js_scope.
Notation "m ;;; k" := (bind m (fun _ => k))
  (at level 100, right associativity) : js_scope.

(** ** JavaScript truthiness

    [if (x)] on an optional string holds when [x] is defined and not the
    empty string; on an optional number when it is defined and not zero. *)

Definition truthy (x : option string) : option string :=
  match x with
  | Some s => if String.eqb s "" then None else Some s
  | None => None
  end.

Definition truthyNumber (x : option Q) : option Q :=
  match x with
  | Some q => if Qeq_bool q 0 then None else Some q
  | None => None
  end.

(** ** Requests, responses, options *)

Module AccountInfo.
Record t : Type := mk {
  homeAccountId : string;
  environment : string;
  tenantId : string;
  username : string;
  localAccountId : string
}.
End AccountInfo.

Record AzureCloudOptions : Type := {
  azureCloudInstance : string;
  cloudTenant : option string
}.

Module SilentRequest.
Record t : Type := mk {
  account : option AccountInfo.t;
  authority : option string;
  scopes : list string;
  azureCloudOptions : option AzureCloudOptions
}.
End SilentRequest.

Module ExternalTokenResponse.
Record t : Type := mk {
  id_token : option string;
  client_info : option string;
  access_token : option string;
  expires_in : option Q;
  refresh_token : option string
}.
End ExternalTokenResponse.

Module LoadTokenOptions.
Record t : Type := mk {
  clientInfo : option string;
  expiresOn : option Q;
  extendedExpiresOn : option Q
}.
End LoadTokenOptions.

(** ** The protocol library (msal-common)

    Token parsing, authority resolution and identity derivation belong to the
    protocol library, whose code is not part of the two files embedded here.
    They are taken as parameters.  A constructor that validates its argument
    ([new AuthToken], [new Authority], [new ScopeSet]) comes as two of them:
    the error it throws on an argument it rejects, and the object it builds
    from one it accepts. *)

(** The claims of a parsed ID token: a JSON object read as a finite map. *)
Abbreviation TokenClaims := (gmap string string).

Module AuthToken.
Record t : Type := mk {
  rawToken : string;
  claims : TokenClaims
}.
End AuthToken.

(** TypeScript numeric enum. *)
Definition AuthorityType : Type := N.

Module Authority.
Record t : Type := mk {
  hostnameAndPort : string;
  tenant : string;
  authorityType : AuthorityType
}.
End Authority.

Class ProtocolLibrary : Type := {
  (** [String.prototype.toLowerCase], with which the library lower-cases
      keys and scopes; the case mapping of the runtime is not fixed here *)
  toLowerCase : string -> string;
  (** what [new AuthToken (idToken, cryptoObj)] throws on a raw token it
      cannot parse *)
  tokenError : string -> option string;
  (** the claim parsing done by [new AuthToken (idToken, cryptoObj)] *)
  extractTokenClaims : string -> TokenClaims;
  (** the tenant a set of claims names *)
  claimsRealm : TokenClaims -> string;
  (** what [Authority.generateAuthority] followed by [new Authority (...)]
      throws on an authority it rejects *)
  authorityError : string -> option AzureCloudOptions -> option string;
  (** [Authority.generateAuthority] followed by [new Authority (...)] *)
  resolveAuthority : string -> option AzureCloudOptions -> Authority.t;
  (** [AccountEntity.generateHomeAccountId] *)
  generateHomeAccountId : string -> AuthorityType -> AuthToken.t -> string;
  (** [AccountEntity.accountInfoIsEqual (a, b, compareClaims)] *)
  accountInfoIsEqual : AccountInfo.t -> option AccountInfo.t -> bool -> bool;
  (** what [new ScopeSet (inputScopes)] throws when it rejects the scopes it
      is given; lists that differ in order, case or repetition are one scope
      set, and the error is a function of that set *)
  scopeSetError : list string -> option string
}.

Definition newAuthToken `{ProtocolLibrary} (idToken : string) : AuthToken.t :=
  AuthToken.mk idToken (extractTokenClaims idToken).

(** ** Canonical entities and their keys (msal-common) *)

(** Modelled from the spec: the key scheme of the entities, which the
    entity classes of msal-common implement.  "A deterministic string key
    built from lower-cased, delimiter-joined semantic fields". *)
Definition cacheKey `{ProtocolLibrary} (fields : list string) : string :=
  toLowerCase (String.concat "-" fields).

Module ScopeSet.

(** Modelled from the spec: the ScopeSet class of msal-common.  "Scopes are
    canonicalized (deduplicated, case-insensitive, stably ordered)": a scope
    set keeps its members lower-cased, each once, in increasing order. *)
Definition t : Type := list string.

(** Modelled from the spec: adding a member to a scope set keeps it
    increasing and free of repetitions. *)
Fixpoint insert (x : string) (l : list string) : list string :=
  match l with
  | [] => [x]
  | y :: r =>
      match String_as_OT.cmp x y with
      | Lt => x :: y :: r
      | Eq => y :: r
      | Gt => y :: insert x r
      end
  end.

(** Modelled from the spec: [new ScopeSet (inputScopes)], the canonical
    form of a list of scopes. *)
Definition new `{ProtocolLibrary} (inputScopes : list string) : t :=
  fold_right insert [] (map toLowerCase inputScopes).

(** Modelled from the spec: [printScopes], the "normalized string form" of a
    scope set, its members joined by a space. *)
Definition printScopes (s : t) : string := String.concat " " s.

End ScopeSet.

Module AccountEntity.

(** Modelled from the spec: the Account entity of msal-common, with the
    fields of the data model; [clientInfo] is what tells a "full" account
    (claims and client-info-derived fields) from a "generic" one (claims
    only). *)
Record t : Type := mk {
  homeAccountId : string;
  environment : string;
  realm : string;
  idTokenClaims : TokenClaims;
  clientInfo : option string
}.

(** Modelled from the spec: [AccountEntity.createAccount], the "full"
    account. *)
Definition createAccount `{ProtocolLibrary} (clientInfo homeAccountId : string)
    (idToken : AuthToken.t) (environment : string) : t :=
  mk homeAccountId environment (claimsRealm (AuthToken.claims idToken))
     (AuthToken.claims idToken) (Some clientInfo).

(** Modelled from the spec: [AccountEntity.createGenericAccount], the
    "generic" account. *)
Definition createGenericAccount `{ProtocolLibrary} (homeAccountId : string)
    (idToken : AuthToken.t) (environment : string) : t :=
  mk homeAccountId environment (claimsRealm (AuthToken.claims idToken))
     (AuthToken.claims idToken) None.

(** Modelled from the spec: the key of an account, from its key fields. *)
Definition generateAccountKey `{ProtocolLibrary} (a : t) : string :=
  cacheKey [homeAccountId a; environment a; realm a].

(** Modelled from the spec: [AccountEntity.generateAccountCacheKey], the key
    of the account entity an [AccountInfo] stands for. *)
Definition generateAccountCacheKey `{ProtocolLibrary} (a : AccountInfo.t)
  : string :=
  cacheKey [AccountInfo.homeAccountId a; AccountInfo.environment a;
            AccountInfo.tenantId a].

End AccountEntity.

Module IdTokenEntity.

(** Modelled from the spec: the IdToken entity of msal-common. *)
Record t : Type := mk {
  homeAccountId : string;
  environment : string;
  secret : string;
  clientId : string;
  realm : string
}.

(** Modelled from the spec: [IdTokenEntity.createIdTokenEntity]. *)
Definition createIdTokenEntity (homeAccountId environment idToken clientId
    tenantId : string) : t :=
  mk homeAccountId environment idToken clientId tenantId.

(** Modelled from the spec: the key of an ID token, from its key fields. *)
Definition generateCredentialKey `{ProtocolLibrary} (e : t) : string :=
  cacheKey [homeAccountId e; environment e; "idtoken"; clientId e; realm e].

End IdTokenEntity.

Module AccessTokenEntity.

(** Modelled from the spec: the AccessToken entity of msal-common; [target]
    is the normalized scope string. *)
Record t : Type := mk {
  homeAccountId : string;
  environment : string;
  secret : string;
  clientId : string;
  realm : string;
  target : string;
  expiresOn : Q;
  extendedExpiresOn : Q
}.

(** Modelled from the spec: [AccessTokenEntity.createAccessTokenEntity]. *)
Definition createAccessTokenEntity (homeAccountId environment accessToken
    clientId tenantId scopes : string) (expiresOn extExpiresOn : Q) : t :=
  mk homeAccountId environment accessToken clientId tenantId scopes
     expiresOn extExpiresOn.

(** Modelled from the spec: the key of an access token, from its key
    fields, the normalized scope string among them. *)
Definition generateCredentialKey `{ProtocolLibrary} (e : t) : string :=
  cacheKey [homeAccountId e; environment e; "accesstoken"; clientId e;
            realm e; target e].

End AccessTokenEntity.

Module RefreshTokenEntity.

(** Modelled from the spec: the RefreshToken entity of msal-common. *)
Record t : Type := mk {
  homeAccountId : string;
  environment : string;
  secret : string;
  clientId : string
}.

(** Modelled from the spec: [RefreshTokenEntity.createRefreshTokenEntity]. *)
Definition createRefreshTokenEntity (homeAccountId environment refreshToken
    clientId : string) : t :=
  mk homeAccountId environment refreshToken clientId.

(** Modelled from the spec: the key of a refresh token, from its key
    fields. *)
Definition generateCredentialKey `{ProtocolLibrary} (e : t) : string :=
  cacheKey [homeAccountId e; environment e; "refreshtoken"; clientId e].

End RefreshTokenEntity.

Module CacheRecord.
Record t : Type := mk {
  account : AccountEntity.t;
  idToken : IdTokenEntity.t;
  accessToken : option AccessTokenEntity.t;
  refreshToken : option RefreshTokenEntity.t
}.
End CacheRecord.

(** ** The stateful collaborators

    Every operation may throw (reject, when it returns a promise), and may
    have changed the world when it does. *)

Inductive Outcome (A : Type) : Type :=
| Returns (a : A)
| Rejects (code : string).
Arguments Returns {A} a.
Arguments Rejects {A} code.

Definition Effect (W A : Type) : Type := W -> W * Outcome A.

(** A call of a collaborator from the embedded code. *)
Definition perform {W A : Type} (op : Effect W A) : M W A :=
  fun w =>
    match op w with
    | (w', Returns a) => (w', Ok a)
    | (w', Rejects code) => (w', Throw (CollaboratorError code))
    end.

(** The storage adapter, [BrowserCacheManager]. *)
Class BrowserCacheManager (W : Type) : Type := {
  setAccount : AccountEntity.t -> Effect W unit;
  setIdTokenCredential : IdTokenEntity.t -> Effect W unit;
  setAccessTokenCredential : AccessTokenEntity.t -> Effect W unit;
  setRefreshTokenCredential : RefreshTokenEntity.t -> Effect W unit;
  getActiveAccount : Effect W (option AccountInfo.t);
  setActiveAccount : option AccountInfo.t -> Effect W unit;
  removeAccount : string -> Effect W bool;
  clear : Effect W unit
}.

(** The crypto provider, [ICrypto]. *)
Class ICrypto (W : Type) : Type := {
  clearKeystore : Effect W bool
}.

(** The clock: what [new Date().getTime()] returns, in milliseconds. *)
Class Clock (W : Type) : Type := {
  getTime : W -> Z
}.

Definition Date_getTime {W : Type} `{Clock W} : M W Z :=
  fun w => (w, Ok (getTime w)).

(** ** TokenCache (cache/TokenCache.ts) *)

Record BrowserConfiguration : Type := {
  (** [config.auth.clientId] *)
  auth_clientId : string
}.

Module TokenCache.

Record t : Type := mk {
  (** [typeof window !== "undefined"], evaluated by the constructor *)
  isBrowserEnvironment : bool;
  config : BrowserConfiguration
}.

Section Loaders.

Context {W : Type} `{ProtocolLibrary} `{BrowserCacheManager W} `{Clock W}.

Local Open Scope js_scope.

Definition loadAccount (this : t) (idToken environment : string)
    (clientInfo : option string) (authorityType : option AuthorityType)
    (requestHomeAccountId : option string) : M W AccountEntity.t :=
  guard (tokenError idToken) ;;;
  let idAuthToken := newAuthToken idToken in
  let homeAccountId :=
    match truthy requestHomeAccountId with
    | Some requestHomeAccountId => Some requestHomeAccountId
    | None =>
        match authorityType, truthy clientInfo with
        | Some authorityType, Some clientInfo =>
            Some (generateHomeAccountId clientInfo authorityType idAuthToken)
        | _, _ => None
        end
    end in
  match truthy homeAccountId with
  | None => throw (UnableToLoadTokenError UnresolvedIdentity)
  | Some homeAccountId =>
      let accountEntity :=
        match truthy clientInfo with
        | Some clientInfo =>
            AccountEntity.createAccount clientInfo homeAccountId idAuthToken
              environment
        | None =>
            AccountEntity.createGenericAccount homeAccountId idAuthToken
              environment
        end in
      if isBrowserEnvironment this then
        perform (setAccount accountEntity) ;;;
        ret accountEntity
      else throw (UnableToLoadTokenError UnsupportedEnvironment)
  end.

Definition loadIdToken (this : t) (idToken homeAccountId environment
    tenantId : string) : M W IdTokenEntity.t :=
  let idTokenEntity :=
    IdTokenEntity.createIdTokenEntity homeAccountId environment idToken
      (auth_clientId (config this)) tenantId in
  if isBrowserEnvironment this then
    perform (setIdTokenCredential idTokenEntity) ;;;
    ret idTokenEntity
  else throw (UnableToLoadTokenError UnsupportedEnvironment).

Definition loadAccessToken (this : t) (request : SilentRequest.t)
    (response : ExternalTokenResponse.t)
    (homeAccountId environment tenantId : string)
    (options : LoadTokenOptions.t) : M W (option AccessTokenEntity.t) :=
  match truthy (ExternalTokenResponse.access_token response) with
  | None => ret None
  | Some access_token =>
  match truthyNumber (ExternalTokenResponse.expires_in response) with
  | None => throw (UnableToLoadTokenError (MissingExpiry expires_in_field))
  | Some expires_in =>
  match truthyNumber (LoadTokenOptions.extendedExpiresOn options) with
  | None =>
      throw (UnableToLoadTokenError (MissingExpiry extendedExpiresOn_field))
  | Some extendedExpiresOn =>
      let scopeSet := ScopeSet.new (SilentRequest.scopes request) in
      guard (scopeSetError scopeSet) ;;;
      let scopes := ScopeSet.printScopes scopeSet in
      expiresOn <-
        match truthyNumber (LoadTokenOptions.expiresOn options) with
        | Some expiresOn => ret expiresOn
        | None =>
            now <- Date_getTime ;;
            ret (expires_in + inject_Z now / 1000)%Q
        end ;;
      let accessTokenEntity :=
        AccessTokenEntity.createAccessTokenEntity homeAccountId environment
          access_token (auth_clientId (config this)) tenantId scopes
          expiresOn extendedExpiresOn in
      if isBrowserEnvironment this then
        perform (setAccessTokenCredential accessTokenEntity) ;;;
        ret (Some accessTokenEntity)
      else throw (UnableToLoadTokenError UnsupportedEnvironment)
  end end end.

Definition loadRefreshToken (this : t) (request : SilentRequest.t)
    (response : ExternalTokenResponse.t) (homeAccountId environment : string)
  : M W (option RefreshTokenEntity.t) :=
  match truthy (ExternalTokenResponse.refresh_token response) with
  | None => ret None
  | Some refresh_token =>
      let refreshTokenEntity :=
        RefreshTokenEntity.createRefreshTokenEntity homeAccountId environment
          refresh_token (auth_clientId (config this)) in
      if isBrowserEnvironment this then
        perform (setRefreshTokenCredential refreshTokenEntity) ;;;
        ret (Some refreshTokenEntity)
      else throw (UnableToLoadTokenError UnsupportedEnvironment)
  end.

Definition loadExternalTokens (this : t) (request : SilentRequest.t)
    (response : ExternalTokenResponse.t) (options : LoadTokenOptions.t)
  : M W CacheRecord.t :=
  match truthy (ExternalTokenResponse.id_token response) with
  | None => throw (UnableToLoadTokenError MissingIdToken)
  | Some id_token =>
  match SilentRequest.account request with
  | Some account =>
      cacheRecordAccount <-
        loadAccount this id_token (AccountInfo.environment account) None None
          (Some (AccountInfo.homeAccountId account)) ;;
      idToken <-
        loadIdToken this id_token
          (AccountEntity.homeAccountId cacheRecordAccount)
          (AccountInfo.environment account) (AccountInfo.tenantId account) ;;
      accessToken <-
        loadAccessToken this request response
          (AccountEntity.homeAccountId cacheRecordAccount)
          (AccountInfo.environment account) (AccountInfo.tenantId account)
          options ;;
      refreshToken <-
        loadRefreshToken this request response
          (AccountEntity.homeAccountId cacheRecordAccount)
          (AccountInfo.environment account) ;;
      ret (CacheRecord.mk cacheRecordAccount idToken accessToken refreshToken)
  | None =>
  match truthy (SilentRequest.authority request) with
  | Some authorityString =>
      guard (authorityError authorityString
               (SilentRequest.azureCloudOptions request)) ;;;
      let authority :=
        resolveAuthority authorityString
          (SilentRequest.azureCloudOptions request) in
      match truthy (LoadTokenOptions.clientInfo options) with
      | Some clientInfo =>
          cacheRecordAccount <-
            loadAccount this id_token (Authority.hostnameAndPort authority)
              (Some clientInfo) (Some (Authority.authorityType authority))
              None ;;
          idToken <-
            loadIdToken this id_token
              (AccountEntity.homeAccountId cacheRecordAccount)
              (Authority.hostnameAndPort authority)
              (Authority.tenant authority) ;;
          accessToken <-
            loadAccessToken this request response
              (AccountEntity.homeAccountId cacheRecordAccount)
              (Authority.hostnameAndPort authority)
              (Authority.tenant authority) options ;;
          refreshToken <-
            loadRefreshToken this request response
              (AccountEntity.homeAccountId cacheRecordAccount)
              (Authority.hostnameAndPort authority) ;;
          ret (CacheRecord.mk cacheRecordAccount idToken accessToken
                 refreshToken)
      | None =>
      match truthy (ExternalTokenResponse.client_info response) with
      | Some client_info =>
          cacheRecordAccount <-
            loadAccount this id_token (Authority.hostnameAndPort authority)
              (Some client_info) (Some (Authority.authorityType authority))
              None ;;
          idToken <-
            loadIdToken this id_token
              (AccountEntity.homeAccountId cacheRecordAccount)
              (Authority.hostnameAndPort authority)
              (Authority.tenant authority) ;;
          accessToken <-
            loadAccessToken this request response
              (AccountEntity.homeAccountId cacheRecordAccount)
              (Authority.hostnameAndPort authority)
              (Authority.tenant authority) options ;;
          refreshToken <-
            loadRefreshToken this request response
              (AccountEntity.homeAccountId cacheRecordAccount)
              (Authority.hostnameAndPort authority) ;;
          ret (CacheRecord.mk cacheRecordAccount idToken accessToken
                 refreshToken)
      | None => throw (UnableToLoadTokenError MissingClientInfo)
      end end
  | None => throw (UnableToLoadTokenError MissingAccountOrAuthority)
  end end end.

End Loaders.

End TokenCache.

(** ** BaseInteractionClient (interaction_client/BaseInteractionClient.ts) *)

Module BaseInteractionClient.

Section Logout.

Context {W : Type} `{ProtocolLibrary} `{BrowserCacheManager W} `{ICrypto W}.

Local Open Scope js_scope.

(** An [await] of a rejected promise throws at the [await]. *)
Definition clearCacheOnLogout (account : option AccountInfo.t) : M W unit :=
  match account with
  | Some account =>
      activeAccount <- perform getActiveAccount ;;
      (if accountInfoIsEqual account activeAccount false
       then perform (setActiveAccount None)
       else ret tt) ;;;
      try_catch
        (perform
           (removeAccount (AccountEntity.generateAccountCacheKey account)) ;;;
         ret tt)
        (fun _ => ret tt)
  | None =>
      try_catch
        (perform clear ;;;
         perform clearKeystore ;;;
         ret tt)
        (fun _ => ret tt)
  end.

End Logout.

End BaseInteractionClient.

(** ** Reference collaborators

    An in-memory storage adapter with one store per entity type, a key store
    and a clock, and a protocol library reduced to what the embedded code
    asks of it: it rejects a raw token with a space in it, an authority that
    is not an https URL and a scope set without a non-empty scope.  They give
    the functions above something to run on. *)

Module InMemory.

Record World : Type := mkWorld {
  accounts : gmap string AccountEntity.t;
  idTokens : gmap string IdTokenEntity.t;
  accessTokens : gmap string AccessTokenEntity.t;
  refreshTokens : gmap string RefreshTokenEntity.t;
  activeAccount : option AccountInfo.t;
  keystore : list string;
  clock : Z
}.

Definition lowerAscii (c : ascii) : ascii :=
  let n := N_of_ascii c in
  if (65 <=? n)%N && (n <=? 90)%N then ascii_of_N (n + 32) else c.

(** Lower-casing of the letters A to Z. *)
Fixpoint lowerCase (s : string) : string :=
  match s with
  | EmptyString => EmptyString
  | String c r => String (lowerAscii c) (lowerCase r)
  end.

Fixpoint hasSpace (s : string) : bool :=
  match s with
  | EmptyString => false
  | String c r => Ascii.eqb c " " || hasSpace r
  end.

Definition sameAccount (a b : AccountInfo.t) : bool :=
  String.eqb (AccountInfo.homeAccountId a) (AccountInfo.homeAccountId b)
  && String.eqb (AccountInfo.environment a) (AccountInfo.environment b)
  && String.eqb (AccountInfo.tenantId a) (AccountInfo.tenantId b)
  && String.eqb (AccountInfo.username a) (AccountInfo.username b)
  && String.eqb (AccountInfo.localAccountId a) (AccountInfo.localAccountId b).

#[export] Instance protocolLibrary : ProtocolLibrary := {
  toLowerCase := lowerCase;
  tokenError idToken :=
    if hasSpace idToken then Some "token_parsing_error" else None;
  extractTokenClaims idToken := {[ "tid" := idToken ]};
  claimsRealm c := default "" (c !! "tid");
  authorityError authority _ :=
    if String.prefix "https://" authority then None
    else Some "authority_uri_insecure";
  resolveAuthority _ _ := Authority.mk "login.example.com" "common" 0%N;
  generateHomeAccountId clientInfo _ _ := clientInfo;
  accountInfoIsEqual a b _ :=
    match b with
    | Some b => sameAccount a b
    | None => false
    end;
  scopeSetError scopes :=
    if forallb (String.eqb "") scopes then Some "empty_input_scopes_error"
    else None
}.

#[export] Instance storage : BrowserCacheManager World := {
  setAccount a w :=
    (mkWorld (<[AccountEntity.generateAccountKey a := a]> (accounts w))
       (idTokens w) (accessTokens w) (refreshTokens w) (activeAccount w)
       (keystore w) (clock w), Returns tt);
  setIdTokenCredential e w :=
    (mkWorld (accounts w)
       (<[IdTokenEntity.generateCredentialKey e := e]> (idTokens w))
       (accessTokens w) (refreshTokens w) (activeAccount w) (keystore w)
       (clock w), Returns tt);
  setAccessTokenCredential e w :=
    (mkWorld (accounts w) (idTokens w)
       (<[AccessTokenEntity.generateCredentialKey e := e]> (accessTokens w))
       (refreshTokens w) (activeAccount w) (keystore w) (clock w), Returns tt);
  setRefreshTokenCredential e w :=
    (mkWorld (accounts w) (idTokens w) (accessTokens w)
       (<[RefreshTokenEntity.generateCredentialKey e := e]> (refreshTokens w))
       (activeAccount w) (keystore w) (clock w), Returns tt);
  getActiveAccount w := (w, Returns (activeAccount w));
  setActiveAccount a w :=
    (mkWorld (accounts w) (idTokens w) (accessTokens w) (refreshTokens w) a
       (keystore w) (clock w), Returns tt);
  removeAccount key w :=
    match accounts w !! key with
    | None => (w, Rejects "no_account_found")
    | Some _ =>
        (mkWorld (delete key (accounts w)) (idTokens w) (accessTokens w)
           (refreshTokens w) (activeAccount w) (keystore w) (clock w),
         Returns true)
    end;
  clear w := (mkWorld ∅ ∅ ∅ ∅ None (keystore w) (clock w), Returns tt)
}.

#[export] Instance crypto : ICrypto World := {
  clearKeystore w :=
    (mkWorld (accounts w) (idTokens w) (accessTokens w) (refreshTokens w)
       (activeAccount w) [] (clock w), Returns true)
}.

#[export] Instance wallClock : Clock World := {
  getTime w := clock w
}.

Definition emptyWorld (now : Z) : World := mkWorld ∅ ∅ ∅ ∅ None [] now.

End InMemory.

(** A storage adapter that cannot be reached: every operation throws. *)
Module Unreachable.

Definition fails {A : Type} : Effect unit A :=
  fun w => (w, Rejects "storage_unavailable").

#[export] Instance storage : BrowserCacheManager unit := {
  setAccount _ := fails;
  setIdTokenCredential _ := fails;
  setAccessTokenCredential _ := fails;
  setRefreshTokenCredential _ := fails;
  getActiveAccount := fails;
  setActiveAccount _ := fails;
  removeAccount _ := fails;
  clear := fails
}.

#[export] Instance crypto : ICrypto unit := {
  clearKeystore := fails
}.

End Unreachable.

(** ** Vocabulary of the statements *)

Module Ingestion.

(** What a branch of [loadExternalTokens] hands to the four loaders. *)
Record IdentityInputs : Type := mkInputs {
  idTokenString : string;
  environment : string;
  tenantId : string;
  clientInfo : option string;
  authorityType : option AuthorityType;
  requestHomeAccountId : option string
}.

(** The branch [loadExternalTokens] takes, read off its conditionals: the
    arguments of the loader calls, or the error thrown before any loader
    runs. *)
Definition identityInputs `{ProtocolLibrary} (request : SilentRequest.t)
    (response : ExternalTokenResponse.t) (options : LoadTokenOptions.t)
  : Result IdentityInputs :=
  match truthy (ExternalTokenResponse.id_token response) with
  | None => Throw (UnableToLoadTokenError MissingIdToken)
  | Some id_token =>
  match SilentRequest.account request with
  | Some account =>
      Ok (mkInputs id_token (AccountInfo.environment account)
            (AccountInfo.tenantId account) None None
            (Some (AccountInfo.homeAccountId account)))
  | None =>
  match truthy (SilentRequest.authority request) with
  | None => Throw (UnableToLoadTokenError MissingAccountOrAuthority)
  | Some authorityString =>
      match authorityError authorityString
              (SilentRequest.azureCloudOptions request) with
      | Some code => Throw (CollaboratorError code)
      | None =>
          let authority :=
            resolveAuthority authorityString
              (SilentRequest.azureCloudOptions request) in
          match truthy (LoadTokenOptions.clientInfo options),
                truthy (ExternalTokenResponse.client_info response) with
          | Some clientInfo, _ | None, Some clientInfo =>
              Ok (mkInputs id_token (Authority.hostnameAndPort authority)
                    (Authority.tenant authority) (Some clientInfo)
                    (Some (Authority.authorityType authority)) None)
          | None, None => Throw (UnableToLoadTokenError MissingClientInfo)
          end
      end
  end end end.

Section Steps.

Context {W : Type} `{ProtocolLibrary} `{BrowserCacheManager W} `{Clock W}.

Local Open Scope js_scope.

(** The access-token and refresh-token steps and the construction of the
    record, once the account and the ID token are loaded. *)
Definition loadCredentials (this : TokenCache.t) (request : SilentRequest.t)
    (response : ExternalTokenResponse.t) (options : LoadTokenOptions.t)
    (i : IdentityInputs) (cacheRecordAccount : AccountEntity.t)
    (idToken : IdTokenEntity.t) : M W CacheRecord.t :=
  accessToken <-
    TokenCache.loadAccessToken this request response
      (AccountEntity.homeAccountId cacheRecordAccount) (environment i)
      (tenantId i) options ;;
  refreshToken <-
    TokenCache.loadRefreshToken this request response
      (AccountEntity.homeAccountId cacheRecordAccount) (environment i) ;;
  ret (CacheRecord.mk cacheRecordAccount idToken accessToken refreshToken).

(** The four loader calls every branch of [loadExternalTokens] consists of. *)
Definition loadRecord (this : TokenCache.t) (request : SilentRequest.t)
    (response : ExternalTokenResponse.t) (options : LoadTokenOptions.t)
    (i : IdentityInputs) : M W CacheRecord.t :=
  cacheRecordAccount <-
    TokenCache.loadAccount this (idTokenString i) (environment i)
      (clientInfo i) (authorityType i) (requestHomeAccountId i) ;;
  idToken <-
    TokenCache.loadIdToken this (idTokenString i)
      (AccountEntity.homeAccountId cacheRecordAccount) (environment i)
      (tenantId i) ;;
  loadCredentials this request response options i cacheRecordAccount idToken.

(** The absolute expiry [loadAccessToken] computes in the world [w]. *)
Definition absoluteExpiry (options : LoadTokenOptions.t) (expires_in : Q)
    (w : W) : Q :=
  match truthyNumber (LoadTokenOptions.expiresOn options) with
  | Some expiresOn => expiresOn
  | None => (expires_in + inject_Z (getTime w) / 1000)%Q
  end.

(** The account and the ID-token steps of an ingestion started in [w]
    complete, with [account] and [idToken], and leave the world [w2]. *)
Definition identityLoaded (this : TokenCache.t) (request : SilentRequest.t)
    (response : ExternalTokenResponse.t) (options : LoadTokenOptions.t)
    (w : W) (i : IdentityInputs) (account : AccountEntity.t)
    (idToken : IdTokenEntity.t) (w2 : W) : Prop :=
  identityInputs request response options = Ok i /\
  exists w1 : W,
    TokenCache.loadAccount this (idTokenString i) (environment i)
      (clientInfo i) (authorityType i) (requestHomeAccountId i) w
    = (w1, Ok account) /\
    TokenCache.loadIdToken this (idTokenString i)
      (AccountEntity.homeAccountId account) (environment i) (tenantId i) w1
    = (w2, Ok idToken).

End Steps.

(** The preconditions of the specification, each named by the failure its
    violation raises. *)
Definition violated (this : TokenCache.t) (request : SilentRequest.t)
    (response : ExternalTokenResponse.t) (options : LoadTokenOptions.t)
    (f : LoadFailure) : bool :=
  match f with
  | MissingIdToken =>
      match truthy (ExternalTokenResponse.id_token response) with
      | Some _ => false
      | None => true
      end
  | MissingAccountOrAuthority =>
      match SilentRequest.account request,
            truthy (SilentRequest.authority request) with
      | None, None => true
      | _, _ => false
      end
  | MissingClientInfo =>
      match SilentRequest.account request,
            truthy (LoadTokenOptions.clientInfo options),
            truthy (ExternalTokenResponse.client_info response) with
      | None, None, None => true
      | _, _, _ => false
      end
  | MissingExpiry expires_in_field =>
      match truthy (ExternalTokenResponse.access_token response),
            truthyNumber (ExternalTokenResponse.expires_in response) with
      | Some _, None => true
      | _, _ => false
      end
  | MissingExpiry extendedExpiresOn_field =>
      match truthy (ExternalTokenResponse.access_token response),
            truthyNumber (LoadTokenOptions.extendedExpiresOn options) with
      | Some _, None => true
      | _, _ => false
      end
  | UnsupportedEnvironment => negb (TokenCache.isBrowserEnvironment this)
  | UnresolvedIdentity => false
  end.

(** The order in which the specification lists the preconditions. *)
Definition listedOrder : list LoadFailure :=
  [MissingIdToken; MissingAccountOrAuthority; MissingClientInfo;
   MissingExpiry expires_in_field; MissingExpiry extendedExpiresOn_field;
   UnsupportedEnvironment].

(** The order in which the code checks them. *)
Definition checkedOrder : list LoadFailure :=
  [MissingIdToken; MissingAccountOrAuthority; MissingClientInfo;
   UnsupportedEnvironment;
   MissingExpiry expires_in_field; MissingExpiry extendedExpiresOn_field].

Definition firstViolated (order : list LoadFailure) (this : TokenCache.t)
    (request : SilentRequest.t) (response : ExternalTokenResponse.t)
    (options : LoadTokenOptions.t) : option LoadFailure :=
  List.find (violated this request response options) order.

(** Two scope lists that differ only in the order, the letter case or the
    repetition of their elements: up to case they have the same members. *)
Definition sameScopes `{ProtocolLibrary} (l1 l2 : list string) : Prop :=
  forall s : string,
    In s (map toLowerCase l1) <-> In s (map toLowerCase l2).

(** The loader arguments of the authority branch, for the client-info
    [clientInfo]. *)
Definition authorityInputs (id_token : string) (authority : Authority.t)
    (clientInfo : string) : IdentityInputs :=
  mkInputs id_token (Authority.hostnameAndPort authority)
    (Authority.tenant authority) (Some clientInfo)
    (Some (Authority.authorityType authority)) None.

(** The client-info the authority branch uses: the one of the options when
    set, else the one of the response. *)
Definition chosenClientInfo (response : ExternalTokenResponse.t)
    (options : LoadTokenOptions.t) : option string :=
  match truthy (LoadTokenOptions.clientInfo options) with
  | Some clientInfo => Some clientInfo
  | None => truthy (ExternalTokenResponse.client_info response)
  end.

(** The three ways of the claim in which a scope list may differ from
    another, closed under repetition and context. *)
Inductive scopeVariant `{ProtocolLibrary}
  : list string -> list string -> Prop :=
| variant_same (l : list string) : scopeVariant l l
| variant_order (x y : string) (l : list string) :
    scopeVariant (x :: y :: l) (y :: x :: l)
| variant_case (x y : string) (l : list string) :
    toLowerCase x = toLowerCase y -> scopeVariant (x :: l) (y :: l)
| variant_duplicate (x : string) (l : list string) :
    scopeVariant (x :: l) (x :: x :: l)
| variant_tail (x : string) (l l' : list string) :
    scopeVariant l l' -> scopeVariant (x :: l) (x :: l')
| variant_sym (l l' : list string) : scopeVariant l l' -> scopeVariant l' l
| variant_trans (l1 l2 l3 : list string) :
    scopeVariant l1 l2 -> scopeVariant l2 l3 -> scopeVariant l1 l3.

Definition withScopes (request : SilentRequest.t) (scopes : list string)
  : SilentRequest.t :=
  SilentRequest.mk (SilentRequest.account request)
    (SilentRequest.authority request) scopes
    (SilentRequest.azureCloudOptions request).

Definition withClientInfo (response : ExternalTokenResponse.t)
    (client_info : option string) : ExternalTokenResponse.t :=
  ExternalTokenResponse.mk (ExternalTokenResponse.id_token response)
    client_info (ExternalTokenResponse.access_token response)
    (ExternalTokenResponse.expires_in response)
    (ExternalTokenResponse.refresh_token response).

Definition withAccessToken (response : ExternalTokenResponse.t)
    (access_token : option string) : ExternalTokenResponse.t :=
  ExternalTokenResponse.mk (ExternalTokenResponse.id_token response)
    (ExternalTokenResponse.client_info response) access_token
    (ExternalTokenResponse.expires_in response)
    (ExternalTokenResponse.refresh_token response).

Definition withRefreshToken (response : ExternalTokenResponse.t)
    (refresh_token : option string) : ExternalTokenResponse.t :=
  ExternalTokenResponse.mk (ExternalTokenResponse.id_token response)
    (ExternalTokenResponse.client_info response)
    (ExternalTokenResponse.access_token response)
    (ExternalTokenResponse.expires_in response) refresh_token.

Definition withOptionsClientInfo (options : LoadTokenOptions.t)
    (clientInfo : option string) : LoadTokenOptions.t :=
  LoadTokenOptions.mk clientInfo (LoadTokenOptions.expiresOn options)
    (LoadTokenOptions.extendedExpiresOn options).

End Ingestion.

Module Logout.

Section Marker.

Context {W : Type} `{ProtocolLibrary} `{BrowserCacheManager W}.

Local Open Scope js_scope.

(** The statements of [clearCacheOnLogout] that precede its [try] block when
    an account is given. *)
Definition resetActiveAccount (account : AccountInfo.t) : M W unit :=
  activeAccount <- perform getActiveAccount ;;
  if accountInfoIsEqual account activeAccount false
  then perform (setActiveAccount None)
  else ret tt.

End Marker.

End Logout.

(** ** Sample inputs *)

Module Sample.

Import InMemory.

Definition browser : TokenCache.t :=
  TokenCache.mk true {| auth_clientId := "client-1" |}.

Definition headless : TokenCache.t :=
  TokenCache.mk false {| auth_clientId := "client-1" |}.

Definition alice : AccountInfo.t :=
  AccountInfo.mk "uid.utid" "login.example.com" "utid" "alice@example.com"
    "oid-1".

Definition requestWithAccount : SilentRequest.t :=
  SilentRequest.mk (Some alice) None ["User.Read"; "openid"] None.

Definition requestWithAuthority : SilentRequest.t :=
  SilentRequest.mk None (Some "https://login.example.com/common")
    ["User.Read"; "openid"] None.

Definition fullResponse : ExternalTokenResponse.t :=
  ExternalTokenResponse.mk (Some "jwt") (Some "b64") (Some "AT1")
    (Some 3600%Q) (Some "RT1").

Definition responseWithoutExpiry : ExternalTokenResponse.t :=
  ExternalTokenResponse.mk (Some "jwt") (Some "b64") (Some "AT1") None
    (Some "RT1").

Definition responseWithZeroExpiry : ExternalTokenResponse.t :=
  ExternalTokenResponse.mk (Some "jwt") (Some "b64") (Some "AT1")
    (Some 0%Q) (Some "RT1").

Definition responseWithoutTokens : ExternalTokenResponse.t :=
  ExternalTokenResponse.mk (Some "jwt") (Some "b64") None None None.

Definition options : LoadTokenOptions.t :=
  LoadTokenOptions.mk None None (Some 1700007200%Q).

Definition now : Z := 1700000000000.

Definition optionsWithClientInfo : LoadTokenOptions.t :=
  LoadTokenOptions.mk (Some "from-options") None (Some 1700007200%Q).

Definition optionsWithZeroExpiresOn : LoadTokenOptions.t :=
  LoadTokenOptions.mk None (Some 0%Q) (Some 1700007200%Q).

(** A cache whose active account is [alice] and that holds no entry of
    hers. *)
Definition signedInWorld : World := mkWorld ∅ ∅ ∅ ∅ (Some alice) [] now.

(** What the account and ID-token steps do for [requestWithAccount]. *)
Definition aliceInputs : Ingestion.IdentityInputs :=
  Ingestion.mkInputs "jwt" "login.example.com" "utid" None None
    (Some "uid.utid").

Definition aliceEntity : AccountEntity.t :=
  AccountEntity.createGenericAccount "uid.utid" (newAuthToken "jwt")
    "login.example.com".

Definition aliceIdToken : IdTokenEntity.t :=
  IdTokenEntity.createIdTokenEntity "uid.utid" "login.example.com" "jwt"
    "client-1" "utid".

Definition aliceAccountWorld : World :=
  fst (setAccount aliceEntity (emptyWorld now)).

Definition aliceIdentityWorld : World :=
  fst (setIdTokenCredential aliceIdToken aliceAccountWorld).

(** What they do for [requestWithAuthority] and the client-info "b64". *)
Definition authorityInputs : Ingestion.IdentityInputs :=
  Ingestion.authorityInputs "jwt"
    (resolveAuthority "https://login.example.com/common" None) "b64".

Definition authorityEntity : AccountEntity.t :=
  AccountEntity.createAccount "b64" "b64" (newAuthToken "jwt")
    "login.example.com".

Definition authorityIdToken : IdTokenEntity.t :=
  IdTokenEntity.createIdTokenEntity "b64" "login.example.com" "jwt"
    "client-1" "common".

Definition authorityAccountWorld : World :=
  fst (setAccount authorityEntity (emptyWorld now)).

Definition authorityIdentityWorld : World :=
  fst (setIdTokenCredential authorityIdToken authorityAccountWorld).

(** An ingestion that misses [expires_in] and runs outside a browser. *)
Definition headlessRun : World * Result CacheRecord.t :=
  TokenCache.loadExternalTokens headless requestWithAccount
    responseWithoutExpiry options (emptyWorld now).

(** The same ingestion inside a browser. *)
Definition partialRun : World * Result CacheRecord.t :=
  TokenCache.loadExternalTokens browser requestWithAccount
    responseWithoutExpiry options (emptyWorld now).

(** Scenario 1 of the specification: authority, client-info in the
    response, all tokens. *)
Definition fullRun : World * Result CacheRecord.t :=
  TokenCache.loadExternalTokens browser requestWithAuthority fullResponse
    options (emptyWorld now).

(** Client-info both in the options and in the response. *)
Definition precedenceRun : World * Result CacheRecord.t :=
  TokenCache.loadExternalTokens browser requestWithAuthority fullResponse
    optionsWithClientInfo (emptyWorld now).

(** A request that carries an account, with client-info on the call. *)
Definition accountRun : World * Result CacheRecord.t :=
  TokenCache.loadExternalTokens browser requestWithAccount fullResponse
    optionsWithClientInfo (emptyWorld now).

(** [options.expiresOn] given as 0. *)
Definition zeroExpiresOnRun : World * Result CacheRecord.t :=
  TokenCache.loadExternalTokens browser requestWithAccount fullResponse
    optionsWithZeroExpiresOn (emptyWorld now).

(** [response.expires_in] given as 0. *)
Definition zeroExpiresInRun : World * Result CacheRecord.t :=
  TokenCache.loadExternalTokens browser requestWithAccount
    responseWithZeroExpiry options (emptyWorld now).

(** A response with an ID token only. *)
Definition idTokenOnlyRun : World * Result CacheRecord.t :=
  TokenCache.loadExternalTokens browser requestWithAuthority
    responseWithoutTokens options (emptyWorld now).

End Sample.

(** ** The request protocol of BaseInteractionClient

    More of interaction_client/BaseInteractionClient.ts:
    [initializeBaseRequest] and [getDiscoveredAuthority].  [getRedirectUri]
    and [initializeServerTelemetryManager] only pick and pack their arguments
    and are not modelled. *)

Module InteractionProtocol.

(** The [AuthenticationScheme] enum of msal-common.  This file names its
    members BEARER and SSH; whatever else it holds is [OTHER].  Its members
    are non-empty strings, hence truthy. *)
Inductive AuthenticationScheme : Type :=
| BEARER
| SSH
| OTHER (name : string).

(** [Partial<BaseAuthRequest>]: every property may be missing.  [rest] holds
    the properties [initializeBaseRequest] does not look at and the object
    spread copies. *)
Record BaseAuthRequest : Type := mkRequest {
  authority : option string;
  correlationId : option string;
  scopes : option (list string);
  authenticationScheme : option AuthenticationScheme;
  sshJwk : option string;
  sshKid : option string;
  claims : option string;
  requestedClaimsHash : option string;
  rest : gmap string string
}.

(** What the client holds: [config.auth.authority] and the correlation id
    fixed by the constructor. *)
Record Client : Type := mkClient {
  auth_authority : string;
  clientCorrelationId : string
}.

(** What [initializeBaseRequest] throws: the two errors of
    [ClientConfigurationError], or what a collaborator threw. *)
Inductive RequestError : Type :=
| MissingSshJwkError
| MissingSshKidError
| CollaboratorRejected (code : string).

Inductive Attempt (A : Type) : Type :=
| Done (a : A)
| Failed (e : RequestError).
Arguments Done {A} a.
Arguments Failed {A} e.

(** Computations that throw [RequestError]. *)
Definition R (W A : Type) : Type := W -> W * Attempt A.

Definition done {W A : Type} (a : A) : R W A := fun w => (w, Done a).

Definition fail {W A : Type} (e : RequestError) : R W A :=
  fun w => (w, Failed e).

Definition andThen {W A B : Type} (m : R W A) (k : A -> R W B) : R W B :=
  fun w =>
    match m w with
    | (w', Done a) => k a w'
    | (w', Failed e) => (w', Failed e)
    end.

(** A call of a collaborator; an [await] of a rejected promise throws. *)
Definition call {W A : Type} (op : Effect W A) : R W A :=
  fun w =>
    match op w with
    | (w', Returns a) => (w', Done a)
    | (w', Rejects code) => (w', Failed (CollaboratorRejected code))
    end.

Declare Scope request_scope.
Delimit Scope request_scope with request.
Notation "x <- m ;; k" := (andThen m (fun x => k))
  (at level 100, m at next level, right associativity) : request_scope.
Notation "m ;;; k" := (andThen m (fun _ => k))
  (at level 100, right associativity) : request_scope.

(** The performance client of [BrowserTelemetryFactory.client()]. *)
Class PerformanceClient (W : Type) : Type := {
  (** [PerformanceEvents.InitializeBaseRequest] *)
  InitializeBaseRequest : string;
  addQueueMeasurement : string -> option string -> Effect W unit
}.

(** [ICrypto.hashString]. *)
Class Hasher (W : Type) : Type := {
  hashString : string -> Effect W string
}.

(** [AuthorityFactory.createDiscoveredInstance], a network round trip; the
    authority options are a function of the configuration and are left
    implicit. *)
Class AuthorityFactory (W : Type) : Type := {
  createDiscoveredInstance : string -> Effect W Authority.t
}.

(** Modelled from the spec: [StringUtils.isEmpty] of msal-common, on a string
    that is defined ("non-empty claims"). *)
Definition isEmpty (s : string) : bool := String.eqb s "".

Definition withHash (request : BaseAuthRequest) (hash : option string)
  : BaseAuthRequest :=
  mkRequest (authority request) (correlationId request) (scopes request)
    (authenticationScheme request) (sshJwk request) (sshKid request)
    (claims request) hash (rest request).

Definition withScheme (request : BaseAuthRequest)
    (scheme : option AuthenticationScheme) : BaseAuthRequest :=
  mkRequest (authority request) (correlationId request) (scopes request)
    scheme (sshJwk request) (sshKid request) (claims request)
    (requestedClaimsHash request) (rest request).

(** The request with the defaults of [initializeBaseRequest] filled in: what
    it returns when there are no claims to hash. *)
Definition defaulted (this : Client) (request : BaseAuthRequest)
  : BaseAuthRequest :=
  mkRequest
    (Some match truthy (authority request) with
          | Some authority => authority
          | None => auth_authority this
          end)
    (Some (clientCorrelationId this))
    (Some match scopes request with
          | Some scopes => scopes
          | None => []
          end)
    (Some match authenticationScheme request with
          | Some scheme => scheme
          | None => BEARER
          end)
    (sshJwk request) (sshKid request) (claims request)
    (requestedClaimsHash request) (rest request).

Section Protocol.

Context {W : Type} `{PerformanceClient W} `{Hasher W} `{AuthorityFactory W}.

Local Open Scope request_scope.

Definition initializeBaseRequest (this : Client) (request : BaseAuthRequest)
  : R W BaseAuthRequest :=
  call (addQueueMeasurement InitializeBaseRequest (correlationId request)) ;;;
  let authority :=
    match truthy (authority request) with
    | Some authority => authority
    | None => auth_authority this
    end in
  let scopes :=
    match scopes request with
    | Some scopes => scopes
    | None => []
    end in
  let validatedRequest :=
    mkRequest (Some authority) (Some (clientCorrelationId this)) (Some scopes)
      (authenticationScheme request) (sshJwk request) (sshKid request)
      (claims request) (requestedClaimsHash request) (rest request) in
  validatedRequest <-
    match authenticationScheme validatedRequest with
    | None => done (withScheme validatedRequest (Some BEARER))
    | Some SSH =>
        match truthy (sshJwk request) with
        | None => fail MissingSshJwkError
        | Some _ =>
            match truthy (sshKid request) with
            | None => fail MissingSshKidError
            | Some _ => done validatedRequest
            end
        end
    | Some _ => done validatedRequest
    end ;;
  match truthy (claims request) with
  | Some claims =>
      if negb (isEmpty claims) then
        hash <- call (hashString claims) ;;
        done (withHash validatedRequest (Some hash))
      else done validatedRequest
  | None => done validatedRequest
  end.

Definition getDiscoveredAuthority (this : Client)
    (requestAuthority : option string) : M W Authority.t :=
  match truthy requestAuthority with
  | Some requestAuthority =>
      perform (createDiscoveredInstance requestAuthority)
  | None => perform (createDiscoveredInstance (auth_authority this))
  end.

End Protocol.

End InteractionProtocol.

(** A page to run the request protocol on: the measurements queued so far.
    Hashing rejects the claims "{}" and discovery rejects the empty
    authority. *)
Module Page.

Import InteractionProtocol.

Record World : Type := mkWorld {
  measurements : list (string * option string)
}.

#[export] Instance performanceClient : PerformanceClient World := {
  InitializeBaseRequest := "initializeBaseRequest";
  addQueueMeasurement event correlationId w :=
    (mkWorld ((event, correlationId) :: measurements w), Returns tt)
}.

#[export] Instance hasher : Hasher World := {
  hashString s w :=
    if String.eqb s "{}" then (w, Rejects "hash_failed")
    else (w, Returns ("sha256:" ++ s))
}.

#[export] Instance authorityFactory : AuthorityFactory World := {
  createDiscoveredInstance url w :=
    if String.eqb url "" then (w, Rejects "endpoints_resolution_error")
    else (w, Returns (Authority.mk url "common" 0%N))
}.

Definition client : Client :=
  mkClient "https://login.example.com/common" "client-correlation".

Definition home : World := mkWorld [].

Definition sshRequest : BaseAuthRequest :=
  mkRequest None (Some "request-correlation") None (Some SSH) None
    (Some "kid") None None ∅.

Definition claimsRequest : BaseAuthRequest :=
  mkRequest None None (Some ["User.Read"]) None None None
    (Some "{access_token}") None ∅.

Definition plainRequest : BaseAuthRequest :=
  mkRequest (Some "https://login.example.com/tenant") None None None None
    None None (Some "stale") ∅.

End Page.

(** Requests and options that differ from given ones in the fields a
    request with an account does not need. *)
Module Variation.

Definition withAuthority (request : SilentRequest.t)
    (authority : option string)
    (azureCloudOptions : option AzureCloudOptions) : SilentRequest.t :=
  SilentRequest.mk (SilentRequest.account request) authority
    (SilentRequest.scopes request) azureCloudOptions.

(** The home-account identity [loadAccount] settles on for the arguments a
    branch hands it, before it tests it for emptiness: the identity of the
    request when it has one, else the one derived from the client-info. *)
Definition candidateHomeAccountId `{ProtocolLibrary}
    (i : Ingestion.IdentityInputs) : option string :=
  match truthy (Ingestion.requestHomeAccountId i) with
  | Some requestHomeAccountId => Some requestHomeAccountId
  | None =>
      match Ingestion.authorityType i, truthy (Ingestion.clientInfo i) with
      | Some authorityType, Some clientInfo =>
          Some (generateHomeAccountId clientInfo authorityType
                  (newAuthToken (Ingestion.idTokenString i)))
      | _, _ => None
      end
  end.

End Variation.

(** Further sample ingestions. *)
Module MoreSamples.

Import InMemory.

Definition nobody : AccountInfo.t :=
  AccountInfo.mk "" "login.example.com" "utid" "" "".

Definition requestWithNobody : SilentRequest.t :=
  SilentRequest.mk (Some nobody) None ["openid"] None.

Definition requestWithBoth : SilentRequest.t :=
  SilentRequest.mk (Some Sample.alice)
    (Some "https://login.example.com/common") ["User.Read"; "openid"] None.

Definition optionsWithExpiresOn : LoadTokenOptions.t :=
  LoadTokenOptions.mk None (Some 1700003600%Q) (Some 1700007200%Q).

(** The same ingestion twice, the second time over what the first left. *)
Definition firstRun : World * Result CacheRecord.t :=
  TokenCache.loadExternalTokens Sample.browser Sample.requestWithAuthority
    Sample.fullResponse optionsWithExpiresOn (emptyWorld Sample.now).

Definition secondRun : World * Result CacheRecord.t :=
  TokenCache.loadExternalTokens Sample.browser Sample.requestWithAuthority
    Sample.fullResponse optionsWithExpiresOn (fst firstRun).

(** What the access-token and refresh-token steps do for
    [Sample.requestWithAuthority] and [Sample.fullResponse]. *)
Definition authorityAccessToken : AccessTokenEntity.t :=
  AccessTokenEntity.createAccessTokenEntity "b64" "login.example.com" "AT1"
    "client-1" "common" "openid user.read"
    (3600 + inject_Z Sample.now / 1000)%Q 1700007200%Q.

Definition authorityRefreshToken : RefreshTokenEntity.t :=
  RefreshTokenEntity.createRefreshTokenEntity "b64" "login.example.com" "RT1"
    "client-1".

Definition authorityAccessTokenWorld : World :=
  fst (setAccessTokenCredential authorityAccessToken
         Sample.authorityIdentityWorld).

Definition authorityFullWorld : World :=
  fst (setRefreshTokenCredential authorityRefreshToken
         authorityAccessTokenWorld).

(** Scenario 1 of the specification outside a browser. *)
Definition headlessAuthorityRun : World * Result CacheRecord.t :=
  TokenCache.loadExternalTokens Sample.headless Sample.requestWithAuthority
    Sample.fullResponse Sample.options (emptyWorld Sample.now).

Definition responseWithoutIdToken : ExternalTokenResponse.t :=
  ExternalTokenResponse.mk None None (Some "AT1") (Some 3600%Q) (Some "RT1").

Definition responseWithoutClientInfo : ExternalTokenResponse.t :=
  ExternalTokenResponse.mk (Some "jwt") None (Some "AT1") (Some 3600%Q)
    (Some "RT1").

(** No ID token and no client-info. *)
Definition noIdTokenRun : World * Result CacheRecord.t :=
  TokenCache.loadExternalTokens Sample.browser Sample.requestWithAuthority
    responseWithoutIdToken Sample.options (emptyWorld Sample.now).

(** An authority that is not an https URL, and no client-info. *)
Definition requestWithInsecureAuthority : SilentRequest.t :=
  SilentRequest.mk None (Some "http://login.example.com/common")
    ["User.Read"; "openid"] None.

Definition insecureAuthorityRun : World * Result CacheRecord.t :=
  TokenCache.loadExternalTokens Sample.browser requestWithInsecureAuthority
    responseWithoutClientInfo Sample.options (emptyWorld Sample.now).

(** A raw ID token that is no token. *)
Definition responseWithGarbledIdToken : ExternalTokenResponse.t :=
  ExternalTokenResponse.mk (Some "not a token") (Some "b64") (Some "AT1")
    (Some 3600%Q) (Some "RT1").

(** A request without scopes. *)
Definition requestWithoutScopes : SilentRequest.t :=
  SilentRequest.mk (Some Sample.alice) None [] None.

(** What the access-token and refresh-token steps do for
    [Sample.requestWithAccount] and [Sample.fullResponse] when the expiry is
    computed from the clock. *)
Definition aliceAccessToken : AccessTokenEntity.t :=
  AccessTokenEntity.createAccessTokenEntity "uid.utid" "login.example.com"
    "AT1" "client-1" "utid" "openid user.read"
    (3600 + inject_Z Sample.now / 1000)%Q 1700007200%Q.

Definition aliceRefreshToken : RefreshTokenEntity.t :=
  RefreshTokenEntity.createRefreshTokenEntity "uid.utid" "login.example.com"
    "RT1" "client-1".

Definition aliceAccessTokenWorld : World :=
  fst (setAccessTokenCredential aliceAccessToken Sample.aliceIdentityWorld).

Definition aliceFullWorld : World :=
  fst (setRefreshTokenCredential aliceRefreshToken aliceAccessTokenWorld).

Definition optionsWithZeroExtendedExpiresOn : LoadTokenOptions.t :=
  LoadTokenOptions.mk None None (Some 0%Q).

(** [options.extendedExpiresOn] given as 0. *)
Definition zeroExtendedExpiresOnRun : World * Result CacheRecord.t :=
  TokenCache.loadExternalTokens Sample.browser Sample.requestWithAccount
    Sample.fullResponse optionsWithZeroExtendedExpiresOn
    (emptyWorld Sample.now).

(** [response.expires_in] given as 0, outside a browser. *)
Definition headlessZeroExpiryRun : World * Result CacheRecord.t :=
  TokenCache.loadExternalTokens Sample.headless Sample.requestWithAccount
    Sample.responseWithZeroExpiry Sample.options (emptyWorld Sample.now).




(** A storage adapter whose quota is exhausted: every write rejects. *)
Definition fullDisk : BrowserCacheManager World := {|
  setAccount _ w := (w, Rejects "quota_exceeded");
  setIdTokenCredential _ w := (w, Rejects "quota_exceeded");
  setAccessTokenCredential _ w := (w, Rejects "quota_exceeded");
  setRefreshTokenCredential _ w := (w, Rejects "quota_exceeded");
  getActiveAccount w := (w, Returns (activeAccount w));
  setActiveAccount _ w := (w, Rejects "quota_exceeded");
  removeAccount _ w := (w, Rejects "quota_exceeded");
  clear w := (w, Rejects "quota_exceeded")
|}.

End MoreSamples.

(** * Properties *)

(** ** Scope canonicalization *)

Section ScopeSetFacts.

Context `{ProtocolLibrary}.

Local Abbreviation lt := String_as_OT.lt.

Lemma cmp_refl (x : string) : String_as_OT.cmp x x = Eq.
Proof. now apply String_as_OT.cmp_eq. Qed.

Lemma cmp_gt (x y : string) : String_as_OT.cmp x y = Gt -> lt y x.
Proof.
  intros Hc. apply String_as_OT.cmp_lt.
  rewrite String_as_OT.cmp_antisym, Hc. reflexivity.
Qed.

Lemma lt_irrefl (x : string) : ~ lt x x.
Proof. intros Hl. apply (String_as_OT.lt_not_eq _ _ Hl). reflexivity. Qed.

Lemma insert_In (x y : string) (l : list string) :
  In y (ScopeSet.insert x l) <-> y = x \/ In y l.
Proof.
  induction l as [|z l IH]; simpl.
  - intuition.
  - destruct (String_as_OT.cmp x z) eqn:Hc; simpl.
    + apply String_as_OT.cmp_eq in Hc. subst z. intuition.
    + intuition.
    + rewrite IH. intuition.
Qed.

Lemma insert_sorted (x : string) (l : list string) :
  StronglySorted lt l -> StronglySorted lt (ScopeSet.insert x l).
Proof.
  induction 1 as [|z l Hs IH Hz]; simpl.
  - repeat constructor.
  - destruct (String_as_OT.cmp x z) eqn:Hc.
    + now constructor.
    + apply String_as_OT.cmp_lt in Hc. constructor.
      * now constructor.
      * constructor; [exact Hc|].
        rewrite List.Forall_forall in Hz |- *. intros y Hy.
        eapply String_as_OT.lt_trans; eauto.
    + apply cmp_gt in Hc. constructor; [exact IH|].
      rewrite List.Forall_forall in Hz |- *. intros y Hy.
      apply insert_In in Hy. destruct Hy as [->|Hy]; auto.
Qed.

Lemma new_sorted (l : list string) : StronglySorted lt (ScopeSet.new l).
Proof.
  unfold ScopeSet.new. induction (map toLowerCase l) as [|x m IH]; simpl.
  - constructor.
  - now apply insert_sorted.
Qed.

Lemma new_In (l : list string) (s : string) :
  In s (ScopeSet.new l) <-> In s (map toLowerCase l).
Proof.
  unfold ScopeSet.new. induction (map toLowerCase l) as [|x m IH]; simpl.
  - reflexivity.
  - rewrite insert_In, IH. intuition.
Qed.

(** A strictly increasing list is determined by its members. *)
Lemma sorted_members_eq (l1 l2 : list string) :
  StronglySorted lt l1 -> StronglySorted lt l2 ->
  (forall s, In s l1 <-> In s l2) -> l1 = l2.
Proof.
  intros H1. revert l2.
  induction H1 as [|x l1 Hs1 IH Hx]; intros l2 H2 Hm.
  - destruct l2 as [|y l2]; [reflexivity|].
    exfalso. apply (Hm y). now left.
  - destruct H2 as [|y l2 Hs2 Hy].
    + exfalso. apply (Hm x). now left.
    + rewrite List.Forall_forall in Hx, Hy.
      assert (x = y) as ->.
      { destruct (proj1 (Hm x) (or_introl eq_refl)) as [Hxy|Hxy]; [easy|].
        destruct (proj2 (Hm y) (or_introl eq_refl)) as [Hyx|Hyx]; [easy|].
        exfalso. apply (lt_irrefl x).
        eapply String_as_OT.lt_trans; [apply Hx, Hyx | apply Hy, Hxy]. }
      f_equal. apply IH; [exact Hs2|].
      intros s. split; intros Hin.
      * destruct (proj1 (Hm s) (or_intror Hin)) as [<-|]; [|assumption].
        exfalso. apply (lt_irrefl y). now apply Hx.
      * destruct (proj2 (Hm s) (or_intror Hin)) as [<-|]; [|assumption].
        exfalso. apply (lt_irrefl y). now apply Hy.
Qed.

(** Scope lists with the same members up to case have the same scope set. *)
Lemma new_canonical (l1 l2 : list string) :
  Ingestion.sameScopes l1 l2 -> ScopeSet.new l1 = ScopeSet.new l2.
Proof.
  intros Hs. apply sorted_members_eq; try apply new_sorted.
  intros s. rewrite !new_In. apply Hs.
Qed.

(** Reordering, changing the case of, or repeating scopes keeps the members
    up to case. *)
Lemma scopeVariant_sameScopes (l1 l2 : list string) :
  Ingestion.scopeVariant l1 l2 -> Ingestion.sameScopes l1 l2.
Proof.
  unfold Ingestion.sameScopes.
  induction 1 as [l|x y l|x y l Hxy|x l|x l l' _ IH|l l' _ IH
                 |l1 l2 l3 _ IH1 _ IH2]; intros s; simpl.
  - reflexivity.
  - intuition.
  - rewrite Hxy. reflexivity.
  - intuition.
  - rewrite (IH s). reflexivity.
  - symmetry. apply IH.
  - rewrite (IH1 s). apply IH2.
Qed.

End ScopeSetFacts.

(** ** Running the monad *)

Section MonadFacts.

Context {W : Type}.

Lemma bind_Ok {A B : Type} (m : M W A) (k : A -> M W B) (w w1 : W) (a : A) :
  m w = (w1, Ok a) -> bind m k w = k a w1.
Proof. intros Hm. unfold bind. now rewrite Hm. Qed.

Lemma bind_Throw {A B : Type} (m : M W A) (k : A -> M W B) (w w1 : W)
    (e : Thrown) :
  m w = (w1, Throw e) -> bind m k w = (w1, Throw e).
Proof. intros Hm. unfold bind. now rewrite Hm. Qed.

Lemma bind_inv {A B : Type} (m : M W A) (k : A -> M W B) (w w' : W)
    (r : Result B) :
  bind m k w = (w', r) ->
  (exists w1 a, m w = (w1, Ok a) /\ k a w1 = (w', r)) \/
  (exists e, m w = (w', Throw e) /\ r = Throw e).
Proof.
  unfold bind. destruct (m w) as [w1 [a|e]]; intros Hk.
  - left. now exists w1, a.
  - right. exists e. now inversion Hk.
Qed.

Lemma bind_inv_Ok {A B : Type} (m : M W A) (k : A -> M W B) (w w' : W)
    (b : B) :
  bind m k w = (w', Ok b) ->
  exists w1 a, m w = (w1, Ok a) /\ k a w1 = (w', Ok b).
Proof.
  intros Hb. apply bind_inv in Hb as [Hb|[e [_ He]]]; [exact Hb|discriminate].
Qed.

Lemma perform_inv {A : Type} (op : Effect W A) (w w' : W) (r : Result A) :
  perform op w = (w', r) ->
  (exists a, op w = (w', Returns a) /\ r = Ok a) \/
  (exists code, op w = (w', Rejects code) /\ r = Throw (CollaboratorError code)).
Proof.
  unfold perform. destruct (op w) as [w1 [a|code]]; intros Hp;
    inversion Hp; subst; eauto.
Qed.

Lemma perform_Returns {A : Type} (op : Effect W A) (w w' : W) (a : A) :
  op w = (w', Returns a) -> perform op w = (w', Ok a).
Proof. intros Ho. unfold perform. now rewrite Ho. Qed.

End MonadFacts.

(** ** The loaders *)

Section LoaderFacts.

Context {W : Type} `{ProtocolLibrary} `{BrowserCacheManager W} `{Clock W}.

Import Ingestion.

(** [loadExternalTokens] selects a branch, then runs the four loaders. *)
Lemma loadExternalTokens_branches this request response options :
  TokenCache.loadExternalTokens this request response options =
  match identityInputs request response options with
  | Ok i => loadRecord this request response options i
  | Throw e => throw e
  end.
Proof.
  unfold TokenCache.loadExternalTokens, identityInputs.
  destruct (truthy (ExternalTokenResponse.id_token response)); [|reflexivity].
  destruct (SilentRequest.account request); [reflexivity|].
  destruct (truthy (SilentRequest.authority request)); [|reflexivity].
  destruct (authorityError _ _); [reflexivity|].
  destruct (truthy (LoadTokenOptions.clientInfo options)); [reflexivity|].
  now destruct (truthy (ExternalTokenResponse.client_info response)).
Qed.

(** Once the account and the ID token are loaded, what remains are the two
    optional credentials. *)
Lemma loadExternalTokens_credentials this request response options w i
    account idToken w2 :
  identityLoaded this request response options w i account idToken w2 ->
  TokenCache.loadExternalTokens this request response options w =
  loadCredentials this request response options i account idToken w2.
Proof.
  intros [Hi [w1 [Hacc Hid]]].
  rewrite loadExternalTokens_branches, Hi. unfold loadRecord.
  rewrite (bind_Ok _ _ _ _ _ Hacc). now rewrite (bind_Ok _ _ _ _ _ Hid).
Qed.

Lemma guard_Some (code : string) :
  guard (W:=W) (Some code) = throw (CollaboratorError code).
Proof. reflexivity. Qed.

Lemma guard_None {A : Type} (k : unit -> M W A) :
  bind (guard None) k = k tt.
Proof. reflexivity. Qed.

(** [loadAccount] starts by parsing the raw token. *)
Lemma loadAccount_unparsed this idToken environment clientInfo authorityType
    requestHomeAccountId code :
  tokenError idToken = Some code ->
  TokenCache.loadAccount (W:=W) this idToken environment clientInfo
    authorityType requestHomeAccountId = throw (CollaboratorError code).
Proof. intros Ht. unfold TokenCache.loadAccount. now rewrite Ht. Qed.

(** How [loadAccount] ends: the token does not parse, the identity is empty,
    the engine is not in a browser, or the account is handed to the storage
    adapter. *)
Lemma loadAccount_inv this idToken environment clientInfo authorityType
    requestHomeAccountId (w w' : W) r :
  TokenCache.loadAccount this idToken environment clientInfo authorityType
    requestHomeAccountId w = (w', r) ->
  (exists code, tokenError idToken = Some code /\
                r = Throw (CollaboratorError code) /\ w' = w) \/
  (r = Throw (UnableToLoadTokenError UnresolvedIdentity) /\ w' = w) \/
  (r = Throw (UnableToLoadTokenError UnsupportedEnvironment) /\ w' = w /\
   TokenCache.isBrowserEnvironment this = false) \/
  (TokenCache.isBrowserEnvironment this = true /\
   exists account,
     (r = Ok account /\ setAccount account w = (w', Returns tt) \/
      exists code, r = Throw (CollaboratorError code) /\
                   setAccount account w = (w', Rejects code))).
Proof.
  destruct (tokenError idToken) as [code|] eqn:Ht.
  { rewrite (loadAccount_unparsed _ _ _ _ _ _ _ Ht). intros Hr.
    inversion Hr. left. now exists code. }
  intros Hr. right. revert Hr.
  unfold TokenCache.loadAccount. rewrite Ht, guard_None.
  match goal with
  | |- context [match truthy ?h with _ => _ end] => destruct (truthy h)
  end.
  2:{ intros Hr. inversion Hr. now left. }
  destruct (TokenCache.isBrowserEnvironment this).
  2:{ intros Hr. inversion Hr. right. now left. }
  intros Hr. right. right. split; [reflexivity|].
  apply bind_inv in Hr as [(w1 & [] & Hp & Hr)|(e & Hp & ->)].
  - inversion Hr; subst. apply perform_inv in Hp as [([] & Hp & _)|(c & _ & Hc)];
      [|discriminate]. eauto.
  - apply perform_inv in Hp as [(a & _ & Hc)|(c & Hp & Hc)]; [discriminate|].
    inversion Hc; subst. eauto 6.
Qed.

Lemma loadAccount_Ok this idToken environment clientInfo authorityType
    requestHomeAccountId (w w' : W) account :
  TokenCache.loadAccount this idToken environment clientInfo authorityType
    requestHomeAccountId w = (w', Ok account) ->
  TokenCache.isBrowserEnvironment this = true /\
  setAccount account w = (w', Returns tt).
Proof.
  intros Hr. apply loadAccount_inv in Hr
    as [(c & _ & Hr & _)|[[Hr _]|[[Hr _]|[Hb [a [[Hr Hs]|[c [Hr _]]]]]]]];
    try discriminate.
  inversion Hr; subst. now split.
Qed.

Lemma loadIdToken_Ok this idToken homeAccountId environment tenantId
    (w w' : W) entity :
  TokenCache.loadIdToken this idToken homeAccountId environment tenantId w
  = (w', Ok entity) ->
  entity = IdTokenEntity.createIdTokenEntity homeAccountId environment idToken
             (auth_clientId (TokenCache.config this)) tenantId /\
  setIdTokenCredential entity w = (w', Returns tt).
Proof.
  unfold TokenCache.loadIdToken.
  destruct (TokenCache.isBrowserEnvironment this); [|discriminate].
  intros Hr. apply bind_inv_Ok in Hr as (w1 & [] & Hp & Hr).
  inversion Hr; subst.
  apply perform_inv in Hp as [([] & Hp & _)|(c & _ & Hc)]; [|discriminate].
  now split.
Qed.

End LoaderFacts.

Section CredentialFacts.

Context {W : Type} `{ProtocolLibrary} `{BrowserCacheManager W} `{Clock W}.

Import Ingestion.

Lemma loadAccessToken_absent this request response homeAccountId environment
    tenantId options :
  truthy (ExternalTokenResponse.access_token response) = None ->
  TokenCache.loadAccessToken (W:=W) this request response homeAccountId
    environment tenantId options = ret None.
Proof. intros Ha. unfold TokenCache.loadAccessToken. now rewrite Ha. Qed.

Lemma loadAccessToken_no_expires_in this request response homeAccountId
    environment tenantId options access_token :
  truthy (ExternalTokenResponse.access_token response) = Some access_token ->
  truthyNumber (ExternalTokenResponse.expires_in response) = None ->
  TokenCache.loadAccessToken (W:=W) this request response homeAccountId
    environment tenantId options
  = throw (UnableToLoadTokenError (MissingExpiry expires_in_field)).
Proof.
  intros Ha He. unfold TokenCache.loadAccessToken. now rewrite Ha, He.
Qed.

Lemma loadAccessToken_no_extendedExpiresOn this request response
    homeAccountId environment tenantId options access_token expires_in :
  truthy (ExternalTokenResponse.access_token response) = Some access_token ->
  truthyNumber (ExternalTokenResponse.expires_in response) = Some expires_in ->
  truthyNumber (LoadTokenOptions.extendedExpiresOn options) = None ->
  TokenCache.loadAccessToken (W:=W) this request response homeAccountId
    environment tenantId options
  = throw (UnableToLoadTokenError (MissingExpiry extendedExpiresOn_field)).
Proof.
  intros Ha He Hx. unfold TokenCache.loadAccessToken. now rewrite Ha, He, Hx.
Qed.

(** With a token and both expiry values, [loadAccessToken] builds the scope
    set, which the library may reject. *)
Lemma loadAccessToken_rejected_scopes this request response homeAccountId
    environment tenantId options access_token expires_in extendedExpiresOn
    code :
  truthy (ExternalTokenResponse.access_token response) = Some access_token ->
  truthyNumber (ExternalTokenResponse.expires_in response) = Some expires_in ->
  truthyNumber (LoadTokenOptions.extendedExpiresOn options)
  = Some extendedExpiresOn ->
  scopeSetError (ScopeSet.new (SilentRequest.scopes request)) = Some code ->
  TokenCache.loadAccessToken (W:=W) this request response homeAccountId
    environment tenantId options
  = throw (CollaboratorError code).
Proof.
  intros Ha He Hx Hs. unfold TokenCache.loadAccessToken.
  now rewrite Ha, He, Hx, Hs.
Qed.

(** With a token, both expiry values and a scope set the library accepts,
    [loadAccessToken] builds this entity and hands it to the storage
    adapter. *)
Lemma loadAccessToken_present this request response homeAccountId
    environment tenantId options access_token expires_in extendedExpiresOn
    (w : W) :
  truthy (ExternalTokenResponse.access_token response) = Some access_token ->
  truthyNumber (ExternalTokenResponse.expires_in response) = Some expires_in ->
  truthyNumber (LoadTokenOptions.extendedExpiresOn options)
  = Some extendedExpiresOn ->
  scopeSetError (ScopeSet.new (SilentRequest.scopes request)) = None ->
  let entity :=
    AccessTokenEntity.createAccessTokenEntity homeAccountId environment
      access_token (auth_clientId (TokenCache.config this)) tenantId
      (ScopeSet.printScopes (ScopeSet.new (SilentRequest.scopes request)))
      (absoluteExpiry options expires_in w) extendedExpiresOn in
  TokenCache.loadAccessToken this request response homeAccountId environment
    tenantId options w
  = if TokenCache.isBrowserEnvironment this
    then bind (perform (setAccessTokenCredential entity))
           (fun _ => ret (Some entity)) w
    else (w, Throw (UnableToLoadTokenError UnsupportedEnvironment)).
Proof.
  intros Ha He Hx Hs. unfold TokenCache.loadAccessToken, absoluteExpiry.
  rewrite Ha, He, Hx, Hs. unfold guard, bind, Date_getTime, ret, throw.
  destruct (truthyNumber (LoadTokenOptions.expiresOn options));
    now destruct (TokenCache.isBrowserEnvironment this).
Qed.

(** What [loadAccessToken] can throw. *)
Lemma loadAccessToken_Throw this request response homeAccountId environment
    tenantId options (w w' : W) e :
  TokenCache.loadAccessToken this request response homeAccountId environment
    tenantId options w = (w', Throw e) ->
  (exists field, e = UnableToLoadTokenError (MissingExpiry field) /\ w' = w /\
     violated this request response options (MissingExpiry field) = true) \/
  (e = UnableToLoadTokenError UnsupportedEnvironment /\
   TokenCache.isBrowserEnvironment this = false) \/
  (exists code, e = CollaboratorError code).
Proof.
  destruct (truthy (ExternalTokenResponse.access_token response))
    as [a|] eqn:Ha.
  2:{ rewrite loadAccessToken_absent by assumption. discriminate. }
  destruct (truthyNumber (ExternalTokenResponse.expires_in response))
    as [x|] eqn:He.
  2:{ rewrite (loadAccessToken_no_expires_in _ _ _ _ _ _ _ _ Ha He).
      intros Hr. inversion Hr; subst. left. exists expires_in_field.
      simpl. now rewrite Ha, He. }
  destruct (truthyNumber (LoadTokenOptions.extendedExpiresOn options))
    as [y|] eqn:Hx.
  2:{ rewrite (loadAccessToken_no_extendedExpiresOn _ _ _ _ _ _ _ _ _ Ha He Hx).
      intros Hr. inversion Hr; subst. left. exists extendedExpiresOn_field.
      simpl. now rewrite Ha, Hx. }
  destruct (scopeSetError (ScopeSet.new (SilentRequest.scopes request)))
    as [code|] eqn:Hs.
  { rewrite (loadAccessToken_rejected_scopes _ _ _ _ _ _ _ _ _ _ _ Ha He Hx Hs).
    intros Hr. inversion Hr. right. right. now exists code. }
  rewrite (loadAccessToken_present _ _ _ _ _ _ _ _ _ _ _ Ha He Hx Hs).
  destruct (TokenCache.isBrowserEnvironment this).
  - intros Hr. apply bind_inv in Hr as [(w1 & [] & _ & Hr)|(c & Hp & Hc)];
      [discriminate|].
    inversion Hc; subst c.
    apply perform_inv in Hp as [(? & _ & Hp)|(code & _ & Hp)];
      [discriminate|].
    inversion Hp. right. right. now exists code.
  - intros Hr. inversion Hr. right. now left.
Qed.

Lemma loadRefreshToken_absent this request response homeAccountId
    environment :
  truthy (ExternalTokenResponse.refresh_token response) = None ->
  TokenCache.loadRefreshToken (W:=W) this request response homeAccountId
    environment = ret None.
Proof. intros Hr. unfold TokenCache.loadRefreshToken. now rewrite Hr. Qed.

Lemma loadRefreshToken_Throw this request response homeAccountId environment
    (w w' : W) e :
  TokenCache.loadRefreshToken this request response homeAccountId environment
    w = (w', Throw e) ->
  (e = UnableToLoadTokenError UnsupportedEnvironment /\
   TokenCache.isBrowserEnvironment this = false) \/
  (exists code, e = CollaboratorError code).
Proof.
  unfold TokenCache.loadRefreshToken.
  destruct (truthy (ExternalTokenResponse.refresh_token response));
    [|discriminate].
  destruct (TokenCache.isBrowserEnvironment this).
  - intros Hr. apply bind_inv in Hr as [(w1 & [] & _ & Hr)|(c & Hp & Hc)];
      [discriminate|].
    inversion Hc; subst c.
    apply perform_inv in Hp as [(? & _ & Hp)|(code & _ & Hp)];
      [discriminate|].
    inversion Hp. right. now exists code.
  - intros Hr. inversion Hr. now left.
Qed.

(** The loaders read neither the scopes' spelling nor the client-info of the
    response: only the fields named here. *)
Lemma loadRefreshToken_ext this request request' response response'
    homeAccountId environment :
  ExternalTokenResponse.refresh_token response
  = ExternalTokenResponse.refresh_token response' ->
  TokenCache.loadRefreshToken (W:=W) this request response homeAccountId
    environment
  = TokenCache.loadRefreshToken this request' response' homeAccountId
      environment.
Proof. intros Hr. unfold TokenCache.loadRefreshToken. now rewrite Hr. Qed.

Lemma loadAccessToken_ext this request request' response response'
    homeAccountId environment tenantId options :
  ScopeSet.new (SilentRequest.scopes request)
  = ScopeSet.new (SilentRequest.scopes request') ->
  ExternalTokenResponse.access_token response
  = ExternalTokenResponse.access_token response' ->
  ExternalTokenResponse.expires_in response
  = ExternalTokenResponse.expires_in response' ->
  TokenCache.loadAccessToken (W:=W) this request response homeAccountId
    environment tenantId options
  = TokenCache.loadAccessToken this request' response' homeAccountId
      environment tenantId options.
Proof.
  intros Hs Ha He. unfold TokenCache.loadAccessToken.
  now rewrite Hs, Ha, He.
Qed.

Lemma identityInputs_Throw request response options e :
  identityInputs request response options = Throw e ->
  e = UnableToLoadTokenError MissingIdToken \/
  e = UnableToLoadTokenError MissingAccountOrAuthority \/
  e = UnableToLoadTokenError MissingClientInfo \/
  exists authorityString code,
    SilentRequest.account request = None /\
    truthy (SilentRequest.authority request) = Some authorityString /\
    authorityError authorityString (SilentRequest.azureCloudOptions request)
    = Some code /\
    e = CollaboratorError code.
Proof.
  unfold identityInputs.
  destruct (truthy (ExternalTokenResponse.id_token response));
    [|intros Hr; inversion Hr; auto].
  destruct (SilentRequest.account request); [discriminate|].
  destruct (truthy (SilentRequest.authority request)) as [u|];
    [|intros Hr; inversion Hr; auto].
  destruct (authorityError u _) as [code|] eqn:Hu.
  { intros Hr. inversion Hr. right. right. right. now exists u, code. }
  destruct (truthy (LoadTokenOptions.clientInfo options)); [discriminate|].
  destruct (truthy (ExternalTokenResponse.client_info response));
    [discriminate|].
  intros Hr. inversion Hr. auto.
Qed.

End CredentialFacts.

(** ** Order of the validation failures *)

Ltac crunch :=
  repeat match goal with
         | H : (_, _) = (_, _) |- _ => inversion H; subst; clear H
         | H : context [match ?x with _ => _ end] |- _ =>
             destruct x eqn:?; simpl in *
         | |- context [match ?x with _ => _ end] =>
             destruct x eqn:?; simpl in *
         end.

Section FailureOrder.

Context {W : Type} `{ProtocolLibrary} `{BrowserCacheManager W} `{Clock W}.

Import Ingestion.

(** C1, as amended.  Unless the home-account identity cannot be resolved or a
    collaborator throws, an ingestion fails exactly when one of the listed
    preconditions is violated, and the failure raised is the first violated
    one in the order MissingIdToken, MissingAccountOrAuthority,
    MissingClientInfo, UnsupportedEnvironment, MissingExpiry: the environment
    is checked by [loadAccount], before [loadAccessToken] looks at the expiry
    fields. *)
Theorem failure_is_first_violated_in_checked_order this request response
    options (w w' : W) r :
  TokenCache.loadExternalTokens this request response options w = (w', r) ->
  r <> Throw (UnableToLoadTokenError UnresolvedIdentity) ->
  (forall code, r <> Throw (CollaboratorError code)) ->
  match firstViolated checkedOrder this request response options with
  | Some f => r = Throw (UnableToLoadTokenError f)
  | None => exists record, r = Ok record
  end.
Proof.
  intros Hrun Hid Hco.
  unfold TokenCache.loadExternalTokens, TokenCache.loadAccount,
    TokenCache.loadIdToken, TokenCache.loadAccessToken,
    TokenCache.loadRefreshToken, Date_getTime, guard, bind, ret, throw,
    perform in Hrun.
  unfold firstViolated, checkedOrder, violated; simpl.
  crunch; try congruence; try (eexists; reflexivity);
    exfalso; eapply Hco; reflexivity.
Qed.

(** C2.  When [loadExternalTokens] fails at the validation of the access
    token, the account and the ID token of this ingestion have been handed
    to the storage adapter, both writes returned, and the world the failure
    leaves is the world right after the second write: nothing is undone. *)
Theorem expiry_failure_keeps_account_and_id_token this request response
    options (w w' : W) field :
  TokenCache.loadExternalTokens this request response options w
  = (w', Throw (UnableToLoadTokenError (MissingExpiry field))) ->
  exists i account idToken w1,
    identityLoaded this request response options w i account idToken w' /\
    setAccount account w = (w1, Returns tt) /\
    setIdTokenCredential idToken w1 = (w', Returns tt) /\
    violated this request response options (MissingExpiry field) = true.
Proof.
  intros Hrun. rewrite loadExternalTokens_branches in Hrun.
  destruct (identityInputs request response options) as [i|e] eqn:Hi.
  2:{ inversion Hrun; subst.
      apply identityInputs_Throw in Hi
        as [Hi|[Hi|[Hi|(u & c & _ & _ & _ & Hi)]]]; discriminate. }
  unfold loadRecord in Hrun.
  apply bind_inv in Hrun as [(w1 & account & Hacc & Hrun)|(e & Hacc & He)].
  2:{ apply loadAccount_inv in Hacc
        as [(c & _ & Hr & _)|[[Hr _]|[[Hr _]|[_ [a [[Hr _]|[c [Hr _]]]]]]]];
        inversion He; subst; discriminate. }
  apply bind_inv in Hrun as [(w2 & idToken & Hid & Hrun)|(e & Hid & He)].
  2:{ exfalso. inversion He; subst e. clear - Hid.
      unfold TokenCache.loadIdToken, bind, perform, throw, ret in Hid.
      crunch. }
  unfold loadCredentials in Hrun.
  apply bind_inv in Hrun as [(w3 & at' & Hat & Hrun)|(e & Hat & He)].
  - exfalso.
    apply bind_inv in Hrun as [(w4 & rt & _ & Hrun)|(e & Hrt & He)];
      [discriminate|].
    inversion He; subst e.
    apply loadRefreshToken_Throw in Hrt as [[Hr _]|[c Hr]]; discriminate.
  - inversion He; subst e.
    apply loadAccessToken_Throw in Hat
      as [(f & Hf & -> & Hv)|[[Hr _]|[c Hr]]]; try discriminate.
    inversion Hf; subst f.
    exists i, account, idToken, w1.
    pose proof (loadAccount_Ok _ _ _ _ _ _ _ _ _ Hacc) as [_ Hsa].
    pose proof (loadIdToken_Ok _ _ _ _ _ _ _ _ Hid) as [_ Hsi].
    repeat split; try assumption. exists w1. now split.
Qed.

End FailureOrder.

Section FailureOrderExamples.

Import InMemory.

(** C1 fails as stated: this input violates both the expiry precondition and
    the environment precondition, the listed order puts the expiry first, and
    the failure raised is UnsupportedEnvironment. *)
Lemma listed_order_counterexample :
  Ingestion.firstViolated Ingestion.listedOrder Sample.headless
    Sample.requestWithAccount Sample.responseWithoutExpiry Sample.options
  = Some (MissingExpiry expires_in_field) /\
  Ingestion.violated Sample.headless Sample.requestWithAccount
    Sample.responseWithoutExpiry Sample.options UnsupportedEnvironment = true /\
  snd Sample.headlessRun = Throw (UnableToLoadTokenError UnsupportedEnvironment) /\
  snd Sample.headlessRun
  <> Throw (UnableToLoadTokenError (MissingExpiry expires_in_field)).
Proof. repeat split; try reflexivity. vm_compute. discriminate. Qed.

Lemma failure_is_first_violated_in_checked_order_witness :
  snd Sample.headlessRun = Throw (UnableToLoadTokenError UnsupportedEnvironment).
Proof.
  refine (failure_is_first_violated_in_checked_order Sample.headless
            Sample.requestWithAccount Sample.responseWithoutExpiry
            Sample.options (InMemory.emptyWorld Sample.now)
            (fst Sample.headlessRun) (snd Sample.headlessRun) _ _ _).
  - vm_compute. reflexivity.
  - vm_compute. discriminate.
  - intros code. vm_compute. discriminate.
Defined.

Lemma expiry_failure_keeps_account_and_id_token_witness :
  exists i account idToken w1,
    Ingestion.identityLoaded Sample.browser Sample.requestWithAccount
      Sample.responseWithoutExpiry Sample.options
      (InMemory.emptyWorld Sample.now) i account idToken (fst Sample.partialRun) /\
    setAccount account (InMemory.emptyWorld Sample.now) = (w1, Returns tt) /\
    setIdTokenCredential idToken w1 = (fst Sample.partialRun, Returns tt) /\
    Ingestion.violated Sample.browser Sample.requestWithAccount
      Sample.responseWithoutExpiry Sample.options
      (MissingExpiry expires_in_field) = true.
Proof.
  apply (expiry_failure_keeps_account_and_id_token Sample.browser
           Sample.requestWithAccount Sample.responseWithoutExpiry
           Sample.options (InMemory.emptyWorld Sample.now) (fst Sample.partialRun)
           expires_in_field).
  vm_compute. reflexivity.
Defined.

(** In the in-memory adapter the two entities are found under their keys
    after the failure. *)
Example partial_run_leaves_entities :
  snd Sample.partialRun = Throw (UnableToLoadTokenError (MissingExpiry expires_in_field))
  /\ is_Some (InMemory.accounts (fst Sample.partialRun) !! "uid.utid-login.example.com-jwt")
  /\ is_Some (InMemory.idTokens (fst Sample.partialRun)
                !! "uid.utid-login.example.com-idtoken-client-1-utid")
  /\ InMemory.accessTokens (fst Sample.partialRun) = ∅.
Proof. vm_compute. repeat split; eexists; reflexivity. Qed.

End FailureOrderExamples.

(** ** The record of a successful ingestion *)

Section RecordFacts.

Context {W : Type} `{ProtocolLibrary} `{BrowserCacheManager W} `{Clock W}.

Import Ingestion.

Lemma truthy_Some (x : option string) (s : string) :
  truthy x = Some s -> x = Some s /\ truthy (Some s) = Some s.
Proof.
  destruct x as [t|]; simpl; [|discriminate].
  destruct (String.eqb t "") eqn:Ht; [discriminate|].
  intros Hs. inversion Hs; subst. simpl. now rewrite Ht.
Qed.

(** A successful ingestion went through the four loaders, in this order. *)
Lemma loadExternalTokens_Ok this request response options (w w' : W) record :
  TokenCache.loadExternalTokens this request response options w
  = (w', Ok record) ->
  exists i w2 w3,
    identityLoaded this request response options w i
      (CacheRecord.account record) (CacheRecord.idToken record) w2 /\
    TokenCache.loadAccessToken this request response
      (AccountEntity.homeAccountId (CacheRecord.account record))
      (environment i) (tenantId i) options w2
    = (w3, Ok (CacheRecord.accessToken record)) /\
    TokenCache.loadRefreshToken this request response
      (AccountEntity.homeAccountId (CacheRecord.account record))
      (environment i) w3
    = (w', Ok (CacheRecord.refreshToken record)).
Proof.
  intros Hrun. rewrite loadExternalTokens_branches in Hrun.
  destruct (identityInputs request response options) as [i|e] eqn:Hi;
    [|discriminate].
  unfold loadRecord in Hrun.
  apply bind_inv_Ok in Hrun as (w1 & account & Hacc & Hrun).
  apply bind_inv_Ok in Hrun as (w2 & idToken & Hid & Hrun).
  unfold loadCredentials in Hrun.
  apply bind_inv_Ok in Hrun as (w3 & accessToken & Hat & Hrun).
  apply bind_inv_Ok in Hrun as (w4 & refreshToken & Hrt & Hrun).
  inversion Hrun; subst. simpl.
  exists i, w2, w3. repeat split; try assumption. now exists w1.
Qed.

(** The account [loadAccount] builds for a request that carries an account:
    the identity is reused, the account is generic. *)
Lemma loadAccount_of_request_account this idToken environment homeAccountId
    (w w' : W) account :
  TokenCache.loadAccount this idToken environment None None
    (Some homeAccountId) w = (w', Ok account) ->
  account = AccountEntity.createGenericAccount homeAccountId
              (newAuthToken idToken) environment.
Proof.
  destruct (tokenError idToken) as [code|] eqn:Hparse.
  { rewrite (loadAccount_unparsed _ _ _ _ _ _ _ Hparse). discriminate. }
  unfold TokenCache.loadAccount. rewrite Hparse, guard_None.
  destruct (truthy (Some homeAccountId)) as [h|] eqn:Hh; cbv beta iota zeta.
  - apply truthy_Some in Hh as [Hh Ht]. inversion Hh; subst h. rewrite Ht.
    destruct (TokenCache.isBrowserEnvironment this); [|discriminate].
    intros Hr. apply bind_inv_Ok in Hr as (w1 & [] & _ & Hr).
    now inversion Hr.
  - discriminate.
Qed.

(** The account [loadAccount] builds in the authority branch: the identity is
    derived from the client-info, the account is full. *)
Lemma loadAccount_of_client_info this idToken environment clientInfo
    authorityType (w w' : W) account :
  truthy (Some clientInfo) = Some clientInfo ->
  TokenCache.loadAccount this idToken environment (Some clientInfo)
    (Some authorityType) None w = (w', Ok account) ->
  account = AccountEntity.createAccount clientInfo
              (generateHomeAccountId clientInfo authorityType
                 (newAuthToken idToken))
              (newAuthToken idToken) environment.
Proof.
  intros Hci.
  destruct (tokenError idToken) as [code|] eqn:Ht.
  { rewrite (loadAccount_unparsed _ _ _ _ _ _ _ Ht). discriminate. }
  unfold TokenCache.loadAccount. rewrite Ht, guard_None, Hci.
  cbv beta iota zeta. change (truthy None) with (@None string).
  cbv beta iota.
  match goal with
  | |- context [truthy (Some ?h)] => destruct (truthy (Some h)) as [h'|] eqn:Hh
  end; [|discriminate].
  apply truthy_Some in Hh as [Hh _]. inversion Hh; subst h'.
  destruct (TokenCache.isBrowserEnvironment this); [|discriminate].
  intros Hr. apply bind_inv_Ok in Hr as (w1 & [] & _ & Hr).
  now inversion Hr.
Qed.

(** The branch taken by a request without account and with an authority the
    library accepts. *)
Lemma identityInputs_authority request response options id_token
    authorityString :
  SilentRequest.account request = None ->
  truthy (SilentRequest.authority request) = Some authorityString ->
  authorityError authorityString (SilentRequest.azureCloudOptions request)
  = None ->
  truthy (ExternalTokenResponse.id_token response) = Some id_token ->
  identityInputs request response options =
  match chosenClientInfo response options with
  | Some clientInfo =>
      Ok (authorityInputs id_token
            (resolveAuthority authorityString
               (SilentRequest.azureCloudOptions request)) clientInfo)
  | None => Throw (UnableToLoadTokenError MissingClientInfo)
  end.
Proof.
  intros Hacc Hau Hok Hid. unfold identityInputs, chosenClientInfo.
  rewrite Hid, Hacc, Hau, Hok.
  destruct (truthy (LoadTokenOptions.clientInfo options)); [reflexivity|].
  now destruct (truthy (ExternalTokenResponse.client_info response)).
Qed.

(** The loaders do not read the client-info of the response. *)
Lemma loadRecord_withClientInfo this request response options i other
    (w : W) :
  loadRecord this request (withClientInfo response other) options i w
  = loadRecord this request response options i w.
Proof.
  unfold loadRecord, bind.
  destruct (TokenCache.loadAccount _ _ _ _ _ _ w) as [w1 [account|e]];
    [|reflexivity].
  destruct (TokenCache.loadIdToken _ _ _ _ _ w1) as [w2 [idToken|e]];
    [|reflexivity].
  unfold loadCredentials.
  rewrite (loadAccessToken_ext this request request
             (withClientInfo response other) response) by reflexivity.
  now rewrite (loadRefreshToken_ext this request request
                 (withClientInfo response other) response) by reflexivity.
Qed.

(** The account step of the authority branch returns once the token
    parses, the derived identity is not empty, the engine runs in a browser
    and the storage adapter takes the account. *)
Lemma loadAccount_full this idToken environment clientInfo authorityType
    (w w1 : W) :
  truthy (Some clientInfo) = Some clientInfo ->
  tokenError idToken = None ->
  TokenCache.isBrowserEnvironment this = true ->
  generateHomeAccountId clientInfo authorityType (newAuthToken idToken)
  <> "" ->
  let account :=
    AccountEntity.createAccount clientInfo
      (generateHomeAccountId clientInfo authorityType (newAuthToken idToken))
      (newAuthToken idToken) environment in
  setAccount account w = (w1, Returns tt) ->
  TokenCache.loadAccount this idToken environment (Some clientInfo)
    (Some authorityType) None w = (w1, Ok account).
Proof.
  intros Hci Ht Hb Hh account Hs.
  unfold TokenCache.loadAccount. rewrite Ht, guard_None, Hci, Hb.
  cbv beta iota zeta. change (truthy None) with (@None string).
  cbv beta iota.
  assert (Hh' : truthy (Some (generateHomeAccountId clientInfo authorityType
                               (newAuthToken idToken)))
                = Some (generateHomeAccountId clientInfo authorityType
                          (newAuthToken idToken))).
  { unfold truthy. destruct (String.eqb _ "") eqn:He; [|reflexivity].
    apply String.eqb_eq in He. contradiction. }
  rewrite Hh'. fold account.
  rewrite (bind_Ok _ _ _ _ _ (perform_Returns _ _ _ _ Hs)). reflexivity.
Qed.

(** The ID-token step returns once the engine runs in a browser and the
    storage adapter takes the entity. *)
Lemma loadIdToken_writes this idToken homeAccountId environment tenantId
    (w w1 : W) :
  TokenCache.isBrowserEnvironment this = true ->
  let entity :=
    IdTokenEntity.createIdTokenEntity homeAccountId environment idToken
      (auth_clientId (TokenCache.config this)) tenantId in
  setIdTokenCredential entity w = (w1, Returns tt) ->
  TokenCache.loadIdToken this idToken homeAccountId environment tenantId w
  = (w1, Ok entity).
Proof.
  intros Hb entity Hs. unfold TokenCache.loadIdToken. rewrite Hb.
  fold entity.
  rewrite (bind_Ok _ _ _ _ _ (perform_Returns _ _ _ _ Hs)). reflexivity.
Qed.

Lemma chosenClientInfo_Some response options clientInfo :
  chosenClientInfo response options = Some clientInfo ->
  truthy (Some clientInfo) = Some clientInfo.
Proof.
  unfold chosenClientInfo.
  destruct (truthy (LoadTokenOptions.clientInfo options)) as [c|] eqn:Hc.
  - intros Hs. inversion Hs; subst c. now apply truthy_Some in Hc.
  - intros Hs. now apply truthy_Some in Hs.
Qed.

(** C3, as amended.  For a request with an authority the library accepts
    and no account, and a response with an ID token: when
    [options.clientInfo] is set, ingestion runs the loaders with it, whatever
    [response.client_info] holds, and the account of the record is built
    from it; when only [response.client_info] is set, ingestion runs the
    loaders with that one; with the client-info so chosen the ingestion
    succeeds, and returns the record whose account is the full account built
    from it, whenever the ID token parses, the identity derived is not
    empty, the engine runs in a browser, the storage adapter takes the
    account and the ID token, and the access-token and refresh-token steps
    return; when neither is set, ingestion fails with MissingClientInfo. *)
Theorem client_info_of_options_takes_precedence this request response options
    id_token authorityString :
  SilentRequest.account request = None ->
  truthy (SilentRequest.authority request) = Some authorityString ->
  authorityError authorityString (SilentRequest.azureCloudOptions request)
  = None ->
  truthy (ExternalTokenResponse.id_token response) = Some id_token ->
  let authority :=
    resolveAuthority authorityString
      (SilentRequest.azureCloudOptions request) in
  let fullAccount clientInfo :=
    AccountEntity.createAccount clientInfo
      (generateHomeAccountId clientInfo (Authority.authorityType authority)
         (newAuthToken id_token))
      (newAuthToken id_token) (Authority.hostnameAndPort authority) in
  (forall clientInfo,
     truthy (LoadTokenOptions.clientInfo options) = Some clientInfo ->
     forall (other : option string) (w : W),
       TokenCache.loadExternalTokens this request
         (withClientInfo response other) options w
       = loadRecord this request response options
           (authorityInputs id_token authority clientInfo) w /\
       forall w' record,
         TokenCache.loadExternalTokens this request
           (withClientInfo response other) options w = (w', Ok record) ->
         CacheRecord.account record = fullAccount clientInfo) /\
  (forall client_info,
     truthy (LoadTokenOptions.clientInfo options) = None ->
     truthy (ExternalTokenResponse.client_info response) = Some client_info ->
     forall w : W,
       TokenCache.loadExternalTokens this request response options w
       = loadRecord this request response options
           (authorityInputs id_token authority client_info) w /\
       forall w' record,
         TokenCache.loadExternalTokens this request response options w
         = (w', Ok record) ->
         CacheRecord.account record = fullAccount client_info) /\
  (forall clientInfo,
     chosenClientInfo response options = Some clientInfo ->
     tokenError id_token = None ->
     TokenCache.isBrowserEnvironment this = true ->
     generateHomeAccountId clientInfo (Authority.authorityType authority)
       (newAuthToken id_token) <> "" ->
     let account := fullAccount clientInfo in
     let idToken :=
       IdTokenEntity.createIdTokenEntity (AccountEntity.homeAccountId account)
         (Authority.hostnameAndPort authority) id_token
         (auth_clientId (TokenCache.config this))
         (Authority.tenant authority) in
     forall (w w1 w2 w3 w' : W) accessToken refreshToken,
       setAccount account w = (w1, Returns tt) ->
       setIdTokenCredential idToken w1 = (w2, Returns tt) ->
       TokenCache.loadAccessToken this request response
         (AccountEntity.homeAccountId account)
         (Authority.hostnameAndPort authority) (Authority.tenant authority)
         options w2 = (w3, Ok accessToken) ->
       TokenCache.loadRefreshToken this request response
         (AccountEntity.homeAccountId account)
         (Authority.hostnameAndPort authority) w3 = (w', Ok refreshToken) ->
       TokenCache.loadExternalTokens this request response options w
       = (w', Ok (CacheRecord.mk account idToken accessToken refreshToken))) /\
  (truthy (LoadTokenOptions.clientInfo options) = None ->
   truthy (ExternalTokenResponse.client_info response) = None ->
   forall w : W,
     TokenCache.loadExternalTokens this request response options w
     = (w, Throw (UnableToLoadTokenError MissingClientInfo))).
Proof.
  intros Hacc Hau Hok Hid authority fullAccount.
  assert (Hfull : forall clientInfo (w w' : W) record,
             truthy (Some clientInfo) = Some clientInfo ->
             loadRecord this request response options
               (authorityInputs id_token authority clientInfo) w
             = (w', Ok record) ->
             CacheRecord.account record = fullAccount clientInfo).
  { intros ci w w' record Hci Hrun. unfold loadRecord in Hrun.
    apply bind_inv_Ok in Hrun as (w1 & account & Hload & Hrun).
    apply loadAccount_of_client_info in Hload; [|exact Hci].
    apply bind_inv_Ok in Hrun as (w2 & idToken & _ & Hrun).
    unfold loadCredentials in Hrun.
    apply bind_inv_Ok in Hrun as (w3 & accessToken & _ & Hrun).
    apply bind_inv_Ok in Hrun as (w4 & refreshToken & _ & Hrun).
    inversion Hrun; subst. reflexivity. }
  split; [|split; [|split]].
  - intros ci Hci other w.
    assert (Hrun : TokenCache.loadExternalTokens this request
                     (withClientInfo response other) options w
                   = loadRecord this request response options
                       (authorityInputs id_token authority ci) w).
    { rewrite loadExternalTokens_branches.
      rewrite (identityInputs_authority _ _ _ id_token authorityString)
        by assumption.
      unfold chosenClientInfo. rewrite Hci.
      apply loadRecord_withClientInfo. }
    split; [exact Hrun|]. intros w' record Hrec. rewrite Hrun in Hrec.
    apply truthy_Some in Hci as [_ Hci]. eauto.
  - intros ci Hopt Hci w.
    assert (Hrun : TokenCache.loadExternalTokens this request response
                     options w
                   = loadRecord this request response options
                       (authorityInputs id_token authority ci) w).
    { rewrite loadExternalTokens_branches.
      rewrite (identityInputs_authority _ _ _ id_token authorityString)
        by assumption.
      unfold chosenClientInfo. now rewrite Hopt, Hci. }
    split; [exact Hrun|]. intros w' record Hrec. rewrite Hrun in Hrec.
    apply truthy_Some in Hci as [_ Hci]. eauto.
  - intros ci Hci Ht Hb Hh account idToken w w1 w2 w3 w' accessToken
      refreshToken Hsa Hsi Hat Hrt.
    rewrite loadExternalTokens_branches.
    rewrite (identityInputs_authority _ _ _ id_token authorityString)
      by assumption.
    rewrite Hci. unfold loadRecord, authorityInputs, loadCredentials.
    cbn [idTokenString environment tenantId clientInfo authorityType
         requestHomeAccountId].
    rewrite (bind_Ok _ _ _ _ _
               (loadAccount_full this id_token
                  (Authority.hostnameAndPort authority) ci
                  (Authority.authorityType authority) w w1
                  (chosenClientInfo_Some _ _ _ Hci) Ht Hb Hh Hsa)).
    fold authority. fold (fullAccount ci). fold account.
    rewrite (bind_Ok _ _ _ _ _
               (loadIdToken_writes this id_token
                  (AccountEntity.homeAccountId account)
                  (Authority.hostnameAndPort authority)
                  (Authority.tenant authority) w1 w2 Hb Hsi)).
    fold idToken.
    rewrite (bind_Ok _ _ _ _ _ Hat). rewrite (bind_Ok _ _ _ _ _ Hrt).
    reflexivity.
  - intros Hopt Hci w. rewrite loadExternalTokens_branches.
    rewrite (identityInputs_authority _ _ _ id_token authorityString)
      by assumption.
    unfold chosenClientInfo. now rewrite Hopt, Hci.
Qed.

End RecordFacts.

Section RecordExamples.

Import InMemory.

(** C3 fails as stated: with an authority, no account and the client-info
    in the response only, an ingestion outside a browser does not succeed;
    and with neither client-info, a response without ID token fails with
    MissingIdToken and an authority the library rejects with the error of
    the library, not with MissingClientInfo. *)
Lemma client_info_counterexample :
  (SilentRequest.account Sample.requestWithAuthority = None /\
   truthy (SilentRequest.authority Sample.requestWithAuthority)
   = Some "https://login.example.com/common" /\
   truthy (LoadTokenOptions.clientInfo Sample.options) = None /\
   truthy (ExternalTokenResponse.client_info Sample.fullResponse)
   = Some "b64" /\
   MoreSamples.headlessAuthorityRun
   = (emptyWorld Sample.now,
      Throw (UnableToLoadTokenError UnsupportedEnvironment))) /\
  (truthy (ExternalTokenResponse.client_info MoreSamples.responseWithoutIdToken)
   = None /\
   MoreSamples.noIdTokenRun
   = (emptyWorld Sample.now, Throw (UnableToLoadTokenError MissingIdToken))) /\
  (SilentRequest.account MoreSamples.requestWithInsecureAuthority = None /\
   truthy (SilentRequest.authority MoreSamples.requestWithInsecureAuthority)
   = Some "http://login.example.com/common" /\
   truthy (ExternalTokenResponse.client_info
             MoreSamples.responseWithoutClientInfo) = None /\
   MoreSamples.insecureAuthorityRun
   = (emptyWorld Sample.now,
      Throw (CollaboratorError "authority_uri_insecure"))).
Proof. vm_compute. repeat split; reflexivity. Qed.

Lemma client_info_of_options_takes_precedence_witness :
  match Sample.precedenceRun with
  | (_, Ok record) =>
      CacheRecord.account record
      = AccountEntity.createAccount "from-options" "from-options"
          (newAuthToken "jwt") "login.example.com"
  | (_, Throw _) => False
  end /\
  Sample.fullRun
  = (MoreSamples.authorityFullWorld,
     Ok (CacheRecord.mk Sample.authorityEntity Sample.authorityIdToken
           (Some MoreSamples.authorityAccessToken)
           (Some MoreSamples.authorityRefreshToken))) /\
  TokenCache.loadExternalTokens Sample.browser Sample.requestWithAuthority
    MoreSamples.responseWithoutClientInfo Sample.options
    (emptyWorld Sample.now)
  = (emptyWorld Sample.now, Throw (UnableToLoadTokenError MissingClientInfo)).
Proof.
  assert (Haccepted : authorityError "https://login.example.com/common"
                        (SilentRequest.azureCloudOptions
                           Sample.requestWithAuthority) = None)
    by (vm_compute; reflexivity).
  split; [|split].
  - destruct (client_info_of_options_takes_precedence Sample.browser
                Sample.requestWithAuthority Sample.fullResponse
                Sample.optionsWithClientInfo "jwt"
                "https://login.example.com/common" eq_refl eq_refl Haccepted
                eq_refl) as [Hopt _].
    destruct (Hopt "from-options" eq_refl (Some "b64")
                (emptyWorld Sample.now)) as [_ Hrec].
    destruct Sample.precedenceRun as [w' [record|e]] eqn:Hrun.
    + apply (Hrec w' record). exact Hrun.
    + vm_compute in Hrun. discriminate.
  - destruct (client_info_of_options_takes_precedence Sample.browser
                Sample.requestWithAuthority Sample.fullResponse
                Sample.options "jwt" "https://login.example.com/common"
                eq_refl eq_refl Haccepted eq_refl)
      as (_ & _ & Hsucceeds & _).
    apply (Hsucceeds "b64" eq_refl eq_refl eq_refl
             ltac:(vm_compute; discriminate) (emptyWorld Sample.now)
             Sample.authorityAccountWorld Sample.authorityIdentityWorld
             MoreSamples.authorityAccessTokenWorld
             MoreSamples.authorityFullWorld);
      vm_compute; reflexivity.
  - destruct (client_info_of_options_takes_precedence Sample.browser
                Sample.requestWithAuthority
                MoreSamples.responseWithoutClientInfo Sample.options "jwt"
                "https://login.example.com/common" eq_refl eq_refl Haccepted
                eq_refl) as (_ & _ & _ & Hneither).
    apply Hneither; reflexivity.
Defined.

End RecordExamples.

(** ** Account kind *)

Section AccountKind.

Context {W : Type} `{ProtocolLibrary} `{BrowserCacheManager W} `{Clock W}.

Import Ingestion.

Lemma identityInputs_Ok request response options i :
  identityInputs request response options = Ok i ->
  exists id_token,
    truthy (ExternalTokenResponse.id_token response) = Some id_token /\
    match SilentRequest.account request with
    | Some account =>
        i = mkInputs id_token (AccountInfo.environment account)
              (AccountInfo.tenantId account) None None
              (Some (AccountInfo.homeAccountId account))
    | None =>
        exists authorityString clientInfo,
          truthy (SilentRequest.authority request) = Some authorityString /\
          chosenClientInfo response options = Some clientInfo /\
          i = authorityInputs id_token
                (resolveAuthority authorityString
                   (SilentRequest.azureCloudOptions request)) clientInfo
    end.
Proof.
  unfold identityInputs, chosenClientInfo.
  destruct (truthy (ExternalTokenResponse.id_token response)) as [t|];
    [|discriminate].
  intros Hi. exists t. split; [reflexivity|].
  destruct (SilentRequest.account request) as [a|].
  - now inversion Hi.
  - destruct (truthy (SilentRequest.authority request)) as [u|];
      [|discriminate].
    exists u.
    destruct (authorityError u _); [discriminate|].
    destruct (truthy (LoadTokenOptions.clientInfo options)) as [c|].
    + exists c. now inversion Hi.
    + destruct (truthy (ExternalTokenResponse.client_info response)) as [c|];
        [|discriminate].
      exists c. now inversion Hi.
Qed.

Lemma chosenClientInfo_truthy response options clientInfo :
  chosenClientInfo response options = Some clientInfo ->
  truthy (Some clientInfo) = Some clientInfo.
Proof.
  unfold chosenClientInfo.
  destruct (truthy (LoadTokenOptions.clientInfo options)) as [c|] eqn:Hc.
  - intros Hs. inversion Hs; subst. now apply truthy_Some in Hc.
  - intros Hs. now apply truthy_Some in Hs.
Qed.

(** C5, as amended.  The account a successful ingestion persists is generic
    whenever the request carries an account, whether or not client-info is
    available on the call, and full, built from the chosen client-info,
    whenever the identity is resolved from an authority. *)
Theorem account_kind_is_decided_by_the_branch this request response options
    (w w' : W) record :
  TokenCache.loadExternalTokens this request response options w
  = (w', Ok record) ->
  (exists w1, setAccount (CacheRecord.account record) w = (w1, Returns tt)) /\
  exists id_token,
    truthy (ExternalTokenResponse.id_token response) = Some id_token /\
    match SilentRequest.account request with
    | Some account =>
        CacheRecord.account record
        = AccountEntity.createGenericAccount
            (AccountInfo.homeAccountId account) (newAuthToken id_token)
            (AccountInfo.environment account)
    | None =>
        exists authorityString clientInfo,
          truthy (SilentRequest.authority request) = Some authorityString /\
          chosenClientInfo response options = Some clientInfo /\
          let authority :=
            resolveAuthority authorityString
              (SilentRequest.azureCloudOptions request) in
          CacheRecord.account record
          = AccountEntity.createAccount clientInfo
              (generateHomeAccountId clientInfo
                 (Authority.authorityType authority) (newAuthToken id_token))
              (newAuthToken id_token) (Authority.hostnameAndPort authority)
    end.
Proof.
  intros Hrun.
  apply loadExternalTokens_Ok in Hrun
    as (i & w2 & w3 & (Hi & w1 & Hacc & _) & _ & _).
  split.
  { exists w1. now apply loadAccount_Ok in Hacc. }
  apply identityInputs_Ok in Hi as (id_token & Hid & Hi).
  exists id_token. split; [exact Hid|].
  destruct (SilentRequest.account request) as [a|].
  - subst i. simpl in Hacc.
    now apply loadAccount_of_request_account in Hacc.
  - destruct Hi as (u & c & Hu & Hc & ->). exists u, c.
    repeat split; try assumption. simpl in Hacc.
    apply loadAccount_of_client_info in Hacc; [exact Hacc|].
    eapply chosenClientInfo_truthy; eassumption.
Qed.

End AccountKind.

Section AccountKindExamples.

Import InMemory.

(** C5 fails as stated: the request carries an account, client-info is
    available both in the options and in the response, and the account
    that is persisted and returned is generic. *)
Lemma account_branch_counterexample :
  Ingestion.chosenClientInfo Sample.fullResponse Sample.optionsWithClientInfo
  = Some "from-options" /\
  match Sample.accountRun with
  | (w', Ok record) =>
      AccountEntity.clientInfo (CacheRecord.account record) = None /\
      accounts w' !! "uid.utid-login.example.com-jwt"
      = Some (CacheRecord.account record)
  | (_, Throw _) => False
  end.
Proof. split; [reflexivity|]. vm_compute. split; reflexivity. Qed.

Lemma account_kind_is_decided_by_the_branch_witness :
  match Sample.accountRun with
  | (_, Ok record) =>
      CacheRecord.account record
      = AccountEntity.createGenericAccount "uid.utid" (newAuthToken "jwt")
          "login.example.com"
  | (_, Throw _) => False
  end.
Proof.
  destruct Sample.accountRun as [w' [record|e]] eqn:Hrun.
  - destruct (account_kind_is_decided_by_the_branch Sample.browser
                Sample.requestWithAccount Sample.fullResponse
                Sample.optionsWithClientInfo (emptyWorld Sample.now) w'
                record Hrun) as [_ [id_token [Hid Hrec]]].
    vm_compute in Hid. inversion Hid; subst id_token. exact Hrec.
  - vm_compute in Hrun. discriminate.
Defined.

End AccountKindExamples.

(** ** The access token: scopes and expiry *)

Section AccessTokenFacts.

Context {W : Type} `{ProtocolLibrary} `{BrowserCacheManager W} `{Clock W}.

Import Ingestion.

(** The entity a successful [loadAccessToken] returns for a present token. *)
Lemma loadAccessToken_Ok this request response homeAccountId environment
    tenantId options access_token expires_in extendedExpiresOn (w w' : W)
    result :
  truthy (ExternalTokenResponse.access_token response) = Some access_token ->
  truthyNumber (ExternalTokenResponse.expires_in response) = Some expires_in ->
  truthyNumber (LoadTokenOptions.extendedExpiresOn options)
  = Some extendedExpiresOn ->
  TokenCache.loadAccessToken this request response homeAccountId environment
    tenantId options w = (w', Ok result) ->
  result
  = Some (AccessTokenEntity.createAccessTokenEntity homeAccountId environment
            access_token (auth_clientId (TokenCache.config this)) tenantId
            (ScopeSet.printScopes
               (ScopeSet.new (SilentRequest.scopes request)))
            (absoluteExpiry options expires_in w) extendedExpiresOn).
Proof.
  intros Ha He Hx.
  destruct (scopeSetError (ScopeSet.new (SilentRequest.scopes request)))
    as [code|] eqn:Hs.
  { rewrite (loadAccessToken_rejected_scopes _ _ _ _ _ _ _ _ _ _ _ Ha He Hx Hs).
    discriminate. }
  rewrite (loadAccessToken_present _ _ _ _ _ _ _ _ _ _ _ Ha He Hx Hs).
  destruct (TokenCache.isBrowserEnvironment this); [|discriminate].
  intros Hr. apply bind_inv_Ok in Hr as (w1 & [] & _ & Hr). now inversion Hr.
Qed.

(** The access-token step returns the entity once the library accepts the
    scope set, the engine runs in a browser and the storage adapter takes the
    entity. *)
Lemma loadAccessToken_writes this request response homeAccountId environment
    tenantId options access_token expires_in extendedExpiresOn (w w1 : W) :
  truthy (ExternalTokenResponse.access_token response) = Some access_token ->
  truthyNumber (ExternalTokenResponse.expires_in response) = Some expires_in ->
  truthyNumber (LoadTokenOptions.extendedExpiresOn options)
  = Some extendedExpiresOn ->
  scopeSetError (ScopeSet.new (SilentRequest.scopes request)) = None ->
  TokenCache.isBrowserEnvironment this = true ->
  let entity :=
    AccessTokenEntity.createAccessTokenEntity homeAccountId environment
      access_token (auth_clientId (TokenCache.config this)) tenantId
      (ScopeSet.printScopes (ScopeSet.new (SilentRequest.scopes request)))
      (absoluteExpiry options expires_in w) extendedExpiresOn in
  setAccessTokenCredential entity w = (w1, Returns tt) ->
  TokenCache.loadAccessToken this request response homeAccountId environment
    tenantId options w = (w1, Ok (Some entity)).
Proof.
  intros Ha He Hx Hs Hb entity Hset.
  rewrite (loadAccessToken_present _ _ _ _ _ _ _ _ _ _ _ Ha He Hx Hs), Hb.
  fold entity.
  rewrite (bind_Ok _ _ _ _ _ (perform_Returns _ _ _ _ Hset)). reflexivity.
Qed.

(** An ingestion whose account and ID token are loaded, whose response
    carries an access token with both expiry values and whose scope set the
    library accepts returns the record with this access-token entity, once
    the storage adapter takes the entity and the refresh-token step
    returns. *)
Lemma ingestion_stores_access_token this request response options
    (w w2 w3 w' : W) i account idToken access_token expires_in
    extendedExpiresOn refreshToken :
  identityLoaded this request response options w i account idToken w2 ->
  truthy (ExternalTokenResponse.access_token response) = Some access_token ->
  truthyNumber (ExternalTokenResponse.expires_in response) = Some expires_in ->
  truthyNumber (LoadTokenOptions.extendedExpiresOn options)
  = Some extendedExpiresOn ->
  scopeSetError (ScopeSet.new (SilentRequest.scopes request)) = None ->
  let entity :=
    AccessTokenEntity.createAccessTokenEntity
      (AccountEntity.homeAccountId account) (environment i) access_token
      (auth_clientId (TokenCache.config this)) (tenantId i)
      (ScopeSet.printScopes (ScopeSet.new (SilentRequest.scopes request)))
      (absoluteExpiry options expires_in w2) extendedExpiresOn in
  setAccessTokenCredential entity w2 = (w3, Returns tt) ->
  TokenCache.loadRefreshToken this request response
    (AccountEntity.homeAccountId account) (environment i) w3
  = (w', Ok refreshToken) ->
  TokenCache.loadExternalTokens this request response options w
  = (w', Ok (CacheRecord.mk account idToken (Some entity) refreshToken)).
Proof.
  intros Hl Ha He Hx Hs entity Hset Hrt.
  rewrite (loadExternalTokens_credentials _ _ _ _ _ _ _ _ _ Hl).
  destruct Hl as (_ & w1 & Hacc & _).
  apply loadAccount_Ok in Hacc as [Hb _].
  unfold loadCredentials.
  rewrite (bind_Ok _ _ _ _ _
             (loadAccessToken_writes this request response
                (AccountEntity.homeAccountId account) (environment i)
                (tenantId i) options access_token expires_in
                extendedExpiresOn w2 w3 Ha He Hx Hs Hb Hset)).
  fold entity. rewrite (bind_Ok _ _ _ _ _ Hrt). reflexivity.
Qed.

(** Whatever access-token entity a successful [loadAccessToken] returns
    carries the canonical string of the requested scopes. *)
Lemma loadAccessToken_target this request response homeAccountId environment
    tenantId options (w w' : W) entity :
  TokenCache.loadAccessToken this request response homeAccountId environment
    tenantId options w = (w', Ok (Some entity)) ->
  AccessTokenEntity.target entity
  = ScopeSet.printScopes (ScopeSet.new (SilentRequest.scopes request)).
Proof.
  destruct (truthy (ExternalTokenResponse.access_token response))
    as [a|] eqn:Ha.
  2:{ rewrite loadAccessToken_absent by assumption. discriminate. }
  destruct (truthyNumber (ExternalTokenResponse.expires_in response))
    as [e|] eqn:He.
  2:{ rewrite (loadAccessToken_no_expires_in _ _ _ _ _ _ _ _ Ha He).
      discriminate. }
  destruct (truthyNumber (LoadTokenOptions.extendedExpiresOn options))
    as [x|] eqn:Hx.
  2:{ rewrite (loadAccessToken_no_extendedExpiresOn _ _ _ _ _ _ _ _ _ Ha He Hx).
      discriminate. }
  intros Hr. apply (loadAccessToken_Ok _ _ _ _ _ _ _ _ _ _ _ _ _ Ha He Hx) in Hr.
  now inversion Hr.
Qed.

Lemma loadRecord_withScopes this request response options i scopes1 scopes2
    (w : W) :
  ScopeSet.new scopes1 = ScopeSet.new scopes2 ->
  loadRecord this (withScopes request scopes1) response options i w
  = loadRecord this (withScopes request scopes2) response options i w.
Proof.
  intros Hs. unfold loadRecord, bind.
  destruct (TokenCache.loadAccount _ _ _ _ _ _ w) as [w1 [account|e]];
    [|reflexivity].
  destruct (TokenCache.loadIdToken _ _ _ _ _ w1) as [w2 [idToken|e]];
    [|reflexivity].
  unfold loadCredentials.
  rewrite (loadAccessToken_ext this (withScopes request scopes1)
             (withScopes request scopes2) response response)
    by (try reflexivity; exact Hs).
  now rewrite (loadRefreshToken_ext this (withScopes request scopes1)
                 (withScopes request scopes2) response response)
    by reflexivity.
Qed.

(** C4.  Two requests that differ only in their scope lists, the lists
    differing only in order, letter case or repetition, are ingested alike;
    in particular the access-token entities produced carry the same canonical
    scope string, the one of either list, and have the same cache key.  And
    an entity is produced: when the account and the ID token are loaded, the
    response carries an access token with both expiry values, the library
    accepts the scope set and the storage adapter takes the entity, both
    ingestions return the record with the same access-token entity, whose
    scope string is the canonical one and whose key is built from it. *)
Theorem equivalent_scope_lists_give_the_same_key this request response
    options scopes1 scopes2 :
  sameScopes scopes1 scopes2 ->
  (forall w : W,
     TokenCache.loadExternalTokens this (withScopes request scopes1) response
       options w
     = TokenCache.loadExternalTokens this (withScopes request scopes2)
         response options w) /\
  (forall (w w1 w2 : W) record1 record2 entity1 entity2,
     TokenCache.loadExternalTokens this (withScopes request scopes1) response
       options w = (w1, Ok record1) ->
     TokenCache.loadExternalTokens this (withScopes request scopes2) response
       options w = (w2, Ok record2) ->
     CacheRecord.accessToken record1 = Some entity1 ->
     CacheRecord.accessToken record2 = Some entity2 ->
     AccessTokenEntity.target entity1
     = ScopeSet.printScopes (ScopeSet.new scopes1) /\
     AccessTokenEntity.target entity2 = AccessTokenEntity.target entity1 /\
     AccessTokenEntity.generateCredentialKey entity2
     = AccessTokenEntity.generateCredentialKey entity1) /\
  (forall (w w2 w3 w' : W) i account idToken access_token expires_in
          extendedExpiresOn refreshToken,
     identityLoaded this (withScopes request scopes1) response options w i
       account idToken w2 ->
     truthy (ExternalTokenResponse.access_token response)
     = Some access_token ->
     truthyNumber (ExternalTokenResponse.expires_in response)
     = Some expires_in ->
     truthyNumber (LoadTokenOptions.extendedExpiresOn options)
     = Some extendedExpiresOn ->
     scopeSetError (ScopeSet.new scopes1) = None ->
     let entity :=
       AccessTokenEntity.createAccessTokenEntity
         (AccountEntity.homeAccountId account) (environment i) access_token
         (auth_clientId (TokenCache.config this)) (tenantId i)
         (ScopeSet.printScopes (ScopeSet.new scopes1))
         (absoluteExpiry options expires_in w2) extendedExpiresOn in
     setAccessTokenCredential entity w2 = (w3, Returns tt) ->
     TokenCache.loadRefreshToken this (withScopes request scopes1) response
       (AccountEntity.homeAccountId account) (environment i) w3
     = (w', Ok refreshToken) ->
     let record := CacheRecord.mk account idToken (Some entity) refreshToken in
     TokenCache.loadExternalTokens this (withScopes request scopes1) response
       options w = (w', Ok record) /\
     TokenCache.loadExternalTokens this (withScopes request scopes2) response
       options w = (w', Ok record) /\
     AccessTokenEntity.target entity
     = ScopeSet.printScopes (ScopeSet.new scopes2) /\
     AccessTokenEntity.generateCredentialKey entity
     = cacheKey [AccountEntity.homeAccountId account; environment i;
                 "accesstoken"; auth_clientId (TokenCache.config this);
                 tenantId i; ScopeSet.printScopes (ScopeSet.new scopes2)]).
Proof.
  intros Hs. apply new_canonical in Hs.
  assert (Hsame : forall w : W,
             TokenCache.loadExternalTokens this (withScopes request scopes1)
               response options w
             = TokenCache.loadExternalTokens this
                 (withScopes request scopes2) response options w).
  { intros w. rewrite !loadExternalTokens_branches.
    change (identityInputs (withScopes request scopes2) response options)
      with (identityInputs (withScopes request scopes1) response options).
    destruct (identityInputs (withScopes request scopes1) response options);
      [|reflexivity].
    now apply loadRecord_withScopes. }
  split; [exact Hsame|]. split.
  - intros w w1 w2 record1 record2 entity1 entity2 Hrun1 Hrun2 He1 He2.
    rewrite <- Hsame, Hrun1 in Hrun2. inversion Hrun2; subst record2 w2.
    rewrite He1 in He2. inversion He2; subst entity2.
    repeat split.
    apply loadExternalTokens_Ok in Hrun1 as (i & u2 & u3 & _ & Hat & _).
    rewrite He1 in Hat. now apply loadAccessToken_target in Hat.
  - intros w w2 w3 w' i account idToken a e x refreshToken Hl Ha He Hx Hok
      entity Hset Hrt record.
    assert (Hrun : TokenCache.loadExternalTokens this
                     (withScopes request scopes1) response options w
                   = (w', Ok record)).
    { exact (ingestion_stores_access_token this (withScopes request scopes1)
               response options w w2 w3 w' i account idToken a e x
               refreshToken Hl Ha He Hx Hok Hset Hrt). }
    split; [exact Hrun|]. split; [now rewrite <- Hsame|].
    unfold entity. rewrite Hs. split; reflexivity.
Qed.

(** Ingestion when the response carries an access token but the expiry
    fields are not both there. *)
Lemma ingestion_without_expires_in this request response options (w : W) i
    account idToken w2 access_token :
  identityLoaded this request response options w i account idToken w2 ->
  truthy (ExternalTokenResponse.access_token response) = Some access_token ->
  truthyNumber (ExternalTokenResponse.expires_in response) = None ->
  TokenCache.loadExternalTokens this request response options w
  = (w2, Throw (UnableToLoadTokenError (MissingExpiry expires_in_field))).
Proof.
  intros Hl Ha He.
  rewrite (loadExternalTokens_credentials _ _ _ _ _ _ _ _ _ Hl).
  unfold loadCredentials.
  now rewrite (loadAccessToken_no_expires_in _ _ _ _ _ _ _ _ Ha He).
Qed.

Lemma ingestion_without_extendedExpiresOn this request response options
    (w : W) i account idToken w2 access_token expires_in :
  identityLoaded this request response options w i account idToken w2 ->
  truthy (ExternalTokenResponse.access_token response) = Some access_token ->
  truthyNumber (ExternalTokenResponse.expires_in response) = Some expires_in ->
  truthyNumber (LoadTokenOptions.extendedExpiresOn options) = None ->
  TokenCache.loadExternalTokens this request response options w
  = (w2, Throw (UnableToLoadTokenError (MissingExpiry extendedExpiresOn_field))).
Proof.
  intros Hl Ha He Hx.
  rewrite (loadExternalTokens_credentials _ _ _ _ _ _ _ _ _ Hl).
  unfold loadCredentials.
  now rewrite (loadAccessToken_no_extendedExpiresOn _ _ _ _ _ _ _ _ _ Ha He Hx).
Qed.

(** The expiry of the access token in the record of a successful ingestion;
    the clock is read in the world the ID-token step left. *)
Lemma ingestion_expiry this request response options (w w' : W) i account
    idToken w2 access_token expires_in extendedExpiresOn record :
  identityLoaded this request response options w i account idToken w2 ->
  truthy (ExternalTokenResponse.access_token response) = Some access_token ->
  truthyNumber (ExternalTokenResponse.expires_in response) = Some expires_in ->
  truthyNumber (LoadTokenOptions.extendedExpiresOn options)
  = Some extendedExpiresOn ->
  TokenCache.loadExternalTokens this request response options w
  = (w', Ok record) ->
  exists entity,
    CacheRecord.accessToken record = Some entity /\
    AccessTokenEntity.expiresOn entity = absoluteExpiry options expires_in w2 /\
    AccessTokenEntity.extendedExpiresOn entity = extendedExpiresOn.
Proof.
  intros Hl Ha He Hx.
  rewrite (loadExternalTokens_credentials _ _ _ _ _ _ _ _ _ Hl).
  unfold loadCredentials. intros Hrun.
  apply bind_inv_Ok in Hrun as (w3 & accessToken & Hat & Hrun).
  apply bind_inv_Ok in Hrun as (w4 & refreshToken & _ & Hrun).
  inversion Hrun; subst. simpl.
  apply (loadAccessToken_Ok _ _ _ _ _ _ _ _ _ _ _ _ _ Ha He Hx) in Hat.
  subst accessToken. eexists. split; [reflexivity|]. now split.
Qed.


Lemma truthyNumber_zero (q : Q) : (q == 0)%Q -> truthyNumber (Some q) = None.
Proof.
  intros Hq. simpl. apply Qeq_bool_iff in Hq. now rewrite Hq.
Qed.

(** C10, as amended.  Once the account and the ID token are loaded, and the
    response contains an access-token string: a [response.expires_in] of 0
    makes the ingestion fail with MissingExpiry, so does an
    [options.extendedExpiresOn] of 0, and an [options.expiresOn] of 0 is
    ignored, the expiry being now + expires_in: that is the expiry of the
    entity in the record of any successful ingestion, and the ingestion does
    return the record with the entity of that expiry once the library
    accepts the scope set, the storage adapter takes the entity and the
    refresh-token step returns. *)
Theorem zero_counts_as_absent this request response options (w : W) i account
    idToken w2 access_token :
  identityLoaded this request response options w i account idToken w2 ->
  truthy (ExternalTokenResponse.access_token response) = Some access_token ->
  (forall zero,
     ExternalTokenResponse.expires_in response = Some zero -> (zero == 0)%Q ->
     TokenCache.loadExternalTokens this request response options w
     = (w2, Throw (UnableToLoadTokenError (MissingExpiry expires_in_field)))) /\
  (forall expires_in zero,
     truthyNumber (ExternalTokenResponse.expires_in response)
     = Some expires_in ->
     LoadTokenOptions.extendedExpiresOn options = Some zero -> (zero == 0)%Q ->
     TokenCache.loadExternalTokens this request response options w
     = (w2, Throw (UnableToLoadTokenError
                     (MissingExpiry extendedExpiresOn_field)))) /\
  (forall expires_in extendedExpiresOn zero w' record,
     truthyNumber (ExternalTokenResponse.expires_in response)
     = Some expires_in ->
     truthyNumber (LoadTokenOptions.extendedExpiresOn options)
     = Some extendedExpiresOn ->
     LoadTokenOptions.expiresOn options = Some zero -> (zero == 0)%Q ->
     TokenCache.loadExternalTokens this request response options w
     = (w', Ok record) ->
     exists entity,
       CacheRecord.accessToken record = Some entity /\
       AccessTokenEntity.expiresOn entity
       = (expires_in + inject_Z (getTime w2) / 1000)%Q) /\
  (forall expires_in extendedExpiresOn zero (w3 w' : W) refreshToken,
     truthyNumber (ExternalTokenResponse.expires_in response)
     = Some expires_in ->
     truthyNumber (LoadTokenOptions.extendedExpiresOn options)
     = Some extendedExpiresOn ->
     LoadTokenOptions.expiresOn options = Some zero -> (zero == 0)%Q ->
     scopeSetError (ScopeSet.new (SilentRequest.scopes request)) = None ->
     let entity :=
       AccessTokenEntity.createAccessTokenEntity
         (AccountEntity.homeAccountId account) (environment i) access_token
         (auth_clientId (TokenCache.config this)) (tenantId i)
         (ScopeSet.printScopes (ScopeSet.new (SilentRequest.scopes request)))
         (expires_in + inject_Z (getTime w2) / 1000)%Q extendedExpiresOn in
     setAccessTokenCredential entity w2 = (w3, Returns tt) ->
     TokenCache.loadRefreshToken this request response
       (AccountEntity.homeAccountId account) (environment i) w3
     = (w', Ok refreshToken) ->
     TokenCache.loadExternalTokens this request response options w
     = (w', Ok (CacheRecord.mk account idToken (Some entity) refreshToken))).
Proof.
  intros Hl Ha. split; [|split; [|split]].
  - intros z Hz Hzero. eapply ingestion_without_expires_in; try eassumption.
    rewrite Hz. now apply truthyNumber_zero.
  - intros e z He Hz Hzero.
    eapply ingestion_without_extendedExpiresOn; try eassumption.
    rewrite Hz. now apply truthyNumber_zero.
  - intros e x z w' record He Hx Hz Hzero Hrun.
    destruct (ingestion_expiry _ _ _ _ _ _ _ _ _ _ _ _ _ _ Hl Ha He Hx Hrun)
      as (entity & Hent & Hexp & _).
    exists entity. split; [exact Hent|]. rewrite Hexp.
    unfold absoluteExpiry. rewrite Hz. now rewrite truthyNumber_zero.
  - intros e x z w3 w' refreshToken He Hx Hz Hzero Hok entity Hset Hrt.
    assert (Hexp : absoluteExpiry options e w2
                   = (e + inject_Z (getTime w2) / 1000)%Q).
    { unfold absoluteExpiry. rewrite Hz. now rewrite truthyNumber_zero. }
    pose proof (ingestion_stores_access_token this request response options
                  w w2 w3 w' i account idToken access_token e x refreshToken
                  Hl Ha He Hx Hok) as Hrun.
    cbv zeta in Hrun. rewrite Hexp in Hrun. exact (Hrun Hset Hrt).
Qed.

End AccessTokenFacts.

Section AccessTokenExamples.

Import InMemory.

Lemma equivalent_scope_lists_give_the_same_key_witness :
  TokenCache.loadExternalTokens Sample.browser
    (Ingestion.withScopes Sample.requestWithAuthority ["User.Read"; "openid"])
    Sample.fullResponse Sample.options (emptyWorld Sample.now)
  = (MoreSamples.authorityFullWorld,
     Ok (CacheRecord.mk Sample.authorityEntity Sample.authorityIdToken
           (Some MoreSamples.authorityAccessToken)
           (Some MoreSamples.authorityRefreshToken))) /\
  TokenCache.loadExternalTokens Sample.browser
    (Ingestion.withScopes Sample.requestWithAuthority
       ["OPENID"; "user.read"; "openid"])
    Sample.fullResponse Sample.options (emptyWorld Sample.now)
  = (MoreSamples.authorityFullWorld,
     Ok (CacheRecord.mk Sample.authorityEntity Sample.authorityIdToken
           (Some MoreSamples.authorityAccessToken)
           (Some MoreSamples.authorityRefreshToken))) /\
  AccessTokenEntity.target MoreSamples.authorityAccessToken
  = "openid user.read" /\
  AccessTokenEntity.generateCredentialKey MoreSamples.authorityAccessToken
  = "b64-login.example.com-accesstoken-client-1-common-openid user.read".
Proof.
  assert (Hs : Ingestion.sameScopes ["User.Read"; "openid"]
                 ["OPENID"; "user.read"; "openid"]).
  { intros s. simpl. intuition. }
  assert (Hl : Ingestion.identityLoaded Sample.browser
                 (Ingestion.withScopes Sample.requestWithAuthority
                    ["User.Read"; "openid"])
                 Sample.fullResponse Sample.options (emptyWorld Sample.now)
                 Sample.authorityInputs Sample.authorityEntity
                 Sample.authorityIdToken Sample.authorityIdentityWorld).
  { split; [vm_compute; reflexivity|]. exists Sample.authorityAccountWorld.
    split; vm_compute; reflexivity. }
  destruct (equivalent_scope_lists_give_the_same_key Sample.browser
              Sample.requestWithAuthority Sample.fullResponse Sample.options
              ["User.Read"; "openid"] ["OPENID"; "user.read"; "openid"] Hs)
    as (_ & _ & Hproduced).
  destruct (Hproduced (emptyWorld Sample.now) Sample.authorityIdentityWorld
              MoreSamples.authorityAccessTokenWorld
              MoreSamples.authorityFullWorld Sample.authorityInputs
              Sample.authorityEntity Sample.authorityIdToken "AT1" 3600%Q
              1700007200%Q (Some MoreSamples.authorityRefreshToken) Hl
              eq_refl eq_refl eq_refl
              ltac:(vm_compute; reflexivity) ltac:(vm_compute; reflexivity)
              ltac:(vm_compute; reflexivity))
    as (Hrun1 & Hrun2 & Htarget & Hkey).
  split; [|split; [|split]].
  - rewrite Hrun1. vm_compute. reflexivity.
  - rewrite Hrun2. vm_compute. reflexivity.
  - vm_compute. reflexivity.
  - vm_compute. reflexivity.
Defined.

(** The canonical scope string and the key in scenario 1. *)
Example scenario_1_access_token :
  match Sample.fullRun with
  | (w', Ok record) =>
      match CacheRecord.accessToken record with
      | Some entity =>
          AccessTokenEntity.target entity = "openid user.read" /\
          AccessTokenEntity.generateCredentialKey entity
          = "b64-login.example.com-accesstoken-client-1-common-openid user.read"
          /\ (AccessTokenEntity.expiresOn entity == 1700003600)%Q
          /\ accessTokens w'
               !! AccessTokenEntity.generateCredentialKey entity
             = Some entity
      | None => False
      end
  | (_, Throw _) => False
  end.
Proof. vm_compute. repeat split. Qed.



(** C10 fails as stated: this response contains an access-token string and
    an [expires_in] of 0, and outside a browser the ingestion fails with
    UnsupportedEnvironment, not with MissingExpiry. *)
Lemma zero_expiry_counterexample :
  truthy (ExternalTokenResponse.access_token Sample.responseWithZeroExpiry)
  = Some "AT1" /\
  ExternalTokenResponse.expires_in Sample.responseWithZeroExpiry
  = Some 0%Q /\
  MoreSamples.headlessZeroExpiryRun
  = (emptyWorld Sample.now,
     Throw (UnableToLoadTokenError UnsupportedEnvironment)) /\
  forall field,
    snd MoreSamples.headlessZeroExpiryRun
    <> Throw (UnableToLoadTokenError (MissingExpiry field)).
Proof.
  repeat split; try reflexivity. intros field. vm_compute. discriminate.
Qed.

Lemma zero_counts_as_absent_witness :
  snd Sample.zeroExpiresInRun
  = Throw (UnableToLoadTokenError (MissingExpiry expires_in_field)) /\
  snd MoreSamples.zeroExtendedExpiresOnRun
  = Throw (UnableToLoadTokenError (MissingExpiry extendedExpiresOn_field)) /\
  Sample.zeroExpiresOnRun
  = (MoreSamples.aliceFullWorld,
     Ok (CacheRecord.mk Sample.aliceEntity Sample.aliceIdToken
           (Some MoreSamples.aliceAccessToken)
           (Some MoreSamples.aliceRefreshToken))) /\
  AccessTokenEntity.expiresOn MoreSamples.aliceAccessToken
  = (3600 + inject_Z Sample.now / 1000)%Q.
Proof.
  assert (Hl : forall response options,
             ExternalTokenResponse.id_token response = Some "jwt" ->
             Ingestion.identityLoaded Sample.browser
               Sample.requestWithAccount response options
               (emptyWorld Sample.now) Sample.aliceInputs
               Sample.aliceEntity Sample.aliceIdToken
               Sample.aliceIdentityWorld).
  { intros response options Hid. split.
    - unfold Ingestion.identityInputs. rewrite Hid. reflexivity.
    - exists Sample.aliceAccountWorld. split; vm_compute; reflexivity. }
  split; [|split; [|split]].
  - destruct (zero_counts_as_absent Sample.browser Sample.requestWithAccount
                Sample.responseWithZeroExpiry Sample.options
                (emptyWorld Sample.now) Sample.aliceInputs Sample.aliceEntity
                Sample.aliceIdToken Sample.aliceIdentityWorld "AT1"
                (Hl Sample.responseWithZeroExpiry Sample.options eq_refl) eq_refl) as [Hzero _].
    unfold Sample.zeroExpiresInRun.
    rewrite (Hzero 0%Q eq_refl (Qeq_refl 0)). reflexivity.
  - destruct (zero_counts_as_absent Sample.browser Sample.requestWithAccount
                Sample.fullResponse MoreSamples.optionsWithZeroExtendedExpiresOn
                (emptyWorld Sample.now) Sample.aliceInputs Sample.aliceEntity
                Sample.aliceIdToken Sample.aliceIdentityWorld "AT1"
                (Hl Sample.fullResponse
                   MoreSamples.optionsWithZeroExtendedExpiresOn eq_refl) eq_refl) as (_ & Hzero & _).
    unfold MoreSamples.zeroExtendedExpiresOnRun.
    rewrite (Hzero 3600%Q 0%Q eq_refl eq_refl (Qeq_refl 0)). reflexivity.
  - destruct (zero_counts_as_absent Sample.browser Sample.requestWithAccount
                Sample.fullResponse Sample.optionsWithZeroExpiresOn
                (emptyWorld Sample.now) Sample.aliceInputs Sample.aliceEntity
                Sample.aliceIdToken Sample.aliceIdentityWorld "AT1"
                (Hl Sample.fullResponse Sample.optionsWithZeroExpiresOn
                   eq_refl) eq_refl) as (_ & _ & _ & Hproduced).
    unfold Sample.zeroExpiresOnRun.
    rewrite (Hproduced 3600%Q 1700007200%Q 0%Q
               MoreSamples.aliceAccessTokenWorld MoreSamples.aliceFullWorld
               (Some MoreSamples.aliceRefreshToken) eq_refl eq_refl eq_refl
               (Qeq_refl 0) ltac:(vm_compute; reflexivity)
               ltac:(vm_compute; reflexivity) ltac:(vm_compute; reflexivity)).
    vm_compute. reflexivity.
  - reflexivity.
Defined.

End AccessTokenExamples.

(** ** Absent tokens *)

Section AbsentTokens.

Context {W : Type} `{ProtocolLibrary} `{BrowserCacheManager W} `{Clock W}.

Import Ingestion.

(** C7.  Once the account and the ID token are loaded: when the response
    omits the access-token string, the access-token step neither throws nor
    writes, and if the refresh-token step returns, the ingestion returns the
    record with a null [accessToken]; likewise for an omitted refresh-token
    string.  Omitting either token changes neither what the account and the
    ID-token steps do nor what the step of the other token does. *)
Theorem absent_tokens_yield_null_fields this request response options (w : W)
    i account idToken w2 :
  identityLoaded this request response options w i account idToken w2 ->
  (truthy (ExternalTokenResponse.access_token response) = None ->
   forall refreshToken w3,
     TokenCache.loadRefreshToken this request response
       (AccountEntity.homeAccountId account) (environment i) w2
     = (w3, Ok refreshToken) ->
     TokenCache.loadExternalTokens this request response options w
     = (w3, Ok (CacheRecord.mk account idToken None refreshToken))) /\
  (truthy (ExternalTokenResponse.refresh_token response) = None ->
   forall accessToken w3,
     TokenCache.loadAccessToken this request response
       (AccountEntity.homeAccountId account) (environment i) (tenantId i)
       options w2
     = (w3, Ok accessToken) ->
     TokenCache.loadExternalTokens this request response options w
     = (w3, Ok (CacheRecord.mk account idToken accessToken None))) /\
  (forall token,
     identityLoaded this request (withAccessToken response token) options w
       i account idToken w2 /\
     forall homeAccountId environment,
       TokenCache.loadRefreshToken (W:=W) this request
         (withAccessToken response token) homeAccountId environment
       = TokenCache.loadRefreshToken this request response homeAccountId
           environment) /\
  (forall token,
     identityLoaded this request (withRefreshToken response token) options w
       i account idToken w2 /\
     forall homeAccountId environment tenantId,
       TokenCache.loadAccessToken (W:=W) this request
         (withRefreshToken response token) homeAccountId environment tenantId
         options
       = TokenCache.loadAccessToken this request response homeAccountId
           environment tenantId options).
Proof.
  intros Hl. repeat split.
  - intros Ha refreshToken w3 Hrt.
    rewrite (loadExternalTokens_credentials _ _ _ _ _ _ _ _ _ Hl).
    unfold loadCredentials. rewrite loadAccessToken_absent by assumption.
    unfold ret at 1. unfold bind at 1.
    now rewrite (bind_Ok _ _ _ _ _ Hrt).
  - intros Hr accessToken w3 Hat.
    rewrite (loadExternalTokens_credentials _ _ _ _ _ _ _ _ _ Hl).
    unfold loadCredentials. rewrite (bind_Ok _ _ _ _ _ Hat).
    now rewrite loadRefreshToken_absent by assumption.
  - exact (proj1 Hl).
  - exact (proj2 Hl).
  - exact (proj1 Hl).
  - exact (proj2 Hl).
Qed.

End AbsentTokens.

Section AbsentTokensExamples.

Import InMemory.

Lemma absent_tokens_yield_null_fields_witness :
  match Sample.idTokenOnlyRun with
  | (_, Ok record) =>
      CacheRecord.accessToken record = None /\
      CacheRecord.refreshToken record = None
  | (_, Throw _) => False
  end.
Proof.
  assert (Hl : Ingestion.identityLoaded Sample.browser
                 Sample.requestWithAuthority Sample.responseWithoutTokens
                 Sample.options (emptyWorld Sample.now)
                 Sample.authorityInputs Sample.authorityEntity
                 Sample.authorityIdToken Sample.authorityIdentityWorld).
  { split; [reflexivity|]. exists Sample.authorityAccountWorld.
    split; vm_compute; reflexivity. }
  destruct (absent_tokens_yield_null_fields Sample.browser
              Sample.requestWithAuthority Sample.responseWithoutTokens
              Sample.options (emptyWorld Sample.now) Sample.authorityInputs
              Sample.authorityEntity Sample.authorityIdToken
              Sample.authorityIdentityWorld Hl) as [Hnull _].
  unfold Sample.idTokenOnlyRun.
  rewrite (Hnull eq_refl None Sample.authorityIdentityWorld eq_refl).
  split; reflexivity.
Defined.

(** Scenario 2 of the specification: without the refresh token the record
    differs from the one of scenario 1 in that field only. *)
Example scenario_2_null_refresh_token :
  match Sample.fullRun,
        TokenCache.loadExternalTokens Sample.browser
          Sample.requestWithAuthority
          (Ingestion.withRefreshToken Sample.fullResponse None)
          Sample.options (emptyWorld Sample.now) with
  | (_, Ok full), (_, Ok record) =>
      record
      = CacheRecord.mk (CacheRecord.account full) (CacheRecord.idToken full)
          (CacheRecord.accessToken full) None
  | _, _ => False
  end.
Proof. vm_compute. reflexivity. Qed.

End AbsentTokensExamples.

(** ** Clearing the cache on logout *)

Section LogoutFacts.

Context {W : Type} `{ProtocolLibrary} `{BrowserCacheManager W} `{ICrypto W}.

Import Logout.

(** The [try] block around the removal never lets an exception out, and
    leaves the world as the removal left it. *)
Lemma removal_is_swallowed (key : string) (w : W) :
  try_catch (bind (perform (removeAccount key)) (fun _ => ret tt))
    (fun _ => ret tt) w
  = (fst (removeAccount key w), Ok tt).
Proof.
  unfold try_catch, bind, perform, ret.
  now destruct (removeAccount key w) as [w1 [b|code]].
Qed.

(** The [try] block of the no-account case: the keystore is cleared only if
    the cache clear returned. *)
Lemma full_clear_is_swallowed (w : W) :
  try_catch
    (bind (perform clear)
       (fun _ => bind (perform clearKeystore) (fun _ => ret tt)))
    (fun _ => ret tt) w
  = (match clear w with
     | (w1, Returns _) => fst (clearKeystore w1)
     | (w1, Rejects _) => w1
     end, Ok tt).
Proof.
  unfold try_catch, bind, perform, ret.
  destruct (clear w) as [w1 [[]|code]]; [|reflexivity].
  now destruct (clearKeystore w1) as [w2 [b|code]].
Qed.

Lemma clearCacheOnLogout_account (account : AccountInfo.t) (w : W) :
  BaseInteractionClient.clearCacheOnLogout (Some account) w
  = match resetActiveAccount account w with
    | (w1, Ok _) =>
        (fst (removeAccount
                (AccountEntity.generateAccountCacheKey account) w1), Ok tt)
    | (w1, Throw e) => (w1, Throw e)
    end.
Proof.
  unfold BaseInteractionClient.clearCacheOnLogout, resetActiveAccount, bind.
  destruct (perform getActiveAccount w) as [w0 [active|e]]; [|reflexivity].
  destruct ((if accountInfoIsEqual account active false
             then perform (setActiveAccount None) else ret tt) w0)
    as [w1 [[]|e]]; [|reflexivity].
  apply removal_is_swallowed.
Qed.


(** C9, as amended.  Provided that reading and resetting the active-account
    marker, which happen outside the [try] blocks, do not throw, the call
    returns normally whatever the clear, removeAccount and clearKeystore
    operations do; without an account it attempts a full cache clear and, if
    that returned, a keystore clear. *)
Theorem logout_clearing_never_propagates_past_the_marker
    (account : option AccountInfo.t) (w : W) :
  (forall a, account = Some a ->
     exists w1, resetActiveAccount a w = (w1, Ok tt)) ->
  exists w',
    BaseInteractionClient.clearCacheOnLogout account w = (w', Ok tt) /\
    (account = None ->
     w' = match clear w with
          | (w1, Returns _) => fst (clearKeystore w1)
          | (w1, Rejects _) => w1
          end).
Proof.
  intros Hmarker. destruct account as [a|].
  - destruct (Hmarker a eq_refl) as [w1 Hreset].
    eexists. split; [|discriminate].
    now rewrite clearCacheOnLogout_account, Hreset.
  - eexists. split; [apply full_clear_is_swallowed|reflexivity].
Qed.

End LogoutFacts.

Section LogoutExamples.

Import InMemory.



Lemma logout_clearing_never_propagates_past_the_marker_witness :
  snd (BaseInteractionClient.clearCacheOnLogout (Some Sample.alice)
         Sample.signedInWorld) = Ok tt.
Proof.
  destruct (logout_clearing_never_propagates_past_the_marker
              (Some Sample.alice) Sample.signedInWorld) as [w' [Hrun _]].
  - intros a Ha. inversion Ha; subst a. eexists. vm_compute. reflexivity.
  - now rewrite Hrun.
Defined.

End LogoutExamples.

Section UnreachableStorage.

Import Unreachable.

(** C9 fails as stated: when the storage adapter throws on reading the
    active account, [clearCacheOnLogout] with an account lets the exception
    through. *)
Lemma marker_failure_counterexample :
  BaseInteractionClient.clearCacheOnLogout
    (H:=InMemory.protocolLibrary) (Some Sample.alice) tt
  = (tt, Throw (CollaboratorError "storage_unavailable")).
Proof. reflexivity. Qed.

(** Without an account the same adapter is harmless. *)
Example unreachable_full_clear_is_swallowed :
  BaseInteractionClient.clearCacheOnLogout
    (H:=InMemory.protocolLibrary) None tt = (tt, Ok tt).
Proof. reflexivity. Qed.

End UnreachableStorage.

(** ** Further properties of the ingestion *)

Section LoaderOutcomes.

Context {W : Type} `{ProtocolLibrary} `{BrowserCacheManager W} `{Clock W}.

Import Ingestion.

Lemma perform_outcome {A B : Type} (op : Effect W A) (w w' : W)
    (r : Result B) (b : B) :
  bind (perform op) (fun _ => ret b) w = (w', r) ->
  (exists x, op w = (w', Returns x) /\ r = Ok b) \/
  (exists code, op w = (w', Rejects code) /\ r = Throw (CollaboratorError code)).
Proof.
  unfold bind, perform, ret. destruct (op w) as [w1 [x|code]]; intros Hr;
    inversion Hr; subst; eauto.
Qed.

(** Every way [loadIdToken] can end. *)
Lemma loadIdToken_outcome this idToken homeAccountId environment tenantId
    (w w' : W) r :
  TokenCache.loadIdToken this idToken homeAccountId environment tenantId w
  = (w', r) ->
  let entity :=
    IdTokenEntity.createIdTokenEntity homeAccountId environment idToken
      (auth_clientId (TokenCache.config this)) tenantId in
  (TokenCache.isBrowserEnvironment this = false /\
   r = Throw (UnableToLoadTokenError UnsupportedEnvironment) /\ w' = w) \/
  (TokenCache.isBrowserEnvironment this = true /\
   (r = Ok entity /\ setIdTokenCredential entity w = (w', Returns tt) \/
    exists code, r = Throw (CollaboratorError code) /\
                 setIdTokenCredential entity w = (w', Rejects code))).
Proof.
  unfold TokenCache.loadIdToken.
  destruct (TokenCache.isBrowserEnvironment this); intros Hr; cbv zeta.
  - right. split; [reflexivity|].
    apply perform_outcome in Hr as [([] & Hs & ->)|(code & Hs & ->)]; eauto.
  - left. now inversion Hr.
Qed.

(** Every way [loadAccessToken] can end. *)
Lemma loadAccessToken_outcome this request response homeAccountId environment
    tenantId options (w w' : W) r :
  TokenCache.loadAccessToken this request response homeAccountId environment
    tenantId options w = (w', r) ->
  (truthy (ExternalTokenResponse.access_token response) = None /\
   r = Ok None /\ w' = w) \/
  (exists field,
     r = Throw (UnableToLoadTokenError (MissingExpiry field)) /\ w' = w) \/
  (exists code,
     scopeSetError (ScopeSet.new (SilentRequest.scopes request)) = Some code /\
     r = Throw (CollaboratorError code) /\ w' = w) \/
  (TokenCache.isBrowserEnvironment this = false /\
   r = Throw (UnableToLoadTokenError UnsupportedEnvironment) /\ w' = w) \/
  (TokenCache.isBrowserEnvironment this = true /\
   exists access_token expires_in extendedExpiresOn,
     truthy (ExternalTokenResponse.access_token response)
     = Some access_token /\
     truthyNumber (ExternalTokenResponse.expires_in response)
     = Some expires_in /\
     truthyNumber (LoadTokenOptions.extendedExpiresOn options)
     = Some extendedExpiresOn /\
     let entity :=
       AccessTokenEntity.createAccessTokenEntity homeAccountId environment
         access_token (auth_clientId (TokenCache.config this)) tenantId
         (ScopeSet.printScopes (ScopeSet.new (SilentRequest.scopes request)))
         (absoluteExpiry options expires_in w) extendedExpiresOn in
     (r = Ok (Some entity) /\
      setAccessTokenCredential entity w = (w', Returns tt) \/
      exists code, r = Throw (CollaboratorError code) /\
                   setAccessTokenCredential entity w = (w', Rejects code))).
Proof.
  destruct (truthy (ExternalTokenResponse.access_token response))
    as [a|] eqn:Ha.
  2:{ rewrite loadAccessToken_absent by assumption. intros Hr.
      inversion Hr. now left. }
  destruct (truthyNumber (ExternalTokenResponse.expires_in response))
    as [e|] eqn:He.
  2:{ rewrite (loadAccessToken_no_expires_in _ _ _ _ _ _ _ _ Ha He).
      intros Hr. inversion Hr. right. left. eauto. }
  destruct (truthyNumber (LoadTokenOptions.extendedExpiresOn options))
    as [x|] eqn:Hx.
  2:{ rewrite (loadAccessToken_no_extendedExpiresOn _ _ _ _ _ _ _ _ _ Ha He Hx).
      intros Hr. inversion Hr. right. left. eauto. }
  destruct (scopeSetError (ScopeSet.new (SilentRequest.scopes request)))
    as [code|] eqn:Hscopes.
  { rewrite (loadAccessToken_rejected_scopes _ _ _ _ _ _ _ _ _ _ _ Ha He Hx
               Hscopes).
    intros Hr. inversion Hr. right. right. left. now exists code. }
  rewrite (loadAccessToken_present _ _ _ _ _ _ _ _ _ _ _ Ha He Hx Hscopes).
  destruct (TokenCache.isBrowserEnvironment this); intros Hr.
  - do 4 right. split; [reflexivity|]. exists a, e, x.
    repeat split. cbv zeta.
    apply perform_outcome in Hr as [([] & Hs & ->)|(code & Hs & ->)]; eauto.
  - right. right. right. left. now inversion Hr.
Qed.

(** Every way [loadRefreshToken] can end. *)
Lemma loadRefreshToken_outcome this request response homeAccountId
    environment (w w' : W) r :
  TokenCache.loadRefreshToken this request response homeAccountId environment
    w = (w', r) ->
  (truthy (ExternalTokenResponse.refresh_token response) = None /\
   r = Ok None /\ w' = w) \/
  (TokenCache.isBrowserEnvironment this = false /\
   r = Throw (UnableToLoadTokenError UnsupportedEnvironment) /\ w' = w) \/
  (TokenCache.isBrowserEnvironment this = true /\
   exists refresh_token,
     truthy (ExternalTokenResponse.refresh_token response)
     = Some refresh_token /\
     let entity :=
       RefreshTokenEntity.createRefreshTokenEntity homeAccountId environment
         refresh_token (auth_clientId (TokenCache.config this)) in
     (r = Ok (Some entity) /\
      setRefreshTokenCredential entity w = (w', Returns tt) \/
      exists code, r = Throw (CollaboratorError code) /\
                   setRefreshTokenCredential entity w = (w', Rejects code))).
Proof.
  unfold TokenCache.loadRefreshToken.
  destruct (truthy (ExternalTokenResponse.refresh_token response))
    as [t|] eqn:Ht.
  2:{ intros Hr. inversion Hr. now left. }
  destruct (TokenCache.isBrowserEnvironment this); intros Hr.
  - right. right. split; [reflexivity|]. exists t. split; [reflexivity|].
    cbv zeta.
    apply perform_outcome in Hr as [([] & Hs & ->)|(code & Hs & ->)]; eauto.
  - right. left. now inversion Hr.
Qed.

(** The identity [loadAccount] settles on, and the account it builds from
    it, read off its arguments alone. *)
Lemma loadAccount_Ok_fields this idToken environment clientInfo authorityType
    requestHomeAccountId (w w' : W) account :
  TokenCache.loadAccount this idToken environment clientInfo authorityType
    requestHomeAccountId w = (w', Ok account) ->
  AccountEntity.environment account = environment /\
  AccountEntity.homeAccountId account <> "" /\
  forall (v v' : W) account',
    TokenCache.loadAccount this idToken environment clientInfo authorityType
      requestHomeAccountId v = (v', Ok account') ->
    account' = account.
Proof.
  destruct (tokenError idToken) as [code|] eqn:Hparse.
  { rewrite (loadAccount_unparsed _ _ _ _ _ _ _ Hparse). discriminate. }
  unfold TokenCache.loadAccount. rewrite Hparse, !guard_None.
  match goal with
  | |- context [match truthy ?h with _ => _ end] =>
      destruct (truthy h) as [id|] eqn:Hid
  end; [|discriminate].
  destruct (TokenCache.isBrowserEnvironment this); [|discriminate].
  intros Hr. apply bind_inv_Ok in Hr as (w1 & [] & _ & Hr).
  inversion Hr; subst account. repeat split.
  - now destruct (truthy clientInfo).
  - apply truthy_Some in Hid as [_ Hid]. intros Hempty.
    assert (Hhid : AccountEntity.homeAccountId
                     match truthy clientInfo with
                     | Some c =>
                         AccountEntity.createAccount c id
                           (newAuthToken idToken) environment
                     | None =>
                         AccountEntity.createGenericAccount id
                           (newAuthToken idToken) environment
                     end = id) by now destruct (truthy clientInfo).
    rewrite Hhid in Hempty. subst id. discriminate Hid.
  - intros v v' account' Hr'.
    apply bind_inv_Ok in Hr' as (v1 & [] & _ & Hr'). now inversion Hr'.
Qed.

End LoaderOutcomes.

Section IngestionTrace.

Context {W : Type} `{ProtocolLibrary} `{BrowserCacheManager W} `{Clock W}.

Import Ingestion.

Lemma identityInputs_idToken request response options i :
  identityInputs request response options = Ok i ->
  truthy (ExternalTokenResponse.id_token response) = Some (idTokenString i).
Proof.
  intros Hi. apply identityInputs_Ok in Hi as (t & Ht & Hi).
  destruct (SilentRequest.account request).
  - now subst i.
  - destruct Hi as (u & c & _ & _ & ->). exact Ht.
Qed.

(** What a successful ingestion did, step by step. *)
Lemma ingestion_trace this request response options (w w' : W) record :
  TokenCache.loadExternalTokens this request response options w
  = (w', Ok record) ->
  exists i w1 w2 w3,
    identityInputs request response options = Ok i /\
    TokenCache.isBrowserEnvironment this = true /\
    TokenCache.loadAccount this (idTokenString i) (environment i)
      (clientInfo i) (authorityType i) (requestHomeAccountId i) w
    = (w1, Ok (CacheRecord.account record)) /\
    setAccount (CacheRecord.account record) w = (w1, Returns tt) /\
    CacheRecord.idToken record
    = IdTokenEntity.createIdTokenEntity
        (AccountEntity.homeAccountId (CacheRecord.account record))
        (environment i) (idTokenString i)
        (auth_clientId (TokenCache.config this)) (tenantId i) /\
    setIdTokenCredential (CacheRecord.idToken record) w1 = (w2, Returns tt) /\
    TokenCache.loadAccessToken this request response
      (AccountEntity.homeAccountId (CacheRecord.account record))
      (environment i) (tenantId i) options w2
    = (w3, Ok (CacheRecord.accessToken record)) /\
    TokenCache.loadRefreshToken this request response
      (AccountEntity.homeAccountId (CacheRecord.account record))
      (environment i) w3
    = (w', Ok (CacheRecord.refreshToken record)).
Proof.
  intros Hrun.
  apply loadExternalTokens_Ok in Hrun
    as (i & w2 & w3 & (Hi & w1 & Hacc & Hid) & Hat & Hrt).
  exists i, w1, w2, w3.
  destruct (loadAccount_Ok _ _ _ _ _ _ _ _ _ Hacc) as [Hb Hsa].
  destruct (loadIdToken_Ok _ _ _ _ _ _ _ _ Hid) as [Hent Hsi].
  repeat split; assumption.
Qed.

(** X1.  Outside a browser an ingestion never reaches the storage adapter:
    it fails and leaves the world as it found it; what it throws is one of
    its own errors other than MissingExpiry, or the error with which the
    library rejects the authority or the ID token. *)
Theorem headless_ingestion_never_writes this request response options (w : W) :
  TokenCache.isBrowserEnvironment this = false ->
  exists e,
    TokenCache.loadExternalTokens this request response options w
    = (w, Throw e) /\
    (forall field, e <> UnableToLoadTokenError (MissingExpiry field)) /\
    (forall code,
       e = CollaboratorError code ->
       (exists authorityString,
          SilentRequest.account request = None /\
          truthy (SilentRequest.authority request) = Some authorityString /\
          authorityError authorityString
            (SilentRequest.azureCloudOptions request) = Some code) \/
       (exists id_token,
          truthy (ExternalTokenResponse.id_token response) = Some id_token /\
          tokenError id_token = Some code)).
Proof.
  intros Hb. rewrite loadExternalTokens_branches.
  destruct (identityInputs request response options) as [i|e] eqn:Hi.
  - pose proof (identityInputs_idToken _ _ _ _ Hi) as Htok.
    unfold loadRecord.
    destruct (tokenError (idTokenString i)) as [code|] eqn:Hparse.
    + rewrite (loadAccount_unparsed _ _ _ _ _ _ _ Hparse).
      exists (CollaboratorError code). split; [reflexivity|].
      split; [discriminate|]. intros c Hc. inversion Hc; subst c. right.
      now exists (idTokenString i).
    + unfold TokenCache.loadAccount. rewrite Hparse, guard_None.
      match goal with
      | |- context [match truthy ?h with _ => _ end] => destruct (truthy h)
      end.
      * rewrite Hb. exists (UnableToLoadTokenError UnsupportedEnvironment).
        split; [reflexivity|]. split; [discriminate|]. intros c Hc.
        discriminate Hc.
      * exists (UnableToLoadTokenError UnresolvedIdentity).
        split; [reflexivity|]. split; [discriminate|]. intros c Hc.
        discriminate Hc.
  - exists e. split; [reflexivity|].
    apply identityInputs_Throw in Hi
      as [-> | [-> | [-> | (u & c & Ha & Hu & Hrej & ->)]]];
      (split; [discriminate|]); intros c' Hc; try discriminate Hc.
    inversion Hc; subst c'. left. now exists u.
Qed.

(** X2.  MissingExpiry is the only failure of the ingestion's own that comes
    after a write: when it throws any other of its errors, the world is
    untouched. *)
Theorem other_validation_failures_write_nothing this request response options
    (w w' : W) f :
  TokenCache.loadExternalTokens this request response options w
  = (w', Throw (UnableToLoadTokenError f)) ->
  (forall field, f <> MissingExpiry field) ->
  w' = w.
Proof.
  intros Hrun Hf. rewrite loadExternalTokens_branches in Hrun.
  destruct (identityInputs request response options) as [i|e] eqn:Hi.
  2:{ now inversion Hrun. }
  unfold loadRecord in Hrun.
  apply bind_inv in Hrun as [(w1 & account & Hacc & Hrun)|(e & Hacc & He)].
  2:{ inversion He; subst e.
      apply loadAccount_inv in Hacc
        as [(c & _ & Hr & _)|[[_ Hw]|[[_ [Hw _]]|[_ [a [[Hr _]|[c [Hr _]]]]]]]];
        try assumption; discriminate. }
  exfalso. apply loadAccount_Ok in Hacc as [Hb _].
  apply bind_inv in Hrun as [(w2 & idToken & Hid & Hrun)|(e & Hid & He)].
  2:{ inversion He; subst e.
      apply loadIdToken_outcome in Hid
        as [(Hn & _)|(_ & [[Hr _]|(c & Hr & _)])]; congruence. }
  unfold loadCredentials in Hrun.
  apply bind_inv in Hrun as [(w3 & tok & Hat & Hrun)|(e & Hat & He)].
  2:{ inversion He; subst e.
      apply loadAccessToken_outcome in Hat
        as [(_ & Hr & _)|[(fld & Hr & _)|[(sc & _ & Hr & _)|[(Hn & _)|
             (_ & a & x & y & _ & _ & _ & [[Hr _]|(c & Hr & _)])]]]];
        try congruence.
      all: inversion Hr; subst f; now apply (Hf fld). }
  apply bind_inv in Hrun as [(w4 & rt & _ & Hrun)|(e & Hrt & He)];
    [discriminate|].
  inversion He; subst e.
  apply loadRefreshToken_outcome in Hrt
    as [(_ & Hr & _)|[(Hn & _)|(_ & t & _ & [[Hr _]|(c & Hr & _)])]];
    congruence.
Qed.

(** X3.  The record of a successful ingestion is what was persisted: its
    account, its ID token and, when present, its access token and its
    refresh token were each handed to the storage adapter, in this order, each
    in the world the previous write left, and nothing else was written. *)
Theorem record_is_what_was_persisted this request response options (w w' : W)
    record :
  TokenCache.loadExternalTokens this request response options w
  = (w', Ok record) ->
  exists w1 w2 w3,
    setAccount (CacheRecord.account record) w = (w1, Returns tt) /\
    setIdTokenCredential (CacheRecord.idToken record) w1 = (w2, Returns tt) /\
    match CacheRecord.accessToken record with
    | Some entity => setAccessTokenCredential entity w2 = (w3, Returns tt)
    | None => w3 = w2
    end /\
    match CacheRecord.refreshToken record with
    | Some entity => setRefreshTokenCredential entity w3 = (w', Returns tt)
    | None => w' = w3
    end.
Proof.
  intros Hrun.
  apply ingestion_trace in Hrun
    as (i & w1 & w2 & w3 & _ & Hb & _ & Hsa & _ & Hsi & Hat & Hrt).
  exists w1, w2, w3. repeat split; try assumption.
  - destruct (CacheRecord.accessToken record) as [entity|];
      apply loadAccessToken_outcome in Hat
        as [(_ & Hr & Hw)|[(fld & Hr & _)|[(sc & _ & Hr & _)|[(Hn & _)|
             (_ & a & x & y & _ & _ & _ & [[Hr Hs]|(c & Hr & _)])]]]];
      congruence.
  - destruct (CacheRecord.refreshToken record) as [entity|];
      apply loadRefreshToken_outcome in Hrt
        as [(_ & Hr & Hw)|[(Hn & _)|(_ & t & _ & [[Hr Hs]|(c & Hr & _)])]];
      congruence.
Qed.

(** X4.  The entities of a record belong together: the ID token, the access
    token and the refresh token carry the home-account identity and the
    environment of the account, which is never empty, and the configured
    client id; the tokens share their realm; each secret is the string of
    the response. *)
Theorem record_entities_share_the_identity this request response options
    (w w' : W) record :
  TokenCache.loadExternalTokens this request response options w
  = (w', Ok record) ->
  let account := CacheRecord.account record in
  let idToken := CacheRecord.idToken record in
  let clientId := auth_clientId (TokenCache.config this) in
  AccountEntity.homeAccountId account <> "" /\
  (IdTokenEntity.homeAccountId idToken = AccountEntity.homeAccountId account /\
   IdTokenEntity.environment idToken = AccountEntity.environment account /\
   IdTokenEntity.clientId idToken = clientId /\
   truthy (ExternalTokenResponse.id_token response)
   = Some (IdTokenEntity.secret idToken)) /\
  (forall entity,
     CacheRecord.accessToken record = Some entity ->
     AccessTokenEntity.homeAccountId entity
     = AccountEntity.homeAccountId account /\
     AccessTokenEntity.environment entity
     = AccountEntity.environment account /\
     AccessTokenEntity.clientId entity = clientId /\
     AccessTokenEntity.realm entity = IdTokenEntity.realm idToken /\
     truthy (ExternalTokenResponse.access_token response)
     = Some (AccessTokenEntity.secret entity)) /\
  (forall entity,
     CacheRecord.refreshToken record = Some entity ->
     RefreshTokenEntity.homeAccountId entity
     = AccountEntity.homeAccountId account /\
     RefreshTokenEntity.environment entity
     = AccountEntity.environment account /\
     RefreshTokenEntity.clientId entity = clientId /\
     truthy (ExternalTokenResponse.refresh_token response)
     = Some (RefreshTokenEntity.secret entity)).
Proof.
  intros Hrun account idToken clientId.
  apply ingestion_trace in Hrun
    as (i & w1 & w2 & w3 & Hi & Hb & Hacc & _ & Hid & _ & Hat & Hrt).
  apply loadAccount_Ok_fields in Hacc as (Henv & Hne & _).
  apply identityInputs_idToken in Hi.
  fold account in Henv, Hne, Hid, Hat, Hrt. fold idToken in Hid.
  split; [exact Hne|]. split; [|split].
  - rewrite Hid, Henv, Hi. now repeat split.
  - intros entity He. rewrite He in Hat.
    apply loadAccessToken_outcome in Hat
      as [(_ & Hr & _)|[(fld & Hr & _)|[(sc & _ & Hr & _)|[(Hn & _)|
           (_ & a & x & y & Ha & _ & _ & [[Hr _]|(c & Hr & _)])]]]];
      try congruence.
    inversion Hr; subst entity. rewrite Hid, Henv, Ha. now repeat split.
  - intros entity He. rewrite He in Hrt.
    apply loadRefreshToken_outcome in Hrt
      as [(_ & Hr & _)|[(Hn & _)|(_ & t & Ht & [[Hr _]|(c & Hr & _)])]];
      try congruence.
    inversion Hr; subst entity. rewrite Henv, Ht. now repeat split.
Qed.

End IngestionTrace.

Section IngestionEdges.

Context {W : Type} `{ProtocolLibrary} `{BrowserCacheManager W} `{Clock W}.

Import Ingestion Variation.


(** Once the token is parsed, [loadAccount] fails with UnresolvedIdentity
    exactly when the candidate identity is missing or empty, before anything
    else happens. *)
Lemma loadAccount_unresolved this i (w w' : W) :
  tokenError (idTokenString i) = None ->
  TokenCache.loadAccount this (idTokenString i) (environment i) (clientInfo i)
    (authorityType i) (requestHomeAccountId i) w
  = (w', Throw (UnableToLoadTokenError UnresolvedIdentity)) <->
  w' = w /\ truthy (candidateHomeAccountId i) = None.
Proof.
  intros Hparse.
  unfold TokenCache.loadAccount, candidateHomeAccountId.
  rewrite Hparse, guard_None.
  match goal with
  | |- context [match truthy ?h with _ => _ end] =>
      destruct (truthy h) as [id|]
  end.
  - split; [|intros [_ Hn]; discriminate].
    destruct (TokenCache.isBrowserEnvironment this); [|discriminate].
    intros Hr. apply perform_outcome in Hr as [(x & _ & Hr)|(c & _ & Hr)];
      discriminate.
  - split; [intros Hr; now inversion Hr|now intros [-> _]].
Qed.

Lemma unresolved_identity_inv this request response options (w w' : W) :
  TokenCache.loadExternalTokens this request response options w
  = (w', Throw (UnableToLoadTokenError UnresolvedIdentity)) <->
  w' = w /\
  exists i,
    identityInputs request response options = Ok i /\
    tokenError (idTokenString i) = None /\
    truthy (candidateHomeAccountId i) = None.
Proof.
  rewrite loadExternalTokens_branches.
  destruct (identityInputs request response options) as [i|e] eqn:Hi.
  - split.
    + intros Hrun. unfold loadRecord in Hrun.
      apply bind_inv in Hrun as [(w1 & account & Hacc & Hrun)|(e & Hacc & He)].
      * exfalso. apply loadAccount_Ok in Hacc as [Hb _].
        apply bind_inv in Hrun as [(w2 & idToken & Hid & Hrun)|(e & Hid & He)].
        2:{ inversion He; subst e.
            apply loadIdToken_outcome in Hid
              as [(Hn & _)|(_ & [[Hr _]|(c & Hr & _)])]; congruence. }
        unfold loadCredentials in Hrun.
        apply bind_inv in Hrun as [(w3 & tok & Hat & Hrun)|(e & Hat & He)].
        2:{ inversion He; subst e.
            apply loadAccessToken_outcome in Hat
              as [(_ & Hr & _)|[(fld & Hr & _)|[(sc & _ & Hr & _)|[(Hn & _)|
                   (_ & a & x & y & _ & _ & _ & [[Hr _]|(c & Hr & _)])]]]];
              congruence. }
        apply bind_inv in Hrun as [(w4 & rt & _ & Hrun)|(e & Hrt & He)];
          [discriminate|].
        inversion He; subst e.
        apply loadRefreshToken_outcome in Hrt
          as [(_ & Hr & _)|[(Hn & _)|(_ & t & _ & [[Hr _]|(c & Hr & _)])]];
          congruence.
      * inversion He; subst e.
        destruct (tokenError (idTokenString i)) as [code|] eqn:Hparse.
        { rewrite (loadAccount_unparsed _ _ _ _ _ _ _ Hparse) in Hacc.
          discriminate Hacc. }
        apply (loadAccount_unresolved _ _ _ _ Hparse) in Hacc as [-> Hn].
        split; [reflexivity|]. now exists i.
    + intros [-> (j & Hj & Hparse & Hn)]. inversion Hj; subst j.
      unfold loadRecord. apply bind_Throw.
      apply (loadAccount_unresolved _ _ _ _ Hparse). now split.
  - split.
    + intros Hrun. inversion Hrun; subst e.
      apply identityInputs_Throw in Hi
        as [Hi|[Hi|[Hi|(u & c & _ & _ & _ & Hi)]]]; discriminate.
    + intros [_ (j & Hj & _)]. discriminate.
Qed.

(** X6.  For an ID token that parses, UnresolvedIdentity is the failure of
    an empty identity, raised before the environment is looked at and before
    any write: for a request with an account, exactly when the account's
    [homeAccountId] is the empty string; for a request with an authority the
    library accepts, exactly when the identity derived from the chosen
    client-info is the empty string. *)
Theorem unresolved_identity_is_an_empty_home_account_id this request response
    options (w : W) id_token :
  truthy (ExternalTokenResponse.id_token response) = Some id_token ->
  tokenError id_token = None ->
  match SilentRequest.account request with
  | Some account =>
      TokenCache.loadExternalTokens this request response options w
      = (w, Throw (UnableToLoadTokenError UnresolvedIdentity))
      <-> AccountInfo.homeAccountId account = ""
  | None =>
      forall authorityString clientInfo,
        truthy (SilentRequest.authority request) = Some authorityString ->
        authorityError authorityString
          (SilentRequest.azureCloudOptions request) = None ->
        chosenClientInfo response options = Some clientInfo ->
        TokenCache.loadExternalTokens this request response options w
        = (w, Throw (UnableToLoadTokenError UnresolvedIdentity))
        <-> generateHomeAccountId clientInfo
              (Authority.authorityType
                 (resolveAuthority authorityString
                    (SilentRequest.azureCloudOptions request)))
              (newAuthToken id_token) = ""
  end.
Proof.
  intros Hid Hparse.
  assert (Hempty : forall s : string, truthy (Some s) = None <-> s = "").
  { intros s. simpl. destruct (String.eqb_spec s ""); split; congruence. }
  destruct (SilentRequest.account request) as [a|] eqn:Ha.
  - rewrite unresolved_identity_inv. split.
    + intros [_ (i & Hi & _ & Hn)].
      apply identityInputs_Ok in Hi as (t & _ & Hi). rewrite Ha in Hi.
      subst i. unfold candidateHomeAccountId in Hn. simpl in Hn.
      destruct (String.eqb_spec (AccountInfo.homeAccountId a) "");
        [assumption|now apply Hempty in Hn].
    + intros He. split; [reflexivity|]. eexists. split; [|split].
      * unfold identityInputs. rewrite Hid, Ha. reflexivity.
      * exact Hparse.
      * unfold candidateHomeAccountId. simpl. rewrite He. reflexivity.
  - intros u c Hu Haccepted Hc. rewrite unresolved_identity_inv.
    assert (Hi := identityInputs_authority request response options id_token
                    u Ha Hu Haccepted Hid).
    rewrite Hc in Hi.
    assert (Hcand : candidateHomeAccountId
                      (authorityInputs id_token
                         (resolveAuthority u
                            (SilentRequest.azureCloudOptions request)) c)
                    = Some (generateHomeAccountId c
                              (Authority.authorityType
                                 (resolveAuthority u
                                    (SilentRequest.azureCloudOptions request)))
                              (newAuthToken id_token))).
    { unfold candidateHomeAccountId, authorityInputs. cbn [requestHomeAccountId
        authorityType Ingestion.clientInfo idTokenString].
      change (truthy None) with (@None string). cbv beta iota.
      now rewrite (chosenClientInfo_truthy _ _ _ Hc). }
    split.
    + intros [_ (i & Hi' & _ & Hn)]. rewrite Hi in Hi'. inversion Hi'; subst i.
      rewrite Hcand in Hn. now apply Hempty.
    + intros He. split; [reflexivity|]. eexists. split; [exact Hi|].
      split; [exact Hparse|]. rewrite Hcand. now apply Hempty.
Qed.

(** X7.  An account on the request takes precedence over everything that
    serves to resolve an identity from an authority: the authority string,
    the cloud options and both client-infos are not looked at. *)
Theorem account_takes_precedence_over_authority this request response options
    account :
  SilentRequest.account request = Some account ->
  forall authority azureCloudOptions client_info clientInfo (w : W),
    TokenCache.loadExternalTokens this
      (withAuthority request authority azureCloudOptions)
      (withClientInfo response client_info)
      (withOptionsClientInfo options clientInfo) w
    = TokenCache.loadExternalTokens this request response options w.
Proof.
  intros Ha authority azureCloudOptions client_info clientInfo w.
  rewrite !loadExternalTokens_branches.
  assert (Hi : identityInputs (withAuthority request authority azureCloudOptions)
                 (withClientInfo response client_info)
                 (withOptionsClientInfo options clientInfo)
               = identityInputs request response options).
  { unfold identityInputs. cbn [withAuthority withClientInfo
      SilentRequest.account ExternalTokenResponse.id_token].
    now rewrite Ha. }
  rewrite Hi.
  now destruct (identityInputs request response options).
Qed.

(** X8.  What an ingestion returns depends on the world only through the
    clock: two successful ingestions of the same input, from any two worlds,
    return the same account, ID token and refresh token and access tokens
    with the same cache key; the records are equal when the expiry does not
    come from the clock. *)
Theorem same_input_gives_the_same_keys this request response options
    (w1 w1' w2 w2' : W) record1 record2 :
  TokenCache.loadExternalTokens this request response options w1
  = (w1', Ok record1) ->
  TokenCache.loadExternalTokens this request response options w2
  = (w2', Ok record2) ->
  CacheRecord.account record2 = CacheRecord.account record1 /\
  CacheRecord.idToken record2 = CacheRecord.idToken record1 /\
  CacheRecord.refreshToken record2 = CacheRecord.refreshToken record1 /\
  option_map AccessTokenEntity.generateCredentialKey
    (CacheRecord.accessToken record2)
  = option_map AccessTokenEntity.generateCredentialKey
      (CacheRecord.accessToken record1) /\
  (truthyNumber (LoadTokenOptions.expiresOn options) <> None \/
   truthy (ExternalTokenResponse.access_token response) = None ->
   record2 = record1).
Proof.
  intros Hrun1 Hrun2.
  apply ingestion_trace in Hrun1
    as (i & u1 & u2 & u3 & Hi & Hb & Hacc1 & _ & Hid1 & _ & Hat1 & Hrt1).
  apply ingestion_trace in Hrun2
    as (j & v1 & v2 & v3 & Hj & _ & Hacc2 & _ & Hid2 & _ & Hat2 & Hrt2).
  rewrite Hi in Hj. inversion Hj; subst j.
  destruct (loadAccount_Ok_fields _ _ _ _ _ _ _ _ _ Hacc1) as (_ & _ & Hsame).
  pose proof (Hsame _ _ _ Hacc2) as Hacc.
  destruct record1 as [a1 t1 at1 r1], record2 as [a2 t2 at2 r2].
  cbn [CacheRecord.account CacheRecord.idToken CacheRecord.accessToken
       CacheRecord.refreshToken] in *.
  subst a2 t1 t2.
  assert (Hr : r2 = r1).
  { apply loadRefreshToken_outcome in Hrt1
      as [(Hn & Hr1 & _)|[(Hn & _)|(_ & t & Ht & [[Hr1 _]|(c & Hr1 & _)])]];
      apply loadRefreshToken_outcome in Hrt2
        as [(Hn' & Hr2 & _)|[(Hn' & _)|(_ & t' & Ht'
                                         & [[Hr2 _]|(c' & Hr2 & _)])]];
      try congruence. }
  subst r2.
  apply loadAccessToken_outcome in Hat1
    as [(Hn & Hr1 & _)|[(fld & Hr1 & _)|[(sc & _ & Hr1 & _)|[(Hn & _)|
         (_ & a & x & y & Ha & Hx & Hy & [[Hr1 _]|(c & Hr1 & _)])]]]];
    apply loadAccessToken_outcome in Hat2
      as [(Hn' & Hr2 & _)|[(fld' & Hr2 & _)|[(sc' & _ & Hr2 & _)|[(Hn' & _)|
           (_ & a' & x' & y' & Ha' & Hx' & Hy' & [[Hr2 _]|(c' & Hr2 & _)])]]]];
    try congruence.
  - inversion Hr1; inversion Hr2; subst. now repeat split.
  - inversion Hr1; inversion Hr2; subst at1 at2.
    rewrite Ha in Ha'. rewrite Hx in Hx'. rewrite Hy in Hy'.
    inversion Ha'; inversion Hx'; inversion Hy'; subst a' x' y'.
    repeat split. intros [Hexp|Hno]; [|congruence].
    unfold absoluteExpiry.
    destruct (truthyNumber (LoadTokenOptions.expiresOn options));
      [reflexivity|congruence].
Qed.

End IngestionEdges.

Section IngestionExamples.

Import InMemory.

Lemma headless_ingestion_never_writes_witness :
  exists e,
    TokenCache.loadExternalTokens Sample.headless
      MoreSamples.requestWithInsecureAuthority Sample.fullResponse Sample.options
      (emptyWorld Sample.now)
    = (emptyWorld Sample.now, Throw e) /\
    (forall field, e <> UnableToLoadTokenError (MissingExpiry field)) /\
    (forall code,
       e = CollaboratorError code ->
       (exists authorityString,
          SilentRequest.account MoreSamples.requestWithInsecureAuthority = None /\
          truthy (SilentRequest.authority MoreSamples.requestWithInsecureAuthority)
          = Some authorityString /\
          authorityError authorityString
            (SilentRequest.azureCloudOptions
               MoreSamples.requestWithInsecureAuthority) = Some code) \/
       (exists id_token,
          truthy (ExternalTokenResponse.id_token Sample.fullResponse)
          = Some id_token /\
          tokenError id_token = Some code)).
Proof.
  apply (headless_ingestion_never_writes Sample.headless
           MoreSamples.requestWithInsecureAuthority Sample.fullResponse
           Sample.options (emptyWorld Sample.now)).
  reflexivity.
Defined.

(** The library's errors come out as they are: a raw ID token that does not
    parse fails the ingestion before the environment is looked at, and a
    scope set the library rejects fails it after the account and the ID
    token were written. *)
Example library_errors_are_passed_on :
  TokenCache.loadExternalTokens Sample.headless Sample.requestWithAccount
    MoreSamples.responseWithGarbledIdToken Sample.options
    (emptyWorld Sample.now)
  = (emptyWorld Sample.now, Throw (CollaboratorError "token_parsing_error")) /\
  TokenCache.loadExternalTokens Sample.browser
    MoreSamples.requestWithoutScopes Sample.fullResponse Sample.options
    (emptyWorld Sample.now)
  = (Sample.aliceIdentityWorld,
     Throw (CollaboratorError "empty_input_scopes_error")).
Proof. split; vm_compute; reflexivity. Qed.

Lemma other_validation_failures_write_nothing_witness :
  fst (TokenCache.loadExternalTokens Sample.browser
         MoreSamples.requestWithNobody Sample.fullResponse Sample.options
         Sample.signedInWorld)
  = Sample.signedInWorld.
Proof.
  apply (other_validation_failures_write_nothing Sample.browser
           MoreSamples.requestWithNobody Sample.fullResponse Sample.options
           Sample.signedInWorld _ UnresolvedIdentity).
  - vm_compute. reflexivity.
  - discriminate.
Defined.

Lemma record_is_what_was_persisted_witness :
  match Sample.fullRun with
  | (w', Ok record) =>
      exists w1 w2 w3,
        setAccount (CacheRecord.account record) (emptyWorld Sample.now)
        = (w1, Returns tt) /\
        setIdTokenCredential (CacheRecord.idToken record) w1
        = (w2, Returns tt) /\
        match CacheRecord.accessToken record with
        | Some entity => setAccessTokenCredential entity w2 = (w3, Returns tt)
        | None => w3 = w2
        end /\
        match CacheRecord.refreshToken record with
        | Some entity => setRefreshTokenCredential entity w3 = (w', Returns tt)
        | None => w' = w3
        end
  | (_, Throw _) => False
  end.
Proof.
  destruct Sample.fullRun as [w' [record|e]] eqn:Hrun.
  - exact (record_is_what_was_persisted Sample.browser
             Sample.requestWithAuthority Sample.fullResponse Sample.options
             (emptyWorld Sample.now) w' record Hrun).
  - vm_compute in Hrun. discriminate.
Defined.

Lemma record_entities_share_the_identity_witness :
  match Sample.fullRun with
  | (_, Ok record) =>
      AccountEntity.homeAccountId (CacheRecord.account record) <> "" /\
      forall entity,
        CacheRecord.accessToken record = Some entity ->
        AccessTokenEntity.homeAccountId entity
        = AccountEntity.homeAccountId (CacheRecord.account record)
  | (_, Throw _) => False
  end.
Proof.
  destruct Sample.fullRun as [w' [record|e]] eqn:Hrun.
  - destruct (record_entities_share_the_identity Sample.browser
                Sample.requestWithAuthority Sample.fullResponse Sample.options
                (emptyWorld Sample.now) w' record Hrun)
      as (Hne & _ & Hat & _).
    split; [exact Hne|]. intros entity He. now apply Hat.
  - vm_compute in Hrun. discriminate.
Defined.

Lemma unresolved_identity_is_an_empty_home_account_id_witness :
  TokenCache.loadExternalTokens Sample.headless MoreSamples.requestWithNobody
    Sample.fullResponse Sample.options Sample.signedInWorld
  = (Sample.signedInWorld, Throw (UnableToLoadTokenError UnresolvedIdentity)).
Proof.
  assert (Hparse : tokenError "jwt" = None) by (vm_compute; reflexivity).
  destruct (unresolved_identity_is_an_empty_home_account_id Sample.headless
              MoreSamples.requestWithNobody Sample.fullResponse Sample.options
              Sample.signedInWorld "jwt" eq_refl Hparse) as [_ Hempty].
  apply Hempty. reflexivity.
Defined.

Lemma account_takes_precedence_over_authority_witness :
  TokenCache.loadExternalTokens Sample.browser
    (Variation.withAuthority Sample.requestWithAccount
       (Some "https://login.example.com/common") None)
    (Ingestion.withClientInfo Sample.fullResponse None)
    (Ingestion.withOptionsClientInfo Sample.options (Some "from-options"))
    (emptyWorld Sample.now)
  = TokenCache.loadExternalTokens Sample.browser Sample.requestWithAccount
      Sample.fullResponse Sample.options (emptyWorld Sample.now).
Proof.
  apply (account_takes_precedence_over_authority Sample.browser
           Sample.requestWithAccount Sample.fullResponse Sample.options
           Sample.alice).
  reflexivity.
Defined.

Lemma same_input_gives_the_same_keys_witness :
  match MoreSamples.firstRun, MoreSamples.secondRun with
  | (_, Ok record1), (_, Ok record2) => record2 = record1
  | _, _ => False
  end.
Proof.
  destruct MoreSamples.firstRun as [w1 [record1|e]] eqn:Hrun1.
  2:{ vm_compute in Hrun1. discriminate. }
  destruct MoreSamples.secondRun as [w2 [record2|e]] eqn:Hrun2.
  2:{ vm_compute in Hrun2. discriminate. }
  destruct (same_input_gives_the_same_keys Sample.browser
              Sample.requestWithAuthority Sample.fullResponse
              MoreSamples.optionsWithExpiresOn (emptyWorld Sample.now) w1
              (fst MoreSamples.firstRun) w2 record1 record2 Hrun1 Hrun2)
    as (_ & _ & _ & _ & Hsame).
  apply Hsame. left. vm_compute. discriminate.
Defined.

End IngestionExamples.

Section FullDiskExamples.

#[local] Existing Instance InMemory.protocolLibrary.
#[local] Existing Instance InMemory.wallClock.
#[local] Existing Instance InMemory.crypto.
#[local] Existing Instance MoreSamples.fullDisk.


End FullDiskExamples.

(** ** Further properties of the logout clearing *)

Section LogoutEdges.

Context {W : Type} `{ProtocolLibrary} `{BrowserCacheManager W} `{ICrypto W}.

Import Logout.

(** X9.  [clearCacheOnLogout] throws only when an account is given and the
    storage adapter throws on reading the active account or on resetting a
    matching one; the removal has then not been attempted, and what is thrown
    is the adapter's error. *)
Theorem logout_throws_only_from_the_marker (account : option AccountInfo.t)
    (w w' : W) (e : Thrown) :
  BaseInteractionClient.clearCacheOnLogout account w = (w', Throw e) ->
  exists a code,
    account = Some a /\ e = CollaboratorError code /\
    (getActiveAccount w = (w', Rejects code) \/
     exists w0 active,
       getActiveAccount w = (w0, Returns active) /\
       accountInfoIsEqual a active false = true /\
       setActiveAccount None w0 = (w', Rejects code)).
Proof.
  destruct account as [a|].
  2:{ unfold BaseInteractionClient.clearCacheOnLogout.
      rewrite full_clear_is_swallowed. discriminate. }
  rewrite clearCacheOnLogout_account.
  destruct (resetActiveAccount a w) as [w1 [[]|e1]] eqn:Hreset;
    [discriminate|].
  intros Hr. inversion Hr; subst w1 e1. unfold resetActiveAccount in Hreset.
  apply bind_inv in Hreset as [(w0 & active & Hget & Hset)|(e1 & Hget & He)].
  - apply perform_inv in Hget as [(x & Hget & Hx)|(c & _ & Hc)];
      [|discriminate].
    inversion Hx; subst x.
    destruct (accountInfoIsEqual a active false) eqn:Heq; [|discriminate].
    apply perform_inv in Hset as [(x & _ & Hx')|(c & Hset & Hc)];
      [discriminate|].
    inversion Hc; subst e. exists a, c. repeat split. right.
    now exists w0, active.
  - inversion He; subst e1.
    apply perform_inv in Hget as [(x & _ & Hx)|(c & Hget & Hc)];
      [discriminate|].
    inversion Hc; subst e. exists a, c. repeat split. now left.
Qed.

End LogoutEdges.

Section LogoutEdgeExamples.

#[local] Existing Instance InMemory.protocolLibrary.
#[local] Existing Instance InMemory.crypto.
#[local] Existing Instance MoreSamples.fullDisk.

Lemma logout_throws_only_from_the_marker_witness :
  exists a code,
    Some Sample.alice = Some a /\
    CollaboratorError "quota_exceeded" = CollaboratorError code /\
    (getActiveAccount Sample.signedInWorld
     = (Sample.signedInWorld, Rejects code) \/
     exists w0 active,
       getActiveAccount Sample.signedInWorld = (w0, Returns active) /\
       accountInfoIsEqual a active false = true /\
       setActiveAccount None w0 = (Sample.signedInWorld, Rejects code)).
Proof.
  apply (logout_throws_only_from_the_marker (Some Sample.alice)
           Sample.signedInWorld Sample.signedInWorld
           (CollaboratorError "quota_exceeded")).
  reflexivity.
Defined.

End LogoutEdgeExamples.

(** ** The request protocol *)

Section RequestFacts.

Import InteractionProtocol.

Context {W : Type} `{PerformanceClient W} `{Hasher W} `{AuthorityFactory W}.

Lemma truthy_not_empty (x : option string) (s : string) :
  truthy x = Some s -> isEmpty s = false.
Proof.
  destruct x as [t|]; simpl; [|discriminate].
  destruct (String.eqb t "") eqn:Ht; [discriminate|].
  intros Hs. inversion Hs; subst. exact Ht.
Qed.

(** Every way [initializeBaseRequest] can end. *)
Lemma initializeBaseRequest_outcome this request (w w' : W) r :
  initializeBaseRequest this request w = (w', r) ->
  (exists code,
     addQueueMeasurement InitializeBaseRequest (correlationId request) w
     = (w', Rejects code) /\ r = Failed (CollaboratorRejected code)) \/
  exists w1,
    addQueueMeasurement InitializeBaseRequest (correlationId request) w
    = (w1, Returns tt) /\
    ((authenticationScheme request = Some SSH /\
      truthy (sshJwk request) = None /\
      w' = w1 /\ r = Failed MissingSshJwkError) \/
     (authenticationScheme request = Some SSH /\
      truthy (sshJwk request) <> None /\ truthy (sshKid request) = None /\
      w' = w1 /\ r = Failed MissingSshKidError) \/
     ((authenticationScheme request = Some SSH ->
       truthy (sshJwk request) <> None /\ truthy (sshKid request) <> None) /\
      match truthy (claims request) with
      | Some claims =>
          (exists hash,
             hashString claims w1 = (w', Returns hash) /\
             r = Done (withHash (defaulted this request) (Some hash))) \/
          (exists code,
             hashString claims w1 = (w', Rejects code) /\
             r = Failed (CollaboratorRejected code))
      | None => w' = w1 /\ r = Done (defaulted this request)
      end)).
Proof.
  unfold initializeBaseRequest, andThen, call, done, fail, defaulted.
  destruct (addQueueMeasurement InitializeBaseRequest (correlationId request) w)
    as [w1 [[]|code]].
  2:{ intros Hr. inversion Hr. left. now exists code. }
  intros Hr. right. exists w1. split; [reflexivity|].
  cbn [authenticationScheme] in Hr.
  destruct (authenticationScheme request) as [[| |name]|] eqn:Hs.
  2:{ destruct (truthy (sshJwk request)) eqn:Hj.
      2:{ inversion Hr. left. now repeat split. }
      destruct (truthy (sshKid request)) eqn:Hk.
      2:{ inversion Hr. right. left. now repeat split. }
      right. right. split; [now split|].
      destruct (truthy (claims request)) as [c|] eqn:Hc.
      - rewrite (truthy_not_empty _ _ Hc) in Hr. cbn [negb] in Hr.
        destruct (hashString c w1) as [w2 [h|code]]; inversion Hr; eauto.
      - now inversion Hr. }
  all: right; right; split; [discriminate|];
    destruct (truthy (claims request)) as [c|] eqn:Hc;
    [ rewrite (truthy_not_empty _ _ Hc) in Hr; cbn [negb] in Hr;
      destruct (hashString c w1) as [w2 [h|code]]; inversion Hr; eauto
    | now inversion Hr ].
Qed.

(** X10.  Once the measurement is queued, [initializeBaseRequest] fails with
    MissingSshJwk exactly when the scheme is SSH and [sshJwk] is missing or
    empty, whatever [sshKid] is, and with MissingSshKid exactly when the
    scheme is SSH, [sshJwk] is there and [sshKid] is missing or empty; in
    both cases nothing has been hashed. *)
Theorem ssh_scheme_needs_jwk_then_kid this request (w w1 : W) :
  addQueueMeasurement InitializeBaseRequest (correlationId request) w
  = (w1, Returns tt) ->
  (initializeBaseRequest this request w = (w1, Failed MissingSshJwkError)
   <-> authenticationScheme request = Some SSH /\
       truthy (sshJwk request) = None) /\
  (initializeBaseRequest this request w = (w1, Failed MissingSshKidError)
   <-> authenticationScheme request = Some SSH /\
       truthy (sshJwk request) <> None /\
       truthy (sshKid request) = None) /\
  (forall w' e,
     initializeBaseRequest this request w = (w', Failed e) ->
     e = MissingSshJwkError \/ e = MissingSshKidError -> w' = w1).
Proof.
  intros Hq.
  assert (Hdone : forall (w' : W) r e,
             match truthy (claims request) with
             | Some claims =>
                 (exists hash,
                    hashString claims w1 = (w', Returns hash) /\
                    r = Done (withHash (defaulted this request) (Some hash)))
                 \/
                 (exists code,
                    hashString claims w1 = (w', Rejects code) /\
                    r = Failed (CollaboratorRejected code))
             | None => w' = w1 /\ r = Done (defaulted this request)
             end ->
             r = Failed e -> exists code, e = CollaboratorRejected code).
  { intros w' r e Hc ->.
    destruct (truthy (claims request));
      [destruct Hc as [(h & _ & Hc)|(c & _ & Hc)]|destruct Hc as [_ Hc]];
      inversion Hc. now exists c. }
  assert (Hinv : forall w' e,
             initializeBaseRequest this request w = (w', Failed e) ->
             (e = MissingSshJwkError /\ w' = w1 /\
              authenticationScheme request = Some SSH /\
              truthy (sshJwk request) = None) \/
             (e = MissingSshKidError /\ w' = w1 /\
              authenticationScheme request = Some SSH /\
              truthy (sshJwk request) <> None /\
              truthy (sshKid request) = None) \/
             exists code, e = CollaboratorRejected code).
  { intros w' e Hr. apply initializeBaseRequest_outcome in Hr
      as [(c & Hm & Hc)
         |(v & Hm & [(Hs & Hj & Hw & Hf)
                    |[(Hs & Hj & Hk & Hw & Hf)|(_ & Hc)]])].
    - rewrite Hq in Hm. discriminate.
    - rewrite Hq in Hm. inversion Hm; inversion Hf; subst. left. tauto.
    - rewrite Hq in Hm. inversion Hm; inversion Hf; subst. right. left. tauto.
    - rewrite Hq in Hm. inversion Hm; subst v. right. right.
      now apply (Hdone w' (Failed e) e). }
  split; [|split].
  - split.
    + intros Hr. apply Hinv in Hr as [Hr|[[Hr _]|[c Hr]]];
        [tauto|discriminate|discriminate].
    + intros [Hs Hj]. unfold initializeBaseRequest, andThen, call.
      rewrite Hq. cbn [authenticationScheme]. now rewrite Hs, Hj.
  - split.
    + intros Hr. apply Hinv in Hr as [[Hr _]|[Hr|[c Hr]]];
        [discriminate|tauto|discriminate].
    + intros (Hs & Hj & Hk). unfold initializeBaseRequest, andThen, call.
      rewrite Hq. cbn [authenticationScheme]. rewrite Hs, Hk.
      now destruct (truthy (sshJwk request)).
  - intros w' e Hr He. apply Hinv in Hr as [Hr|[Hr|[c Hr]]]; [tauto|tauto|].
    destruct He; subst e; discriminate.
Qed.

End RequestFacts.

Section NormalizedRequests.

Import InteractionProtocol.

Context {W : Type} `{PerformanceClient W} `{Hasher W} `{AuthorityFactory W}.

(** A request [initializeBaseRequest] returns is the defaulted request, up
    to the hash of the claims, and has passed the validation of the scheme. *)
Lemma initializeBaseRequest_Done this request (w w' : W) r :
  initializeBaseRequest this request w = (w', Done r) ->
  withHash r (requestedClaimsHash request) = defaulted this request /\
  (authenticationScheme request = Some SSH ->
   truthy (sshJwk request) <> None /\ truthy (sshKid request) <> None) /\
  exists w1,
    addQueueMeasurement InitializeBaseRequest (correlationId request) w
    = (w1, Returns tt) /\
    match truthy (claims request) with
    | Some claims =>
        exists hash,
          hashString claims w1 = (w', Returns hash) /\
          requestedClaimsHash r = Some hash
    | None => w' = w1 /\ r = defaulted this request
    end.
Proof.
  intros Hr. apply initializeBaseRequest_outcome in Hr
    as [(c & _ & Hc)
       |(v & Hm & [(_ & _ & _ & Hf)|[(_ & _ & _ & _ & Hf)|(Hssh & Hc)]])];
    try discriminate.
  destruct (truthy (claims request)) as [c|].
  - destruct Hc as [(h & Hh & Hc)|(code & _ & Hc)]; [|discriminate].
    inversion Hc; subst r. repeat split; try apply Hssh; try assumption.
    exists v. split; [exact Hm|]. now exists h.
  - destruct Hc as [-> Hc]. inversion Hc; subst r.
    repeat split; try apply Hssh; try assumption.
    exists v. now split.
Qed.

(** What a returned request holds, apart from the hash, is what the
    defaulted request holds. *)
Lemma normalized_projection this request (w w' : W) r {A : Type}
    (f : BaseAuthRequest -> A) :
  initializeBaseRequest this request w = (w', Done r) ->
  (forall q h, f (withHash q h) = f q) ->
  f r = f (defaulted this request).
Proof.
  intros Hr Hf. apply initializeBaseRequest_Done in Hr as (Hd & _).
  now rewrite <- Hd, Hf.
Qed.

(** A returned request under the SSH scheme has both pieces of SSH
    material. *)
Lemma normalized_ssh this request (w w' : W) r :
  initializeBaseRequest this request w = (w', Done r) ->
  authenticationScheme r = Some SSH ->
  truthy (sshJwk r) <> None /\ truthy (sshKid r) <> None.
Proof.
  intros Hr.
  rewrite (normalized_projection _ _ _ _ _ authenticationScheme Hr),
    (normalized_projection _ _ _ _ _ sshJwk Hr),
    (normalized_projection _ _ _ _ _ sshKid Hr) by reflexivity.
  apply initializeBaseRequest_Done in Hr as (_ & Hssh & _).
  unfold defaulted. cbn. intros Hs. apply Hssh.
  destruct (authenticationScheme request) as [[| |n]|]; try discriminate.
  reflexivity.
Qed.

(** X11.  A request that comes out of [initializeBaseRequest] carries the
    correlation id of the client, whatever the one of the request was, an
    authority (the request's unless missing or empty, else the configured
    one), a scope list (empty by default) and an authentication scheme
    (Bearer by default); under the SSH scheme it carries a non-empty
    [sshJwk] and [sshKid]; its other properties are those of the request. *)
Theorem normalized_request_is_complete this request (w w' : W) r :
  initializeBaseRequest this request w = (w', Done r) ->
  correlationId r = Some (clientCorrelationId this) /\
  authority r
  = Some match truthy (authority request) with
         | Some authority => authority
         | None => auth_authority this
         end /\
  scopes r = Some (default [] (scopes request)) /\
  authenticationScheme r
  = Some (default BEARER (authenticationScheme request)) /\
  (authenticationScheme r = Some SSH ->
   truthy (sshJwk r) <> None /\ truthy (sshKid r) <> None) /\
  sshJwk r = sshJwk request /\ sshKid r = sshKid request /\
  claims r = claims request /\ rest r = rest request.
Proof.
  intros Hr. pose proof (normalized_ssh _ _ _ _ _ Hr) as Hssh.
  rewrite (normalized_projection _ _ _ _ _ correlationId Hr),
    (normalized_projection _ _ _ _ _ authority Hr),
    (normalized_projection _ _ _ _ _ scopes Hr),
    (normalized_projection _ _ _ _ _ authenticationScheme Hr),
    (normalized_projection _ _ _ _ _ sshJwk Hr),
    (normalized_projection _ _ _ _ _ sshKid Hr),
    (normalized_projection _ _ _ _ _ claims Hr),
    (normalized_projection _ _ _ _ _ rest Hr) in * by reflexivity.
  unfold defaulted in *. cbn in *. repeat apply conj; try reflexivity.
  exact Hssh.
Qed.

Lemma defaulted_again this request hash :
  defaulted this (withHash (defaulted this request) hash)
  = withHash (defaulted this request) hash.
Proof.
  unfold defaulted, withHash.
  cbn [authority correlationId scopes authenticationScheme sshJwk sshKid
       claims requestedClaimsHash rest].
  destruct (truthy (authority request)) as [a|] eqn:Ha.
  - apply truthy_Some in Ha as [_ Ha]. now rewrite Ha.
  - simpl. now destruct (String.eqb (auth_authority this) "").
Qed.

(** X12.  Normalizing is idempotent up to the hash of the claims: a request
    that came out of [initializeBaseRequest] passes its validation again,
    and comes out with at most a recomputed hash; without claims it comes out
    unchanged. *)
Theorem normalizing_twice_changes_at_most_the_hash this request (w w1 : W) r :
  initializeBaseRequest this request w = (w1, Done r) ->
  (forall v v' e,
     initializeBaseRequest this r v = (v', Failed e) ->
     exists code, e = CollaboratorRejected code) /\
  (forall v v' r',
     initializeBaseRequest this r v = (v', Done r') ->
     withHash r' (requestedClaimsHash r) = r /\
     (truthy (claims request) = None -> r' = r)).
Proof.
  intros Hr.
  pose proof (normalized_ssh _ _ _ _ _ Hr) as Hssh.
  pose proof (normalized_projection _ _ _ _ _ claims Hr
                (fun _ _ => eq_refl)) as Hc.
  change (claims (defaulted this request)) with (claims request) in Hc.
  apply initializeBaseRequest_Done in Hr as (Hd & _ & _).
  assert (Hr : r = withHash (defaulted this request) (requestedClaimsHash r)).
  { rewrite <- Hd. now destruct r. }
  split.
  - intros v v' e Hf. apply initializeBaseRequest_outcome in Hf
      as [(c & _ & Hf)
         |(u & _ & [(Hs & Hj & _)|[(Hs & _ & Hk & _)|(_ & Hf)]])].
    + inversion Hf. now exists c.
    + now destruct (Hssh Hs).
    + now destruct (Hssh Hs).
    + destruct (truthy (claims r));
        [destruct Hf as [(h & _ & Hf)|(c & _ & Hf)]|destruct Hf as [_ Hf]];
        inversion Hf. now exists c.
  - intros v v' r' Hf. apply initializeBaseRequest_Done in Hf as (Hd' & _ & Hh).
    rewrite Hr in Hd' at 2. rewrite defaulted_again in Hd'.
    split.
    + rewrite Hr at 2. rewrite <- Hd'. now destruct r'.
    + intros Hn. rewrite Hc, Hn in Hh. destruct Hh as (u & _ & _ & ->).
      rewrite Hr at 1. now rewrite defaulted_again.
Qed.

(** X13.  The hash of the claims: with non-empty claims a returned request
    carries the hash the crypto provider gave for them, computed after the
    measurement; without claims, or with empty ones, nothing is hashed and
    the request keeps whatever [requestedClaimsHash] it came with. *)
Theorem claims_are_hashed_only_when_present this request (w w' : W) r :
  initializeBaseRequest this request w = (w', Done r) ->
  exists w1,
    addQueueMeasurement InitializeBaseRequest (correlationId request) w
    = (w1, Returns tt) /\
    match truthy (claims request) with
    | Some claims =>
        exists hash,
          hashString claims w1 = (w', Returns hash) /\
          requestedClaimsHash r = Some hash
    | None => w' = w1 /\ requestedClaimsHash r = requestedClaimsHash request
    end.
Proof.
  intros Hr. apply initializeBaseRequest_Done in Hr as (_ & _ & w1 & Hm & Hc).
  exists w1. split; [exact Hm|].
  destruct (truthy (claims request)); [exact Hc|].
  destruct Hc as [-> ->]. now split.
Qed.

(** X14.  The authority [initializeBaseRequest] writes into a request is
    the one [getDiscoveredAuthority] discovers for it: discovery gives the
    same for the authority of the returned request as for the authority of
    the request that came in, an empty authority string counting as none. *)
Theorem discovery_agrees_with_the_normalized_authority this request (w w' : W)
    r :
  initializeBaseRequest this request w = (w', Done r) ->
  forall v : W,
    getDiscoveredAuthority this (authority r) v
    = getDiscoveredAuthority this (authority request) v /\
    getDiscoveredAuthority this (authority request) v
    = perform
        (createDiscoveredInstance
           match truthy (authority request) with
           | Some authority => authority
           | None => auth_authority this
           end) v.
Proof.
  intros Hr v.
  pose proof (normalized_projection _ _ _ _ _ authority Hr
                (fun _ _ => eq_refl)) as Ha.
  change (authority (defaulted this request))
    with (Some match truthy (authority request) with
               | Some authority => authority
               | None => auth_authority this
               end) in Ha.
  rewrite Ha. unfold getDiscoveredAuthority.
  destruct (truthy (authority request)) as [a|] eqn:Hq.
  - apply truthy_Some in Hq as [_ Hq]. now rewrite Hq.
  - split; [|reflexivity]. simpl.
    now destruct (String.eqb_spec (auth_authority this) "") as [->|].
Qed.

End NormalizedRequests.

Section RequestExamples.

Import InteractionProtocol Page.

Lemma ssh_scheme_needs_jwk_then_kid_witness :
  initializeBaseRequest client sshRequest home
  = (mkWorld [("initializeBaseRequest", Some "request-correlation")],
     Failed MissingSshJwkError).
Proof.
  assert (Hq : addQueueMeasurement InitializeBaseRequest
                 (correlationId sshRequest) home
               = (mkWorld
                    [("initializeBaseRequest", Some "request-correlation")],
                  Returns tt)) by reflexivity.
  destruct (ssh_scheme_needs_jwk_then_kid client sshRequest home _ Hq)
    as [[_ Hjwk] _].
  apply Hjwk. split; reflexivity.
Defined.

Lemma normalized_request_is_complete_witness :
  match initializeBaseRequest client claimsRequest home with
  | (_, Done r) =>
      correlationId r = Some "client-correlation" /\
      authenticationScheme r = Some BEARER
  | (_, Failed _) => False
  end.
Proof.
  destruct (initializeBaseRequest client claimsRequest home)
    as [w' [r|e]] eqn:Hrun.
  - destruct (normalized_request_is_complete client claimsRequest home w' r
                Hrun) as (Hc & _ & _ & Hs & _).
    split; [exact Hc|exact Hs].
  - vm_compute in Hrun. discriminate.
Defined.

Lemma normalizing_twice_changes_at_most_the_hash_witness :
  match initializeBaseRequest client plainRequest home with
  | (w1, Done r) =>
      forall v v' r',
        initializeBaseRequest client r v = (v', Done r') -> r' = r
  | (_, Failed _) => False
  end.
Proof.
  destruct (initializeBaseRequest client plainRequest home)
    as [w1 [r|e]] eqn:Hrun.
  - destruct (normalizing_twice_changes_at_most_the_hash client plainRequest
                home w1 r Hrun) as [_ Hagain].
    intros v v' r' Hsecond. now apply (Hagain v v' r' Hsecond).
  - vm_compute in Hrun. discriminate.
Defined.

Lemma claims_are_hashed_only_when_present_witness :
  match initializeBaseRequest client plainRequest home with
  | (_, Done r) => requestedClaimsHash r = Some "stale"
  | (_, Failed _) => False
  end.
Proof.
  destruct (initializeBaseRequest client plainRequest home)
    as [w' [r|e]] eqn:Hrun.
  - destruct (claims_are_hashed_only_when_present client plainRequest home w' r
                Hrun) as (w1 & _ & _ & Hhash).
    exact Hhash.
  - vm_compute in Hrun. discriminate.
Defined.

Lemma discovery_agrees_with_the_normalized_authority_witness :
  match initializeBaseRequest client claimsRequest home with
  | (_, Done r) =>
      getDiscoveredAuthority client (authority r) home
      = getDiscoveredAuthority client None home
  | (_, Failed _) => False
  end.
Proof.
  destruct (initializeBaseRequest client claimsRequest home)
    as [w' [r|e]] eqn:Hrun.
  - exact (proj1 (discovery_agrees_with_the_normalized_authority client
                    claimsRequest home w' r Hrun home)).
  - vm_compute in Hrun. discriminate.
Defined.

End RequestExamples.
